(** * Linux DVB API version 5 tuner control (modules/access/dtv/linux.c)

    A shallow embedding of the tuner control layer of [linux.c]: the
    parameter translators and their tables, the session constructor and
    destructor, reading, the PID filter manager (the build without
    [USE_DMX]) and the delivery-system configurators, followed by the
    properties of this code that the specification states and by further
    properties the code has.  The signal queries, which compute in floating
    point, are left out.  Of the Cedar decoder ([modules/codec/cedar.c]) the
    handling of the input block is modelled. *)

From Equations Require Import Equations.
From Stdlib Require Import ZArith Lia Ascii String Sorted.
From stdpp Require Import base list.

Local Open Scope string_scope.
Local Open Scope list_scope.
Local Open Scope Z_scope.

(** ** C integer types

    Integers are [Z]; every conversion to a fixed-width type is written
    out. *)

Definition to_uint8 (z : Z) : Z := z mod 2 ^ 8.
Definition to_uint16 (z : Z) : Z := z mod 2 ^ 16.
Definition to_uint32 (z : Z) : Z := z mod 2 ^ 32.

(** Conversion to [int] / [int32_t] (two's complement). *)
Definition to_int32 (z : Z) : Z := (z + 2 ^ 31) mod 2 ^ 32 - 2 ^ 31.

Definition INT_MIN : Z := - 2 ^ 31.
Definition INT_MAX : Z := 2 ^ 31 - 1.
Definition UINT32_MAX : Z := 2 ^ 32 - 1.

Definition is_int (z : Z) : Prop := INT_MIN <= z <= INT_MAX.
Definition is_uint32 (z : Z) : Prop := 0 <= z <= UINT32_MAX.

(** C truth value of a comparison. *)
Definition c_bool (b : bool) : Z := if b then 1 else 0.

(** ** Kernel vocabulary *)

(** Modelled from the spec: the enumerators and command codes of
    [<linux/dvb/frontend.h>] and [<linux/dvb/dmx.h>].  These kernel headers
    are included by [linux.c] but are not part of the repository; the
    specification and the source name the enumerators, and each one has here
    the value the header gives it (position in its [enum], or its
    [#define]). *)
Module frontend_h.
(* enum fe_sec_voltage *)
Definition SEC_VOLTAGE_13 := 0.
Definition SEC_VOLTAGE_18 := 1.
Definition SEC_VOLTAGE_OFF := 2.
(* enum fe_sec_tone_mode *)
Definition SEC_TONE_ON := 0.
Definition SEC_TONE_OFF := 1.
(* enum fe_sec_mini_cmd *)
Definition SEC_MINI_A := 0.
Definition SEC_MINI_B := 1.
(* enum fe_spectral_inversion *)
Definition INVERSION_OFF := 0.
Definition INVERSION_ON := 1.
Definition INVERSION_AUTO := 2.
(* enum fe_code_rate *)
Definition FEC_NONE := 0.
Definition FEC_1_2 := 1.
Definition FEC_2_3 := 2.
Definition FEC_3_4 := 3.
Definition FEC_4_5 := 4.
Definition FEC_5_6 := 5.
Definition FEC_6_7 := 6.
Definition FEC_7_8 := 7.
Definition FEC_8_9 := 8.
Definition FEC_AUTO := 9.
Definition FEC_3_5 := 10.
Definition FEC_9_10 := 11.
(* enum fe_modulation *)
Definition QPSK := 0.
Definition QAM_16 := 1.
Definition QAM_32 := 2.
Definition QAM_64 := 3.
Definition QAM_128 := 4.
Definition QAM_256 := 5.
Definition QAM_AUTO := 6.
Definition VSB_8 := 7.
Definition VSB_16 := 8.
Definition PSK_8 := 9.
Definition APSK_16 := 10.
Definition APSK_32 := 11.
Definition DQPSK := 12.
(* enum fe_transmit_mode *)
Definition TRANSMISSION_MODE_2K := 0.
Definition TRANSMISSION_MODE_8K := 1.
Definition TRANSMISSION_MODE_AUTO := 2.
Definition TRANSMISSION_MODE_4K := 3.
(* enum fe_guard_interval *)
Definition GUARD_INTERVAL_1_32 := 0.
Definition GUARD_INTERVAL_1_16 := 1.
Definition GUARD_INTERVAL_1_8 := 2.
Definition GUARD_INTERVAL_1_4 := 3.
Definition GUARD_INTERVAL_AUTO := 4.
(* enum fe_hierarchy *)
Definition HIERARCHY_NONE := 0.
Definition HIERARCHY_1 := 1.
Definition HIERARCHY_2 := 2.
Definition HIERARCHY_4 := 3.
Definition HIERARCHY_AUTO := 4.
(* enum fe_pilot *)
Definition PILOT_ON := 0.
Definition PILOT_OFF := 1.
Definition PILOT_AUTO := 2.
(* enum fe_rolloff *)
Definition ROLLOFF_35 := 0.
Definition ROLLOFF_20 := 1.
Definition ROLLOFF_25 := 2.
Definition ROLLOFF_AUTO := 3.
(* enum fe_delivery_system *)
Definition SYS_DVBC_ANNEX_AC := 1.
Definition SYS_DVBC_ANNEX_B := 2.
Definition SYS_DVBT := 3.
Definition SYS_DVBS := 5.
Definition SYS_DVBS2 := 6.
Definition SYS_ATSC := 11.
(* DTV_* property commands *)
Definition DTV_TUNE := 1.
Definition DTV_CLEAR := 2.
Definition DTV_FREQUENCY := 3.
Definition DTV_MODULATION := 4.
Definition DTV_BANDWIDTH_HZ := 5.
Definition DTV_INVERSION := 6.
Definition DTV_SYMBOL_RATE := 8.
Definition DTV_INNER_FEC := 9.
Definition DTV_VOLTAGE := 10.
Definition DTV_TONE := 11.
Definition DTV_PILOT := 12.
Definition DTV_ROLLOFF := 13.
Definition DTV_DELIVERY_SYSTEM := 17.
Definition DTV_CODE_RATE_HP := 36.
Definition DTV_CODE_RATE_LP := 37.
Definition DTV_GUARD_INTERVAL := 38.
Definition DTV_TRANSMISSION_MODE := 39.
Definition DTV_HIERARCHY := 40.
(* <linux/dvb/dmx.h> *)
Definition DMX_IN_FRONTEND := 0.
Definition DMX_OUT_TS_TAP := 2.
Definition DMX_OUT_TSDEMUX_TAP := 3.
Definition DMX_PES_OTHER := 20.
Definition DMX_IMMEDIATE_START := 4.
End frontend_h.
Export frontend_h.

(** ** Parameter translator *)

(** Modelled from the spec: [bsearch] of the C library (not part of the repository),
    the binary search by which the translation tables are looked up.  The
    array is the list [base], [compar] is already applied to the key, and the
    result is the element found ([None] for [NULL]).  The loop keeps the
    half-open range [l, u) and probes its middle, as the usual C library
    implementations do. *)
Equations? bsearch_loop {E : Type} (compar : E -> Z) (base : list E)
    (l u : nat) : option E by wf (u - l)%nat lt :=
  bsearch_loop compar base l u with lt_dec l u => {
    | right _ := None;
    | left _ with base !! ((l + u) / 2)%nat => {
        | None := None;
        | Some p with Z.compare (compar p) 0 => {
            | Lt := bsearch_loop compar base l ((l + u) / 2)%nat;
            | Gt := bsearch_loop compar base ((l + u) / 2 + 1)%nat u;
            | Eq := Some p } } }.
Proof.
  all: pose proof (Nat.div_mod_eq (l + u) 2);
    pose proof (Nat.mod_upper_bound (l + u) 2); lia.
Qed.

Definition bsearch {E : Type} (compar : E -> Z) (base : list E) (nmemb : nat)
    : option E :=
  bsearch_loop compar base 0 nmemb.

(** [dvb_int_map_t] and [dvb_str_map_t]: one record for both, the key type
    being [int] for the former and [char[8]] for the latter. *)
Record dvb_map_t (K : Type) : Type := MapEntry { vlc : K; linux_ : Z }.
Arguments MapEntry {K} _ _.
Arguments vlc {K} _.
Arguments linux_ {K} _.

Definition dvb_int_map_t : Type := dvb_map_t Z.
Definition dvb_str_map_t : Type := dvb_map_t string.

(** The difference is taken in [int]; where C leaves its overflow undefined
    the usual two's complement result is taken. *)
Definition icmp (a : Z) (b : dvb_int_map_t) : Z :=
  let key := to_int32 a in
  to_int32 (key - vlc b).

(** Maps a VLC config integer to a Linux DVB enum value *)
Definition dvb_parse_int (i : Z) (map : list dvb_int_map_t) (n : nat)
    (def : Z) : Z :=
  match bsearch (icmp i) map n with
  | Some p => linux_ p
  | None => def
  end.

(** [unsigned char] value of a character. *)
Definition uchar (c : ascii) : Z := Z.of_N (N_of_ascii c).

(** Modelled from the spec: [strcmp] of the C library (not part of the repository);
    string keys are compared case-sensitively, byte by byte as
    [unsigned char].  A string stands for the C array holding its characters
    followed by a NUL, so a NUL inside it ends the comparison. *)
Fixpoint strcmp (a b : string) : Z :=
  match a, b with
  | EmptyString, EmptyString => 0
  | EmptyString, String d _ => 0 - uchar d
  | String c _, EmptyString => uchar c
  | String c a', String d b' =>
      if uchar c =? uchar d
      then (if uchar c =? 0 then 0 else strcmp a' b')
      else uchar c - uchar d
  end.

Definition scmp (a : string) (b : dvb_str_map_t) : Z :=
  strcmp a (vlc b).

(** Maps a VLC config string to a Linux DVB enum value; [None] is the
    [NULL] string. *)
Definition dvb_parse_str (str : option string) (map : list dvb_str_map_t)
    (n : nat) (def : Z) : Z :=
  match str with
  | Some s =>
      match bsearch (scmp s) map n with
      | Some p => linux_ p
      | None => def
      end
  | None => def
  end.

(** *** Modulations *)
Definition mods : list dvb_str_map_t :=
  [ MapEntry "128QAM" QAM_128;
    MapEntry "16APSK" APSK_16;
    MapEntry "16QAM" QAM_16;
    MapEntry "16VSB" VSB_16;
    MapEntry "256QAM" QAM_256;
    MapEntry "32APSK" APSK_32;
    MapEntry "32QAM" QAM_32;
    MapEntry "64QAM" QAM_64;
    MapEntry "8PSK" PSK_8;
    MapEntry "8VSB" VSB_8;
    MapEntry "DQPSK" DQPSK;
    MapEntry "QAM" QAM_AUTO;
    MapEntry "QPSK" QPSK ].

Definition dvb_parse_modulation (str : option string) (def : Z) : Z :=
  dvb_parse_str str mods (length mods) def.

Definition rates : list dvb_str_map_t :=
  [ MapEntry "" FEC_AUTO;
    MapEntry "1/2" FEC_1_2;
    MapEntry "2/3" FEC_2_3;
    MapEntry "3/4" FEC_3_4;
    MapEntry "4/5" FEC_4_5;
    MapEntry "5/6" FEC_5_6;
    MapEntry "6/7" FEC_6_7;
    MapEntry "7/8" FEC_7_8;
    MapEntry "8/9" FEC_8_9;
    MapEntry "9/10" FEC_9_10 ].

Definition dvb_parse_fec (str : option string) : Z :=
  dvb_parse_str str rates (length rates) FEC_AUTO.

(** *** DVB-S *)
Definition polarization_tab : list dvb_int_map_t :=
  [ MapEntry 0 SEC_VOLTAGE_OFF;
    MapEntry (uchar "H") SEC_VOLTAGE_18;
    MapEntry (uchar "L") SEC_VOLTAGE_18;
    MapEntry (uchar "R") SEC_VOLTAGE_13;
    MapEntry (uchar "V") SEC_VOLTAGE_13 ].

(** [pol] is the [char] argument promoted to [int]; the result is converted
    to [unsigned]. *)
Definition dvb_parse_polarization (pol : Z) : Z :=
  to_uint32 (dvb_parse_int pol polarization_tab 5 SEC_VOLTAGE_OFF).

(** *** DVB-T *)
Definition transmit_mode_tab : list dvb_int_map_t :=
  [ MapEntry (-1) TRANSMISSION_MODE_AUTO;
    MapEntry 2 TRANSMISSION_MODE_2K;
    MapEntry 4 TRANSMISSION_MODE_4K;
    MapEntry 8 TRANSMISSION_MODE_8K ].

Definition dvb_parse_transmit_mode (i : Z) : Z :=
  dvb_parse_int i transmit_mode_tab (length transmit_mode_tab)
    TRANSMISSION_MODE_AUTO.

Definition guard_tab : list dvb_str_map_t :=
  [ MapEntry "" GUARD_INTERVAL_AUTO;
    MapEntry "1/16" GUARD_INTERVAL_1_16;
    MapEntry "1/32" GUARD_INTERVAL_1_32;
    MapEntry "1/4" GUARD_INTERVAL_1_4;
    MapEntry "1/8" GUARD_INTERVAL_1_8 ].

Definition dvb_parse_guard (str : option string) : Z :=
  dvb_parse_str str guard_tab (length guard_tab) GUARD_INTERVAL_AUTO.

(** The initialisers of this table are written enumerator first, so the
    enumerator lands in the key field [vlc] and the configuration integer in
    [linux_]. *)
Definition hierarchy_tab : list dvb_int_map_t :=
  [ MapEntry HIERARCHY_AUTO (-1);
    MapEntry HIERARCHY_NONE 0;
    MapEntry HIERARCHY_1 1;
    MapEntry HIERARCHY_2 2;
    MapEntry HIERARCHY_4 4 ].

Definition dvb_parse_hierarchy (i : Z) : Z :=
  dvb_parse_int i hierarchy_tab (length hierarchy_tab) HIERARCHY_AUTO.

(** ** Host interface

    The kernel, the allocator and the logger are the outside world.  Every
    call made to it is recorded as an [event]; what a system call returns is
    decided by the host, as a function of everything that happened before. *)

(** Modelled from the spec: the open flags of [<fcntl.h>] (system header,
    not part of the repository): data nodes are opened read-only or read-write, with
    close-on-exec set and non-blocking mode forced after the open.  The
    values are those of Linux's generic ABI; the source defines [O_SEARCH]
    as [O_RDONLY] where the system lacks it. *)
Module fcntl_h.
Definition O_RDONLY := 0.
Definition O_RDWR := 2.
Definition O_NONBLOCK := 2048.
Definition O_DIRECTORY := 65536.
Definition O_CLOEXEC := 524288.
Definition O_SEARCH := O_RDONLY.
End fcntl_h.
Export fcntl_h.

Record dmx_pes_filter_params : Type := {
  pes_pid : Z;
  pes_input : Z;
  pes_output : Z;
  pes_type : Z;
  pes_flags : Z
}.

(** [struct dtv_property], of which the source sets [cmd] and [u.data]. *)
Record dtv_property : Type := { cmd : Z; data : Z }.

(** [struct dvb_frontend_info], of which the source reads these fields. *)
Record dvb_frontend_info : Type := {
  info_name : string;
  info_type : Z;
  info_caps : Z
}.

(** The [ioctl] requests the source issues, each with the argument it
    passes. *)
Inductive ioctl_req : Type :=
| DMX_SET_BUFFER_SIZE (size : Z)
| DMX_SET_PES_FILTER (param : dmx_pes_filter_params)
| FE_GET_INFO
| FE_SET_PROPERTY (num : Z) (props : list dtv_property)
| FE_ENABLE_HIGH_LNB_VOLTAGE (val : Z)
| FE_DISEQC_SEND_MASTER_CMD (msg : list Z)
| FE_DISEQC_SEND_BURST (burst : Z).

Inductive call : Type :=
| c_open (path : string) (flags : Z)
| c_openat (dirfd : Z) (path : string) (flags : Z)
| c_fcntl_getfl (fd : Z)
| c_fcntl_setfl (fd : Z) (flags : Z)
| c_fcntl_dupfd_cloexec (fd : Z)
| c_ioctl (fd : Z) (req : ioctl_req)
| c_close (fd : Z)
| c_malloc
| c_free.

Inductive msg_type : Type := MSG_ERR | MSG_WARN | MSG_DBG.

Inductive msg_arg : Type :=
| arg_int (z : Z)
| arg_str (s : string).

Inductive event : Type :=
| Call (c : call) (ret : Z)
| Msg (t : msg_type) (fmt : string) (args : list msg_arg)
| Msleep (us : Z).

(** A computation reads the history of events so far and yields a value
    together with the events it adds. *)
Definition M (A : Type) : Type := list event -> A * list event.

#[global] Instance M_ret : MRet M := fun A a _ => (a, []).

#[global] Instance M_bind : MBind M := fun A B f m h =>
  let '(a, e1) := m h in
  let '(b, e2) := f a (h ++ e1) in
  (b, e1 ++ e2).

Definition emit (e : event) : M unit := fun _ => (tt, [e]).

Definition msg_Err (fmt : string) (args : list msg_arg) : M unit :=
  emit (Msg MSG_ERR fmt args).
Definition msg_Warn (fmt : string) (args : list msg_arg) : M unit :=
  emit (Msg MSG_WARN fmt args).
Definition msg_Dbg (fmt : string) (args : list msg_arg) : M unit :=
  emit (Msg MSG_DBG fmt args).
Definition msleep (us : Z) : M unit := emit (Msleep us).

(** [when c m]: the statement [if (c) m;]. *)
Definition when (c : bool) (m : M unit) : M unit :=
  if c then m else mret tt.

(** The configuration variables an object inherits. *)
Record vlc_object_t : Type := {
  var_InheritInteger : string -> Z;
  var_InheritBool : string -> bool
}.

Definition MAX_PIDS : nat := 256.

(** An element of [pids]. *)
Record pid_slot : Type := { fd : Z; pid : Z }.

(** [struct dvb_device] (built without [USE_DMX]); [pids] is an array of
    [MAX_PIDS] elements. *)
Record dvb_device : Type := {
  obj : vlc_object_t;
  frontend : Z;
  demux : Z;
  dir : Z;
  dev_id : Z;
  pids : list pid_slot;
  ca : Z;
  info : dvb_frontend_info;
  budget : bool
}.

Definition set_obj (v : vlc_object_t) (d : dvb_device) : dvb_device :=
  {| obj := v; frontend := frontend d; demux := demux d; dir := dir d;
     dev_id := dev_id d; pids := pids d; ca := ca d; info := info d;
     budget := budget d |}.
Definition set_frontend (v : Z) (d : dvb_device) : dvb_device :=
  {| obj := obj d; frontend := v; demux := demux d; dir := dir d;
     dev_id := dev_id d; pids := pids d; ca := ca d; info := info d;
     budget := budget d |}.
Definition set_demux (v : Z) (d : dvb_device) : dvb_device :=
  {| obj := obj d; frontend := frontend d; demux := v; dir := dir d;
     dev_id := dev_id d; pids := pids d; ca := ca d; info := info d;
     budget := budget d |}.
Definition set_dir (v : Z) (d : dvb_device) : dvb_device :=
  {| obj := obj d; frontend := frontend d; demux := demux d; dir := v;
     dev_id := dev_id d; pids := pids d; ca := ca d; info := info d;
     budget := budget d |}.
Definition set_dev_id (v : Z) (d : dvb_device) : dvb_device :=
  {| obj := obj d; frontend := frontend d; demux := demux d; dir := dir d;
     dev_id := v; pids := pids d; ca := ca d; info := info d;
     budget := budget d |}.
Definition set_pids (v : list pid_slot) (d : dvb_device) : dvb_device :=
  {| obj := obj d; frontend := frontend d; demux := demux d; dir := dir d;
     dev_id := dev_id d; pids := v; ca := ca d; info := info d;
     budget := budget d |}.
Definition set_ca (v : Z) (d : dvb_device) : dvb_device :=
  {| obj := obj d; frontend := frontend d; demux := demux d; dir := dir d;
     dev_id := dev_id d; pids := pids d; ca := v; info := info d;
     budget := budget d |}.
Definition set_info (v : dvb_frontend_info) (d : dvb_device) : dvb_device :=
  {| obj := obj d; frontend := frontend d; demux := demux d; dir := dir d;
     dev_id := dev_id d; pids := pids d; ca := ca d; info := v;
     budget := budget d |}.
Definition set_budget (v : bool) (d : dvb_device) : dvb_device :=
  {| obj := obj d; frontend := frontend d; demux := demux d; dir := dir d;
     dev_id := dev_id d; pids := pids d; ca := ca d; info := info d;
     budget := v |}.

(** [snprintf] of a [uint8_t] with ["%"PRIu8]. *)
Definition digit (n : Z) : ascii := ascii_of_N (Z.to_N (48 + n)).
Definition dec_uint8 (n : Z) : string :=
  if n <? 10 then String (digit n) ""
  else if n <? 100 then String (digit (n / 10)) (String (digit (n mod 10)) "")
  else String (digit (n / 100))
         (String (digit (n / 10 mod 10)) (String (digit (n mod 10)) "")).

Section Host.
(** The host: the value each call returns given the history, the
    frontend description [FE_GET_INFO] writes, and the indeterminate
    contents of a freshly allocated session record. *)
Variable os : list event -> call -> Z.
Variable fe_info : list event -> dvb_frontend_info.
Variable uninit : dvb_device.

Definition sys (c : call) : M Z := fun h =>
  let r := os h c in (r, [Call c r]).

Definition get_fe_info : M dvb_frontend_info := fun h => (fe_info h, []).

(** Opens the device directory for the specified DVB adapter *)
Definition dvb_open_adapter (adapter : Z) : M Z :=
  let dir := String.append "/dev/dvb/adapter" (dec_uint8 adapter) in
  sys (c_open dir (Z.lor (Z.lor O_SEARCH O_DIRECTORY) O_CLOEXEC)).

(** Opens the DVB device node of the specified type *)
Definition dvb_open_node (dirfd : Z) (dev : Z) (type : string) (flags : Z)
    : M Z :=
  let path := String.append type (dec_uint8 dev) in
  fd ← sys (c_openat dirfd path (Z.lor flags O_CLOEXEC));
  when (negb (fd =? -1))
    (fl ← sys (c_fcntl_getfl fd);
     _ ← sys (c_fcntl_setfl fd (Z.lor fl O_NONBLOCK));
     mret tt);;
  mret fd.

(** The loop of [dvb_close] over [pids], from index [i], [n] elements
    remaining. *)
Fixpoint dvb_close_pids (n i : nat) (d : dvb_device) : M unit :=
  match n with
  | O => mret tt
  | S n' =>
      match pids d !! i with
      | Some s =>
          when (negb (fd s =? -1)) (_ ← sys (c_close (fd s)); mret tt);;
          dvb_close_pids n' (S i) d
      | None => mret tt
      end
  end.

Definition dvb_close (d : dvb_device) : M unit :=
  when (negb (budget d))
    (_ ← sys (c_close (dir d));
     dvb_close_pids MAX_PIDS 0 d);;
  when (negb (ca d =? -1)) (_ ← sys (c_close (ca d)); mret tt);;
  when (negb (frontend d =? -1)) (_ ← sys (c_close (frontend d)); mret tt);;
  _ ← sys (c_close (demux d));
  _ ← sys c_free;
  mret tt.

(** The initialisation loop of [dvb_open]:
    [d->pids[i].pid = d->pids[i].fd = -1] for every [i < MAX_PIDS]. *)
Fixpoint dvb_open_pids (n i : nat) (ps : list pid_slot) : list pid_slot :=
  match n with
  | O => ps
  | S n' =>
      let fd' := -1 in
      dvb_open_pids n' (S i) (<[i := {| fd := fd'; pid := to_uint16 fd' |}]> ps)
  end.

(** The tail of [dvb_open], after the data path is open. *)
Definition dvb_open_tune (dirfd adapter device : Z) (tune : bool)
    (d : dvb_device) : M (option dvb_device) :=
  let error (d : dvb_device) : M (option dvb_device) :=
    _ ← sys (c_close dirfd);
    dvb_close d;;
    mret None in
  if tune then
    fe ← dvb_open_node dirfd device "frontend" O_RDWR;
    let d := set_frontend fe d in
    if fe =? -1 then
      msg_Err "cannot access frontend %u of adapter %u: %m"
        [arg_int device; arg_int adapter];;
      error d
    else
      r ← sys (c_ioctl (frontend d) FE_GET_INFO);
      if r <? 0 then
        msg_Err "cannot get frontend info: %m" [];;
        error d
      else
        i ← get_fe_info;
        let d := set_info i d in
        msg_Dbg "using frontend: %s" [arg_str (info_name (info d))];;
        msg_Dbg " type %u, capabilities 0x%08X"
          [arg_int (info_type (info d)); arg_int (info_caps (info d))];;
        c ← dvb_open_node dirfd device "ca" O_RDWR;
        let d := set_ca c d in
        when (ca d =? -1)
          (msg_Dbg "conditional access module not available (%m)" []);;
        _ ← sys (c_close dirfd);
        mret (Some d)
  else
    _ ← sys (c_close dirfd);
    mret (Some d).

(** Opens the DVB tuner *)
Definition dvb_open (o : vlc_object_t) (tune : bool)
    : M (option dvb_device) :=
  let adapter := to_uint8 (var_InheritInteger o "dvb-adapter") in
  let device := to_uint8 (var_InheritInteger o "dvb-device") in
  dirfd ← dvb_open_adapter adapter;
  if dirfd =? -1 then
    msg_Err "cannot access adapter %u: %m" [arg_int adapter];;
    mret None
  else
    p ← sys c_malloc;
    if p =? 0 then
      _ ← sys (c_close dirfd);
      mret None
    else
      let d := set_obj o uninit in
      let d := set_frontend (-1) d in
      let d := set_ca (-1) d in
      let d := set_budget (var_InheritBool o "dvb-budget-mode") d in
      if budget d then
        dmx ← dvb_open_node dirfd device "demux" O_RDONLY;
        let d := set_demux dmx d in
        if demux d =? -1 then
          msg_Err "cannot access demultiplexer: %m" [];;
          _ ← sys c_free;
          _ ← sys (c_close dirfd);
          mret None
        else
          r ← sys (c_ioctl (demux d) (DMX_SET_BUFFER_SIZE (Z.shiftl 1 20)));
          when (r <? 0)
            (msg_Warn "cannot expand demultiplexing buffer: %m" []);;
          let param :=
            {| pes_pid := if budget d then 8192 else 0;
               pes_input := DMX_IN_FRONTEND;
               pes_output := DMX_OUT_TSDEMUX_TAP;
               pes_type := DMX_PES_OTHER;
               pes_flags := DMX_IMMEDIATE_START |} in
          r ← sys (c_ioctl (demux d) (DMX_SET_PES_FILTER param));
          if r <? 0 then
            msg_Err "cannot setup TS demultiplexer: %m" [];;
            _ ← sys (c_close dirfd);
            dvb_close d;;
            mret None
          else dvb_open_tune dirfd adapter device tune d
      else
        dd ← sys (c_fcntl_dupfd_cloexec dirfd);
        let d := set_dir dd d in
        let d := set_dev_id device d in
        let d := set_pids (dvb_open_pids MAX_PIDS 0 (pids d)) d in
        dvr ← dvb_open_node (dir d) device "dvr" O_RDONLY;
        let d := set_demux dvr d in
        if demux d =? -1 then
          msg_Err "cannot access DVR: %m" [];;
          _ ← sys c_free;
          _ ← sys (c_close dirfd);
          mret None
        else dvb_open_tune dirfd adapter device tune d.

(** *** PID filter manager *)

(** The loop of [dvb_add_pid] from index [i], [n] elements remaining;
    running off the table is the [EMFILE] exit.  The result pairs the
    return value with the session as the call leaves it. *)
Fixpoint dvb_add_pid_loop (n i : nat) (d : dvb_device) (p : Z)
    : M (Z * dvb_device) :=
  let error : M (Z * dvb_device) :=
    msg_Err "cannot add PID 0x%04u: %m" [arg_int p];;
    mret (-1, d) in
  match n with
  | O => error
  | S n' =>
      match pids d !! i with
      | None => error
      | Some s =>
          if pid s =? p then mret (0, d)
          else if negb (fd s =? -1) then dvb_add_pid_loop n' (S i) d p
          else
            fd' ← dvb_open_node (dir d) (dev_id d) "demux" O_RDONLY;
            if fd' =? -1 then error
            else
              let param :=
                {| pes_pid := p;
                   pes_input := DMX_IN_FRONTEND;
                   pes_output := DMX_OUT_TS_TAP;
                   pes_type := DMX_PES_OTHER;
                   pes_flags := DMX_IMMEDIATE_START |} in
              r ← sys (c_ioctl fd' (DMX_SET_PES_FILTER param));
              if r <? 0 then
                _ ← sys (c_close fd');
                error
              else
                mret (0, set_pids (<[i := {| fd := fd'; pid := p |}]> (pids d)) d)
      end
  end.

Definition dvb_add_pid (d : dvb_device) (p : Z) : M (Z * dvb_device) :=
  if budget d then mret (0, d)
  else dvb_add_pid_loop MAX_PIDS 0 d p.

Fixpoint dvb_remove_pid_loop (n i : nat) (d : dvb_device) (p : Z)
    : M dvb_device :=
  match n with
  | O => mret d
  | S n' =>
      match pids d !! i with
      | None => mret d
      | Some s =>
          if pid s =? p then
            _ ← sys (c_close (fd s));
            let fd' := -1 in
            mret (set_pids (<[i := {| fd := fd'; pid := to_uint16 fd' |}]> (pids d)) d)
          else dvb_remove_pid_loop n' (S i) d p
      end
  end.

Definition dvb_remove_pid (d : dvb_device) (p : Z) : M dvb_device :=
  if budget d then mret d
  else dvb_remove_pid_loop MAX_PIDS 0 d p.

(** *** Property sets *)

(** [va_arg (ap, uint32_t)]; every caller passes two arguments per
    property. *)
Definition va_arg (ap : list Z) : Z * list Z :=
  match ap with
  | [] => (0, [])
  | a :: ap' => (to_uint32 a, ap')
  end.

(** The loop of [dvb_vset_props] filling [buf]. *)
Fixpoint dvb_vset_props_loop (n : nat) (ap : list Z)
    : M (list dtv_property) :=
  match n with
  | O => mret []
  | S n' =>
      let '(c, ap) := va_arg ap in
      let '(v, ap) := va_arg ap in
      msg_Dbg "setting property %u to %u" [arg_int c; arg_int v];;
      buf ← dvb_vset_props_loop n' ap;
      mret ({| cmd := c; data := v |} :: buf)
  end.

Definition dvb_vset_props (d : dvb_device) (n : nat) (ap : list Z) : M Z :=
  buf ← dvb_vset_props_loop n ap;
  r ← sys (c_ioctl (frontend d) (FE_SET_PROPERTY (Z.of_nat n) buf));
  if r <? 0 then
    msg_Err "cannot set frontend tuning parameters: %m" [];;
    mret (-1)
  else mret 0.

Definition dvb_set_props (d : dvb_device) (n : nat) (ap : list Z) : M Z :=
  dvb_vset_props d n ap.

Definition dvb_set_prop (d : dvb_device) (prop val : Z) : M Z :=
  dvb_set_props d 1 [prop; val].

Definition dvb_set_inversion (d : dvb_device) (v : Z) : M Z :=
  let v :=
    if v =? 0 then INVERSION_OFF
    else if v =? 1 then INVERSION_ON
    else INVERSION_AUTO in
  dvb_set_prop d DTV_INVERSION v.

Definition dvb_tune (d : dvb_device) : M Z :=
  dvb_set_prop d DTV_TUNE 0.

(** *** DVB-C *)
Definition dvb_set_dvbc (d : dvb_device) (freq : Z) (modstr : option string)
    (srate : Z) (fecstr : option string) : M Z :=
  let mod_ := to_uint32 (dvb_parse_modulation modstr QAM_AUTO) in
  let fec := to_uint32 (dvb_parse_fec fecstr) in
  dvb_set_props d 6
    [DTV_CLEAR; 0;
     DTV_DELIVERY_SYSTEM; SYS_DVBC_ANNEX_AC;
     DTV_FREQUENCY; to_uint32 (freq * 1000); DTV_MODULATION; mod_;
     DTV_SYMBOL_RATE; srate; DTV_INNER_FEC; fec].

(** *** DVB-S *)

(** An entry of the table of default oscillator frequencies. *)
Record lnb_band : Type := { min : Z; max : Z; low : Z; high : Z }.

Definition lnb_tab : list lnb_band :=
  [ {| min := 10700; max := 13250; low := 9750; high := 10600 |}; (* Ku band *)
    {| min := 4500; max := 4800; low := 5950; high := 0 |}; (* C band (high) *)
    {| min := 3400; max := 4200; low := 5150; high := 0 |}; (* C band (low) *)
    {| min := 2500; max := 2700; low := 3650; high := 0 |}; (* S band *)
    {| min := 950; max := 2150; low := 0; high := 0 |} ]. (* adjusted IF (L band) *)

(** The search loop over the bands, on the entries still to visit; the
    result is the pair [(lowf, highf)] of the first band holding [mhz]. *)
Fixpoint dvb_set_sec_band (tab : list lnb_band) (mhz : Z) : option (Z * Z) :=
  match tab with
  | [] => None
  | b :: tab' =>
      if (mhz >=? min b) && (mhz <=? max b)
      then Some (to_uint32 (low b * 1000), to_uint32 (high b * 1000))
      else dvb_set_sec_band tab' mhz
  end.

(** The block of [dvb_set_sec] choosing default oscillator frequencies;
    it yields the values of [lowf] and [highf] after the block.
    [uint_fast16_t] is at least 32 bits wide on Linux, so [freq / 1000]
    is held exactly. *)
Definition dvb_set_sec_lnb (freq lowf highf : Z) : M (Z * Z) :=
  if lowf =? 0 then
    let mhz := freq / 1000 in
    '(lowf, highf) ←
      match dvb_set_sec_band lnb_tab mhz with
      | Some known => mret known
      | None =>
          msg_Err "no known band for frequency %u kHz" [arg_int freq];;
          mret (lowf, highf)
      end;
    msg_Dbg "selected LNB low: %u kHz, LNB high: %u kHz"
      [arg_int lowf; arg_int highf];;
    mret (lowf, highf)
  else mret (lowf, highf).

(** [dvb_set_sec]; the result is [None] when [assert] aborts the
    program. *)
Definition dvb_set_sec (d : dvb_device) (freq : Z) (pol : Z)
    (lowf highf switchf : Z) : M (option Z) :=
  (* Always try to configure high voltage, but only warn on enable failure *)
  let val := c_bool (var_InheritBool (obj d) "dvb-high-voltage") in
  r ← sys (c_ioctl (frontend d) (FE_ENABLE_HIGH_LNB_VOLTAGE val));
  when ((r <? 0) && negb (val =? 0))
    (msg_Err "cannot enable high LNB voltage: %m" []);;
  '(lowf, highf) ← dvb_set_sec_lnb freq lowf highf;
  (* Use high oscillator frequency? *)
  let high := negb (highf =? 0) && (freq >? switchf) in
  let freq := to_uint32 (freq - (if high then highf else lowf)) in
  let freq :=
    if to_int32 freq <? 0 then to_uint32 (freq * to_uint32 (-1))
    else freq in
  if negb (freq <? 2147483647) then mret None
  else
    let tone :=
      let t := var_InheritInteger (obj d) "dvb-tone" in
      if t =? 0 then SEC_TONE_OFF
      else if t =? 1 then SEC_TONE_ON
      else if high then SEC_TONE_ON else SEC_TONE_OFF in
    (*** LNB selection / DiSEqC ***)
    let voltage := dvb_parse_polarization pol in
    r ← dvb_set_props d 2 [DTV_TONE; SEC_TONE_OFF; DTV_VOLTAGE; voltage];
    if negb (r =? 0) then mret (Some (-1))
    else
      let satno := to_uint32 (var_InheritInteger (obj d) "dvb-satno") in
      let finish : M (option Z) :=
        (* Continuous tone (to select high oscillator frequency) *)
        r ← dvb_set_props d 2 [DTV_FREQUENCY; freq; DTV_TONE; tone];
        mret (Some r) in
      if satno >? 0 then
        (* DiSEqC 1.0 *)
        let satno := Z.land (to_uint32 (satno - 1)) 3 in
        let msg :=
          [ 224; (* framing: master, no reply, 1st TX *)
            16;  (* address: all LNB/switch *)
            56;  (* command: Write Port Group 0 *)
            to_uint8
              (Z.lor (Z.lor (Z.lor 240 (* data[0]: clear all bits *)
                  (Z.shiftl satno 2)) (* LNB (A, B, C or D) *)
                  (Z.shiftl (c_bool (voltage =? SEC_VOLTAGE_18)) 1)) (* polarization *)
                  (c_bool (tone =? SEC_TONE_ON))); (* option *)
            0; 0 ] in
        msleep 15000;; (* wait 15 ms before DiSEqC command *)
        r ← sys (c_ioctl (frontend d) (FE_DISEQC_SEND_MASTER_CMD msg));
        if r <? 0 then
          msg_Err "cannot send DiSEqC command: %m" [];;
          mret (Some (-1))
        else
          msleep (54000 + 15000);;
          (* Mini-DiSEqC *)
          let satno := Z.land satno 1 in
          r ← sys (c_ioctl (frontend d)
                     (FE_DISEQC_SEND_BURST
                        (if negb (satno =? 0) then SEC_MINI_B else SEC_MINI_A)));
          if r <? 0 then
            msg_Err "cannot send Mini-DiSEqC tone burst: %m" [];;
            mret (Some (-1))
          else
            msleep 15000;;
            finish
      else finish.

Definition dvb_set_dvbs (d : dvb_device) (freq srate : Z)
    (fecstr : option string) : M Z :=
  let fec := to_uint32 (dvb_parse_fec fecstr) in
  dvb_set_props d 5
    [DTV_CLEAR; 0; DTV_DELIVERY_SYSTEM; SYS_DVBS;
     DTV_FREQUENCY; freq; DTV_SYMBOL_RATE; srate;
     DTV_INNER_FEC; fec].

Definition dvb_set_dvbs2 (d : dvb_device) (freq : Z) (modstr : option string)
    (srate : Z) (fecstr : option string) (pilot rolloff : Z) : M Z :=
  let mod_ := to_uint32 (dvb_parse_modulation modstr QPSK) in
  let fec := to_uint32 (dvb_parse_fec fecstr) in
  let pilot :=
    if pilot =? 0 then PILOT_OFF
    else if pilot =? 1 then PILOT_ON
    else PILOT_AUTO in
  let rolloff :=
    if rolloff =? 20 then ROLLOFF_20
    else if rolloff =? 25 then ROLLOFF_25
    else if rolloff =? 35 then ROLLOFF_35
    else PILOT_AUTO in
  dvb_set_props d 8
    [DTV_CLEAR; 0; DTV_DELIVERY_SYSTEM; SYS_DVBS2;
     DTV_FREQUENCY; freq; DTV_MODULATION; mod_;
     DTV_SYMBOL_RATE; srate; DTV_INNER_FEC; fec;
     DTV_PILOT; pilot; DTV_ROLLOFF; rolloff].

(** *** DVB-T *)
Definition dvb_set_dvbt (d : dvb_device) (freq : Z) (modstr : option string)
    (fechstr feclstr : option string) (bandwidth : Z) (transmit_val : Z)
    (guardstr : option string) (hierarchy_val : Z) : M Z :=
  let mod_ := to_uint32 (dvb_parse_modulation modstr QAM_AUTO) in
  let fec_hp := to_uint32 (dvb_parse_fec fechstr) in
  let fec_lp := to_uint32 (dvb_parse_fec feclstr) in
  let bandwidth := to_uint32 (bandwidth * 1000000) in
  let transmit_mode := to_uint32 (dvb_parse_transmit_mode transmit_val) in
  let guard_it := to_uint32 (dvb_parse_guard guardstr) in
  let hierarchy := to_uint32 (dvb_parse_hierarchy hierarchy_val) in
  dvb_set_props d 10
    [DTV_CLEAR; 0; DTV_DELIVERY_SYSTEM; SYS_DVBT;
     DTV_FREQUENCY; to_uint32 (freq * 1000); DTV_MODULATION; mod_;
     DTV_CODE_RATE_HP; fec_hp; DTV_CODE_RATE_LP; fec_lp;
     DTV_BANDWIDTH_HZ; bandwidth;
     DTV_TRANSMISSION_MODE; transmit_mode;
     DTV_GUARD_INTERVAL; guard_it;
     DTV_HIERARCHY; hierarchy].

(** *** ATSC *)
Definition dvb_set_atsc (d : dvb_device) (freq : Z) (modstr : option string)
    : M Z :=
  let mod_ := to_uint32 (dvb_parse_modulation modstr VSB_8) in
  dvb_set_props d 4
    [DTV_CLEAR; 0; DTV_DELIVERY_SYSTEM; SYS_ATSC;
     DTV_FREQUENCY; to_uint32 (freq * 1000); DTV_MODULATION; mod_].

Definition dvb_set_cqam (d : dvb_device) (freq : Z) (modstr : option string)
    : M Z :=
  let mod_ := to_uint32 (dvb_parse_modulation modstr QAM_AUTO) in
  dvb_set_props d 4
    [DTV_CLEAR; 0;
     DTV_DELIVERY_SYSTEM; SYS_DVBC_ANNEX_B;
     DTV_FREQUENCY; to_uint32 (freq * 1000); DTV_MODULATION; mod_].

End Host.

(** ** Delivery-system guess and reading *)

(** Modelled from the spec: [enum fe_type] of [<linux/dvb/frontend.h>]
    (kernel header, not part of the repository), the frontend hardware
    classes satellite, cable, terrestrial and ATSC, with the values the
    header gives them. *)
Module fe_type_h.
Definition FE_QPSK := 0.
Definition FE_QAM := 1.
Definition FE_OFDM := 2.
Definition FE_ATSC := 3.
End fe_type_h.
Export fe_type_h.

(** The delivery systems [dvb_guess_system] can point to (objects declared
    in [dtv.h]). *)
Inductive delsys_t : Type := dvbs | dvbc | dvbt | atsc.

(** [dvb_guess_system]; the outer [None] is the abort of [assert], the
    inner one the [NULL] result. *)
Definition dvb_guess_system (d : dvb_device) : option (option delsys_t) :=
  if negb (negb (frontend d =? -1)) then None
  else
    let t := info_type (info d) in
    if t =? FE_QPSK then Some (Some dvbs)
    else if t =? FE_QAM then Some (Some dvbc)
    else if t =? FE_OFDM then Some (Some dvbt)
    else if t =? FE_ATSC then Some (Some atsc)
    else Some None.

(** The values of [errno] that [dvb_read] tells apart. *)
Inductive errno_t : Type := EAGAIN | EINTR | EOVERFLOW | E_other.

(** What the kernel answers during one [dvb_read]: the result of [poll] and
    the [revents] it leaves in [ufd[0]] and [ufd[1]], the result of the
    [FE_GET_EVENT] request with [errno] and the status of the event, the
    result of [read] with [errno].  Each of the three is called at most
    once. *)
Record read_host : Type := {
  poll_ret : Z;
  revents0 : Z;
  revents1 : Z;
  get_event_ret : Z;
  get_event_errno : errno_t;
  event_status : Z;
  read_ret : Z;
  read_errno : errno_t
}.

(** What [dvb_read] does, in order. *)
Inductive read_step : Type :=
| rd_poll (fds : list Z) (timeout : Z)
| rd_get_event (fd : Z)
| rd_read (fd : Z) (len : Z)
| rd_msg (t : msg_type) (fmt : string) (args : list msg_arg).

Definition errno_eqb (a b : errno_t) : bool :=
  match a, b with
  | EAGAIN, EAGAIN | EINTR, EINTR | EOVERFLOW, EOVERFLOW
  | E_other, E_other => true
  | _, _ => false
  end.

(** Reads TS data from the tuner: number of bytes read, 0 on EOF, -1 if no
    data (yet).  The result is paired with the steps taken. *)
Definition dvb_read (d : dvb_device) (len : Z) (k : read_host)
    : Z * list read_step :=
  let ufd :=
    if negb (frontend d =? -1) then [demux d; frontend d] else [demux d] in
  let s_poll := [rd_poll ufd 500] in
  if poll_ret k <? 0 then (-1, s_poll)
  else
    let after_event (steps : list read_step) : Z * list read_step :=
      if negb (revents0 k =? 0) then
        let val := read_ret k in
        let steps := steps ++ [rd_read (demux d) len] in
        if (val =? -1)
           && (negb (errno_eqb (read_errno k) EAGAIN)
               && negb (errno_eqb (read_errno k) EINTR))
        then
          if errno_eqb (read_errno k) EOVERFLOW then
            (-1, steps ++ [rd_msg MSG_ERR "cannot demux data fast enough!" []])
          else (0, steps ++ [rd_msg MSG_ERR "cannot demux: %m" []])
        else (val, steps)
      else (-1, steps) in
    if negb (frontend d =? -1) && negb (revents1 k =? 0) then
      let steps := s_poll ++ [rd_get_event (frontend d)] in
      if get_event_ret k <? 0 then
        if errno_eqb (get_event_errno k) EOVERFLOW then
          (-1, steps ++ [rd_msg MSG_ERR "cannot dequeue events fast enough!" []])
        else
          (0, steps ++ [rd_msg MSG_ERR "cannot dequeue frontend event: %m" []])
      else
        after_event
          (steps ++ [rd_msg MSG_DBG "frontend status: 0x%02X"
                       [arg_int (event_status k)]])
    else after_event s_poll.

(** * Cedar video decoder (modules/codec/cedar.c)

    Of this module the part of [DecodeBlock] is modelled that handles the
    input block: which blocks are fed to the decoder, and with which
    timestamp. *)

(** The constants of the VLC core headers the block handling uses (the
    headers are not part of the repository); every statement holds
    whatever their values are. *)
Record vlc_block_h : Type := {
  VLC_TS_INVALID : Z;
  BLOCK_FLAG_END_OF_STREAM : Z;
  BLOCK_FLAG_DISCONTINUITY : Z;
  BLOCK_FLAG_CORRUPTED : Z
}.

(** The fields of [block_t] the decoder reads. *)
Record block_t : Type := { i_flags : Z; i_pts : Z; i_dts : Z }.

(** What [DecodeBlock] does with an input block: it drains the decoder at
    the end of the stream, feeds the block with a timestamp, or drops
    it. *)
Inductive block_input : Type :=
| in_flush
| in_stream (pts : Z)
| in_dropped.

(** The handling of one block by [DecodeBlock], given [p_sys->b_have_pts];
    the result pairs what is done with the new value of the flag. *)
Definition DecodeBlock_input (k : vlc_block_h) (b_have_pts : bool)
    (p_block : block_t) : block_input * bool :=
  if negb (Z.land (i_flags p_block) (BLOCK_FLAG_END_OF_STREAM k) =? 0) then
    (in_flush, b_have_pts)
  else if Z.land (i_flags p_block)
            (Z.lor (BLOCK_FLAG_DISCONTINUITY k) (BLOCK_FLAG_CORRUPTED k)) =? 0
  then
    if i_pts p_block >? VLC_TS_INVALID k then (in_stream (i_pts p_block), true)
    else if negb b_have_pts then (in_stream (i_dts p_block), b_have_pts)
    else (in_stream (-1), b_have_pts)
  else (in_dropped, b_have_pts).

(** [DecodeBlock] called on the blocks of a stream, one after the other. *)
Fixpoint DecodeBlock_inputs (k : vlc_block_h) (b_have_pts : bool)
    (blocks : list block_t) : list block_input * bool :=
  match blocks with
  | [] => ([], b_have_pts)
  | b :: blocks' =>
      let '(x, have) := DecodeBlock_input k b_have_pts b in
      let '(xs, have') := DecodeBlock_inputs k have blocks' in
      (x :: xs, have')
  end.

(** * Vocabulary of the statements

    The notions the statements below are written with: what makes a list of
    entries a translation table, what a run shows to the outside, and the
    concrete hosts and sessions on which the statements are exercised. *)

(** ** Translation tables *)

(** The order [bsearch] expects of the array: once an element is not below
    the key, every later element is above it. *)
Definition partitioned {E : Type} (compar : E -> Z) (base : list E) : Prop :=
  forall i j x y, (i < j)%nat ->
    base !! i = Some x -> base !! j = Some y ->
    compar x <= 0 -> compar y < 0.

Definition key_lt_int (a b : dvb_int_map_t) : Prop := vlc a < vlc b.

(** Configuration keys are small integers: their differences do not
    overflow an [int]. *)
Definition small_key (e : dvb_int_map_t) : Prop := - 2 ^ 30 <= vlc e < 2 ^ 30.

(** A translation table keyed by integers: ascending, small keys. *)
Definition int_table (map : list dvb_int_map_t) : Prop :=
  Sorted key_lt_int map /\ Forall small_key map.

(** A C string holds no NUL before its end. *)
Fixpoint no_nul (s : string) : bool :=
  match s with
  | EmptyString => true
  | String c s' => negb (uchar c =? 0) && no_nul s'
  end.

Definition key_lt_str (a b : dvb_str_map_t) : Prop :=
  strcmp (vlc a) (vlc b) < 0.

(** A translation table keyed by strings: ascending in [strcmp] order. *)
Definition str_table (map : list dvb_str_map_t) : Prop :=
  Sorted key_lt_str map /\ Forall (fun e => no_nul (vlc e) = true) map.

(** The mapping a translation table stands for: the value of the first entry
    whose key is the one sought. *)
Definition table_lookup {K : Type} (eqb : K -> K -> bool) (key : K)
    (map : list (dvb_map_t K)) : option Z :=
  linux_ <$> find (fun e => eqb key (vlc e)) map.

(** Translation as the specification words it: the mapped value when the
    key is present, the caller's default when it is absent or null. *)
Definition translate_int (i : Z) (map : list dvb_int_map_t) (def : Z) : Z :=
  default def (table_lookup Z.eqb i map).

Definition translate_str (str : option string) (map : list dvb_str_map_t)
    (def : Z) : Z :=
  match str with
  | Some s => default def (table_lookup String.eqb s map)
  | None => def
  end.

(** ** What a run shows to the outside *)

#[global] Instance msg_type_eq_dec : EqDecision msg_type.
Proof. solve_decision. Defined.

(** The requests of the [ioctl] calls of a run, in order. *)
Definition ioctls (e : list event) : list ioctl_req :=
  omap (fun ev =>
          match ev with
          | Call (c_ioctl _ q) _ => Some q
          | _ => None
          end) e.

(** The arguments of the messages of type [t] and format [fmt], in order. *)
Definition msgs (t : msg_type) (fmt : string) (e : list event)
    : list (list msg_arg) :=
  omap (fun ev =>
          match ev with
          | Msg t' fmt' args =>
              if bool_decide (t = t') && String.eqb fmt fmt'
              then Some args else None
          | _ => None
          end) e.

(** The formats of the messages the statements mention. *)
Definition fmt_setting : string := "setting property %u to %u".

Definition fmt_cannot_set : string :=
  "cannot set frontend tuning parameters: %m".

Definition fmt_selected : string :=
  "selected LNB low: %u kHz, LNB high: %u kHz".

Definition fmt_no_band : string := "no known band for frequency %u kHz".

(** The property sets submitted to the frontend. *)
Definition submitted (e : list event) : list (list dtv_property) :=
  omap (fun q =>
          match q with
          | FE_SET_PROPERTY _ props => Some props
          | _ => None
          end) (ioctls e).

(** The DiSEqC master commands sent. *)
Definition diseqc_cmds (e : list event) : list (list Z) :=
  omap (fun q =>
          match q with
          | FE_DISEQC_SEND_MASTER_CMD msg => Some msg
          | _ => None
          end) (ioctls e).


(** The value a property set gives to a command. *)
Definition prop_value (c : Z) (props : list dtv_property) : option Z :=
  data <$> find (fun p => cmd p =? c) props.

(** The array [dvb_vset_props] fills from its arguments. *)
Fixpoint va_props (n : nat) (ap : list Z) : list dtv_property :=
  match n with
  | O => []
  | S n' =>
      let '(c, ap) := va_arg ap in
      let '(v, ap) := va_arg ap in
      {| cmd := c; data := v |} :: va_props n' ap
  end.

(** The value [dvb_open] and [dvb_remove_pid] store in a slot:
    [pid = fd = -1]. *)
Definition free_slot : pid_slot := {| fd := -1; pid := to_uint16 (-1) |}.

(** The node [dvb_add_pid] opens for a new filter. *)
Definition demux_open (d : dvb_device) : call :=
  c_openat (dir d) (String.append "demux" (dec_uint8 (dev_id d)))
    (Z.lor O_RDONLY O_CLOEXEC).

(** ** Example hosts and sessions *)

(** A host on which every call succeeds; each open yields a descriptor not
    seen before. *)
Definition host_ok (h : list event) (c : call) : Z :=
  match c with
  | c_open _ _ | c_openat _ _ _ | c_fcntl_dupfd_cloexec _ =>
      3 + Z.of_nat (length h)
  | c_malloc => 1
  | _ => 0
  end.

Definition some_info (h : list event) : dvb_frontend_info :=
  {| info_name := "frontend"; info_type := 0; info_caps := 0 |}.

(** A per-PID (fallback) configuration: second satellite, tone forced on. *)
Definition fallback_obj : vlc_object_t :=
  {| var_InheritInteger := fun name =>
       if String.eqb name "dvb-satno" then 2
       else if String.eqb name "dvb-tone" then 1
       else 0;
     var_InheritBool := fun _ => false |}.

(** A budget-mode configuration. *)
Definition budget_obj : vlc_object_t :=
  {| var_InheritInteger := fun _ => 0;
     var_InheritBool := fun name => String.eqb name "dvb-budget-mode" |}.

(** Some contents for a record just allocated. *)
Definition stale_device : dvb_device :=
  {| obj := budget_obj; frontend := 77; demux := 78; dir := 79; dev_id := 80;
     pids := replicate MAX_PIDS {| fd := 81; pid := 82 |};
     ca := 83; info := some_info []; budget := true |}.

(** The session [dvb_open] builds on [host_ok] in fallback mode. *)
Definition fresh_fallback : option dvb_device :=
  fst (dvb_open host_ok some_info stale_device fallback_obj true []).

Definition fresh_session : dvb_device := default stale_device fresh_fallback.

(** The session [dvb_open] builds on [host_ok] in budget mode. *)
Definition budget_session : dvb_device :=
  default stale_device
    (fst (dvb_open host_ok some_info stale_device budget_obj true [])).

(** The run adding PID 0x100 to the fresh fallback session. *)
Definition added_0x100 : (Z * dvb_device) * list event :=
  dvb_add_pid host_ok fresh_session 256 [].

(** ** Statements of the specification that the code does not meet *)


(** The DVB-T scaling read literally: the property set submitted carries
    the frequency times 1000 and the bandwidth times 1000000. *)
Definition dvbt_scaling_exact (os : list event -> call -> Z) (d : dvb_device)
    (freq bandwidth : Z) (h : list event) : Prop :=
  exists props,
    submitted (snd (dvb_set_dvbt os d freq None None None bandwidth (-1)
                      None (-1) h)) = [props] /\
    prop_value DTV_FREQUENCY props = Some (freq * 1000) /\
    prop_value DTV_BANDWIDTH_HZ props = Some (bandwidth * 1000000).

(** Band selection, for one call: with no explicit oscillator frequencies,
    the input frequency selects the pair [(lowf, highf)] and no band error
    is logged. *)
Definition selects_band (os : list event -> call -> Z) (d : dvb_device)
    (freq pol switchf : Z) (h : list event) (lowf highf : Z) : Prop :=
  let e := snd (dvb_set_sec os d freq pol 0 0 switchf h) in
  msgs MSG_DBG fmt_selected e = [[arg_int lowf; arg_int highf]] /\
  msgs MSG_ERR fmt_no_band e = [].

(** The DiSEqC command, for one call with polarization 'V': the master
    command sent has the data byte 0xFD. *)
Definition diseqc_data_0xFD (os : list event -> call -> Z) (d : dvb_device)
    (freq lowf highf switchf : Z) (h : list event) : Prop :=
  diseqc_cmds (snd (dvb_set_sec os d freq (uchar "V") lowf highf switchf h))
  = [[224; 16; 56; 253; 0; 0]].

(** ** Descriptors *)

(** [keep fd]: the descriptor, unless it is the "not open" value -1. *)
Definition keep (x : Z) : list Z := if x =? -1 then [] else [x].

(** The descriptors a run obtained from the host, in order. *)
Definition opened_fds (e : list event) : list Z :=
  omap (fun ev =>
          match ev with
          | Call (c_open _ _) r | Call (c_openat _ _ _) r
          | Call (c_fcntl_dupfd_cloexec _) r =>
              if r =? -1 then None else Some r
          | _ => None
          end) e.

(** The descriptors a run closed, in order ([close (-1)] closes nothing). *)
Definition closed_fds (e : list event) : list Z :=
  omap (fun ev =>
          match ev with
          | Call (c_close x) _ => if x =? -1 then None else Some x
          | _ => None
          end) e.

(** How many records a run allocated, and how many it freed. *)
Definition allocs (e : list event) : nat :=
  length (omap (fun ev =>
                  match ev with
                  | Call c_malloc r => if r =? 0 then None else Some r
                  | _ => None
                  end) e).

Definition frees (e : list event) : nat :=
  length (omap (fun ev =>
                  match ev with
                  | Call c_free r => Some r
                  | _ => None
                  end) e).

(** The filter descriptors a PID table holds. *)
Definition pid_fds (ps : list pid_slot) : list Z :=
  omap (fun s => if fd s =? -1 then None else Some (fd s)) ps.

(** The descriptors a session holds, in the order [dvb_close] releases
    them. *)
Definition held (d : dvb_device) : list Z :=
  (if budget d then [] else keep (dir d) ++ pid_fds (pids d))
  ++ keep (ca d) ++ keep (frontend d) ++ keep (demux d).

(** The PID table of a session in use: [MAX_PIDS] slots, the free ones as
    [dvb_open] and [dvb_remove_pid] leave them. *)
Definition pid_table (ps : list pid_slot) : Prop :=
  length ps = MAX_PIDS /\
  forall i s, ps !! i = Some s -> fd s = -1 -> s = free_slot.

(** The reads [dvb_read] made. *)
Definition reads (steps : list read_step) : list (Z * Z) :=
  omap (fun st =>
          match st with
          | rd_read x len => Some (x, len)
          | _ => None
          end) steps.

(** ** More example sessions *)

(** A fallback session whose table is full, every slot tracking PID 1. *)
Definition full_session : dvb_device :=
  set_pids (replicate MAX_PIDS {| fd := 9; pid := 1 |}) fresh_session.

(** A fallback session tracking PID 7 in slot 1 behind a free slot 0, as
    left by adding two PIDs and removing the first. *)
Definition gap_session : dvb_device :=
  set_pids (<[1%nat := {| fd := 9; pid := 7 |}]> (pids fresh_session))
    fresh_session.

(** ** Clients *)

(** The results of the duplications of a descriptor a run made. *)
Definition dup_fds (e : list event) : list Z :=
  omap (fun ev =>
          match ev with
          | Call (c_fcntl_dupfd_cloexec _) r =>
              if r =? -1 then None else Some r
          | _ => None
          end) e.

Definition fmt_no_dvr : string := "cannot access DVR: %m".

(** A call of a client to the PID filter manager. *)
Inductive pid_op : Type :=
| add_pid (p : Z)
| remove_pid (p : Z).

(** A client making the calls [ops] on a session, one after the other,
    whatever [dvb_add_pid] returns. *)
Fixpoint run_ops (os : list event -> call -> Z) (ops : list pid_op)
    (d : dvb_device) : M dvb_device :=
  match ops with
  | [] => mret d
  | add_pid p :: ops' => r ← dvb_add_pid os d p; run_ops os ops' (snd r)
  | remove_pid p :: ops' => d' ← dvb_remove_pid os d p; run_ops os ops' d'
  end.

(** The life of a session: [dvb_open], the calls [ops], [dvb_close].  The
    result tells whether the tuner was opened. *)
Definition session_life (os : list event -> call -> Z)
    (fe_info : list event -> dvb_frontend_info) (uninit : dvb_device)
    (o : vlc_object_t) (tune : bool) (ops : list pid_op) : M bool :=
  r ← dvb_open os fe_info uninit o tune;
  match r with
  | None => mret false
  | Some d =>
      d' ← run_ops os ops d;
      dvb_close os d';;
      mret true
  end.

(** A host on which the DVR node cannot be opened. *)
Definition host_no_dvr (h : list event) (c : call) : Z :=
  match c with
  | c_openat _ path _ => if String.prefix "dvr" path then -1 else host_ok h c
  | _ => host_ok h c
  end.

(** ** Tuning *)

(** The debug messages [dvb_vset_props] logs for a property set. *)
Definition setting_msgs (props : list dtv_property) : list event :=
  (fun p => Msg MSG_DBG fmt_setting [arg_int (cmd p); arg_int (data p)])
  <$> props.

(** A run submitted one property set, which first clears the properties the
    frontend has cached, then names the delivery system [sys], and does not
    ask for tuning. *)
Definition configures (sys : Z) (run : Z * list event) : Prop :=
  exists rest,
    submitted (snd run)
    = [ {| cmd := DTV_CLEAR; data := 0 |}
        :: {| cmd := DTV_DELIVERY_SYSTEM; data := sys |} :: rest ] /\
    prop_value DTV_CLEAR rest = None /\
    prop_value DTV_TUNE rest = None.

(** The value the one property set of a run gives to a command. *)
Definition setting (c : Z) (run : Z * list event) : option Z :=
  match submitted (snd run) with
  | [props] => prop_value c props
  | _ => None
  end.

(** ** Satellite equipment control *)

(** The intermediate frequency [dvb_set_sec] computes from the frequency
    and the oscillator in use: the difference, negated when it is negative
    as an [int32_t], all in [uint32_t]. *)
Definition sec_if (freq lo : Z) : Z :=
  let freq := to_uint32 (freq - lo) in
  if to_int32 freq <? 0 then to_uint32 (freq * to_uint32 (-1)) else freq.

(** A run of [dvb_set_sec] tunes to [v]: every frequency it submits to
    the frontend is [v], and on a host accepting every request it submits
    one. *)
Definition tunes_to (os : list event -> call -> Z)
    (run : option Z * list event) (v : Z) : Prop :=
  (forall props v', props ∈ submitted (snd run) ->
     prop_value DTV_FREQUENCY props = Some v' -> v' = v) /\
  ((forall h' c, 0 <= os h' c) ->
   exists props, props ∈ submitted (snd run) /\
     prop_value DTV_FREQUENCY props = Some v).

(** What the satellite equipment sees of a run: the requests to the
    frontend and the waits between them. *)
Inductive sec_step : Type :=
| sec_ioctl (q : ioctl_req)
| sec_wait (us : Z).

Definition sec_steps (e : list event) : list sec_step :=
  omap (fun ev =>
          match ev with
          | Call (c_ioctl _ q) _ => Some (sec_ioctl q)
          | Msleep us => Some (sec_wait us)
          | _ => None
          end) e.

(** The oscillator frequencies [dvb_set_sec] works with: those it was
    given or, without a low one, the defaults of the band. *)
Definition sec_oscillators (freq lowf highf : Z) : Z * Z :=
  fst (dvb_set_sec_lnb freq lowf highf []).

(** The continuous tone: as configured or, when the configuration leaves
    it open, on for the high oscillator. *)
Definition sec_tone (d : dvb_device) (high : bool) : Z :=
  if var_InheritInteger (obj d) "dvb-tone" =? 0 then SEC_TONE_OFF
  else if var_InheritInteger (obj d) "dvb-tone" =? 1 then SEC_TONE_ON
  else if high then SEC_TONE_ON else SEC_TONE_OFF.

(** The sequence of satellite equipment control for the high-voltage
    setting [hv], the voltage level [voltage], the satellite number [satno]
    (0 for none), the continuous tone [tone] and the intermediate frequency
    [ifreq]: the DiSEqC part is there for a satellite number above zero,
    its data byte being 0xF0 plus four times the switch port, two for the
    high voltage level and one for the tone. *)
Definition sec_sequence (hv voltage satno tone ifreq : Z) : list sec_step :=
  [ sec_ioctl (FE_ENABLE_HIGH_LNB_VOLTAGE hv);
    sec_ioctl (FE_SET_PROPERTY 2
                 [ {| cmd := DTV_TONE; data := SEC_TONE_OFF |};
                   {| cmd := DTV_VOLTAGE; data := voltage |} ]) ]
  ++ (if satno >? 0 then
        [ sec_wait 15000;
          sec_ioctl (FE_DISEQC_SEND_MASTER_CMD
                       [ 224; 16; 56;
                         240 + 4 * (satno - 1)
                         + 2 * c_bool (voltage =? SEC_VOLTAGE_18)
                         + c_bool (tone =? SEC_TONE_ON);
                         0; 0 ]);
          sec_wait 69000;
          sec_ioctl (FE_DISEQC_SEND_BURST
                       (if Z.odd satno then SEC_MINI_A else SEC_MINI_B));
          sec_wait 15000 ]
      else [])
  ++ [ sec_ioctl (FE_SET_PROPERTY 2
                    [ {| cmd := DTV_FREQUENCY; data := ifreq |};
                      {| cmd := DTV_TONE; data := tone |} ]) ].

(** ** Reading *)

(** A kernel with 188 bytes of TS data ready and no frontend event. *)
Definition data_ready : read_host :=
  {| poll_ret := 1; revents0 := 1; revents1 := 0;
     get_event_ret := 0; get_event_errno := E_other; event_status := 0;
     read_ret := 188; read_errno := E_other |}.

(** A kernel with TS data ready and a frontend event signalled that is
    gone when the event is asked for. *)
Definition event_gone : read_host :=
  {| poll_ret := 2; revents0 := 1; revents1 := 1;
     get_event_ret := -1; get_event_errno := EAGAIN; event_status := 0;
     read_ret := 188; read_errno := E_other |}.

(** ** Decoder input *)

(** Some values for the constants of the VLC headers. *)
Definition some_block_h : vlc_block_h :=
  {| VLC_TS_INVALID := 0;
     BLOCK_FLAG_END_OF_STREAM := 8192;
     BLOCK_FLAG_DISCONTINUITY := 1;
     BLOCK_FLAG_CORRUPTED := 1024 |}.

(** A block [DecodeBlock] feeds to the decoder: neither the end of the
    stream, nor discontinuous, nor corrupted. *)
Definition fed (k : vlc_block_h) (b : block_t) : Prop :=
  Z.land (i_flags b) (BLOCK_FLAG_END_OF_STREAM k) = 0 /\
  Z.land (i_flags b)
    (Z.lor (BLOCK_FLAG_DISCONTINUITY k) (BLOCK_FLAG_CORRUPTED k)) = 0.

(** * Properties *)

(** ** Binary search *)

Section Bsearch.
Context {E : Type} (compar : E -> Z) (base : list E).

(** Whatever the array, an element found compares equal to the key. *)
Lemma bsearch_loop_sound l u p :
  bsearch_loop compar base l u = Some p ->
  p ∈ base /\ compar p = 0.
Proof.
  funelim (bsearch_loop compar base l u); try discriminate; auto.
  intros [= <-]. split.
  - eapply list_elem_of_lookup_2; eassumption.
  - now apply Z.compare_eq.
Qed.

Lemma half_bounds (l u : nat) :
  (l < u -> l <= (l + u) / 2 < u)%nat.
Proof.
  intros Hlu. pose proof (Nat.div_mod_eq (l + u) 2).
  pose proof (Nat.mod_upper_bound (l + u) 2). lia.
Qed.

Lemma bsearch_loop_complete l u k p :
  partitioned compar base ->
  (u <= length base)%nat ->
  base !! k = Some p -> compar p = 0 ->
  (l <= k < u)%nat ->
  bsearch_loop compar base l u = Some p.
Proof.
  intros Hpart. revert k p.
  funelim (bsearch_loop compar base l u); intros k q Hu Hk Hq Hlk.
  - lia.
  - (* the probe would be outside the array *)
    apply lookup_ge_None in Heq. pose proof (half_bounds l u). lia.
  - (* the probe compares equal *)
    apply Z.compare_eq in Heq.
    destruct (Nat.lt_trichotomy k ((l + u) / 2)) as [Hlt | [-> | Hgt]].
    + pose proof (Hpart _ _ _ _ Hlt Hk Heq0). lia.
    + congruence.
    + pose proof (Hpart _ _ _ _ Hgt Heq0 Hk). lia.
  - (* key below the probe: continue on the left *)
    rewrite Z.compare_lt_iff in Heq. pose proof (half_bounds l u).
    apply (H Hpart k); auto; [lia |].
    split; [lia |].
    destruct (Nat.lt_trichotomy k ((l + u) / 2)) as [Hlt | [-> | Hgt]];
      [assumption | |].
    + assert (p = q) by congruence. subst. lia.
    + pose proof (Hpart _ _ _ _ Hgt Heq0 Hk). lia.
  - (* key above the probe: continue on the right *)
    rewrite Z.compare_gt_iff in Heq.
    apply (H Hpart k); auto.
    split; [| lia].
    destruct (Nat.lt_trichotomy k ((l + u) / 2)) as [Hlt | [-> | Hgt]];
      [| | lia].
    + pose proof (Hpart _ _ _ _ Hlt Hk Heq0). lia.
    + assert (p = q) by congruence. subst. lia.
Qed.

Lemma bsearch_sound n p :
  bsearch compar base n = Some p -> p ∈ base /\ compar p = 0.
Proof. apply bsearch_loop_sound. Qed.

Lemma bsearch_complete p :
  partitioned compar base -> p ∈ base -> compar p = 0 ->
  bsearch compar base (length base) = Some p.
Proof.
  intros Hpart [k Hk]%list_elem_of_lookup_1 Hp.
  apply (bsearch_loop_complete 0 (length base) k); auto.
  apply lookup_lt_Some in Hk. lia.
Qed.

Lemma bsearch_absent n :
  (forall p, p ∈ base -> compar p <> 0) ->
  bsearch compar base n = None.
Proof.
  intros Habs. destruct (bsearch compar base n) as [p |] eqn:Hb; [| reflexivity].
  apply bsearch_sound in Hb as [Hin Hp]. now apply Habs in Hin.
Qed.
End Bsearch.

(** ** Ordered tables *)

Section Pairwise.
Context {A : Type} (R : relation A) (P : A -> Prop).
Hypothesis R_trans :
  forall x y z, P x -> P y -> P z -> R x y -> R y z -> R x z.

Lemma Sorted_Forall_StronglySorted (l : list A) :
  Forall P l -> Sorted R l -> StronglySorted R l.
Proof.
  induction l as [| a l IH]; intros HP HS; [constructor |].
  apply Forall_cons in HP as [Pa HP].
  apply Sorted_inv in HS as [HS Hd].
  specialize (IH HP HS). constructor; [assumption |].
  destruct l as [| b l]; [constructor |].
  apply HdRel_inv in Hd.
  apply Forall_cons in HP as [Pb HP].
  apply StronglySorted_inv in IH as [_ Hb].
  constructor; [assumption |].
  rewrite Forall_forall in Hb, HP. apply Forall_forall. intros z Hz.
  apply (R_trans a b z); auto.
Qed.

Lemma StronglySorted_lookup_lt (l : list A) i j x y :
  StronglySorted R l -> (i < j)%nat ->
  l !! i = Some x -> l !! j = Some y -> R x y.
Proof.
  intros HS. revert i j.
  induction HS as [| a l HS IH Ha]; intros i j Hij Hi Hj; [discriminate |].
  destruct j as [| j]; [lia |]. simpl in Hj.
  destruct i as [| i]; simpl in Hi.
  - injection Hi as <-. rewrite Forall_forall in Ha.
    apply Ha. eapply list_elem_of_lookup_2; eassumption.
  - apply (IH i j); auto. lia.
Qed.

Lemma Sorted_lookup_lt (l : list A) i j x y :
  Forall P l -> Sorted R l -> (i < j)%nat ->
  l !! i = Some x -> l !! j = Some y -> R x y.
Proof.
  intros HP HS. apply StronglySorted_lookup_lt.
  now apply Sorted_Forall_StronglySorted.
Qed.
End Pairwise.

(** *** Integer keys *)

Lemma to_int32_id z : is_int z -> to_int32 z = z.
Proof.
  unfold is_int, INT_MIN, INT_MAX, to_int32. intros Hz.
  rewrite Z.mod_small; lia.
Qed.

Lemma to_int32_zero z :
  - 2 ^ 32 < z < 2 ^ 32 -> to_int32 z = 0 -> z = 0.
Proof.
  unfold to_int32. intros Hz H0.
  assert (Hm : (z + 2 ^ 31) mod 2 ^ 32 = 2 ^ 31) by lia. clear H0.
  destruct (Z_lt_le_dec z (- 2 ^ 31)) as [Hlo | Hlo].
  - replace (z + 2 ^ 31) with (z + 2 ^ 32 + 2 ^ 31 + (-1) * 2 ^ 32) in Hm by lia.
    rewrite Z.mod_add in Hm by lia. rewrite Z.mod_small in Hm; lia.
  - destruct (Z_lt_le_dec z (2 ^ 31)) as [Hhi | Hhi].
    + rewrite Z.mod_small in Hm; lia.
    + replace (z + 2 ^ 31) with (z - 2 ^ 31 + 1 * 2 ^ 32) in Hm by lia.
      rewrite Z.mod_add in Hm by lia. rewrite Z.mod_small in Hm; lia.
Qed.

(** [icmp] is zero exactly on the entry whose key is the one sought. *)
Lemma icmp_zero i e :
  is_int i -> is_int (vlc e) -> icmp i e = 0 -> vlc e = i.
Proof.
  unfold icmp. cbv zeta. intros Hi He H0.
  rewrite (to_int32_id i) in H0 by assumption.
  apply to_int32_zero in H0; [lia |].
  unfold is_int, INT_MIN, INT_MAX in *. lia.
Qed.

Lemma icmp_small i e :
  small_key e -> - 2 ^ 30 <= i < 2 ^ 30 -> icmp i e = i - vlc e.
Proof.
  unfold icmp, small_key. cbv zeta. intros He Hi.
  rewrite (to_int32_id i) by (unfold is_int, INT_MIN, INT_MAX; lia).
  apply to_int32_id. unfold is_int, INT_MIN, INT_MAX. lia.
Qed.

Lemma small_key_is_int e : small_key e -> is_int (vlc e).
Proof. unfold small_key, is_int, INT_MIN, INT_MAX. lia. Qed.

Lemma int_table_partitioned i map :
  int_table map -> - 2 ^ 30 <= i < 2 ^ 30 -> partitioned (icmp i) map.
Proof.
  intros [HS HF] Hi a b x y Hab Hx Hy Hc.
  assert (Hlt : key_lt_int x y).
  { apply (Sorted_lookup_lt key_lt_int (fun _ => True) ltac:(unfold key_lt_int; intros; lia)
             map a b); auto.
    apply Forall_forall. auto. }
  rewrite Forall_forall in HF.
  assert (small_key x) by (apply HF; eapply list_elem_of_lookup_2; eassumption).
  assert (small_key y) by (apply HF; eapply list_elem_of_lookup_2; eassumption).
  rewrite icmp_small in * by assumption. unfold key_lt_int in Hlt. lia.
Qed.

(** *** String keys *)

Lemma uchar_inj c d : uchar c = uchar d -> c = d.
Proof.
  unfold uchar. intros H. apply N2Z.inj in H.
  rewrite <- (ascii_N_embedding c), <- (ascii_N_embedding d). now f_equal.
Qed.

Lemma uchar_nonneg c : 0 <= uchar c.
Proof. unfold uchar. lia. Qed.

Ltac split_no_nul :=
  repeat match goal with
    | H : no_nul (String _ _) = true |- _ => simpl in H
    | H : _ && _ = true |- _ => apply andb_prop in H as [? ?]
    | H : negb _ = true |- _ => apply negb_true_iff in H
    end.

Lemma strcmp_eq a b :
  no_nul a = true -> no_nul b = true -> strcmp a b = 0 -> a = b.
Proof.
  revert b. induction a as [| c a IH]; intros [| d b] Na Nb; split_no_nul;
    simpl; auto.
  - match goal with H : (uchar d =? 0) = false |- _ => apply Z.eqb_neq in H end.
    intros; exfalso; lia.
  - match goal with H : (uchar c =? 0) = false |- _ => apply Z.eqb_neq in H end.
    intros; exfalso; lia.
  - match goal with H : (uchar c =? 0) = false |- _ => rewrite H end.
    destruct (uchar c =? uchar d) eqn:Hcd.
    + apply Z.eqb_eq, uchar_inj in Hcd. subst d.
      intros Hs. f_equal. now apply IH.
    + apply Z.eqb_neq in Hcd. intros; exfalso; lia.
Qed.

Lemma strcmp_trans a b c :
  no_nul a = true -> no_nul b = true -> no_nul c = true ->
  strcmp a b < 0 -> strcmp b c < 0 -> strcmp a c < 0.
Proof.
  revert b c. induction a as [| x a IH]; intros [| y b] [| z c] Na Nb Nc;
    split_no_nul; simpl;
    repeat match goal with
      | H : (uchar ?c =? 0) = false |- _ =>
          rewrite ?H; apply Z.eqb_neq in H; pose proof (uchar_nonneg c)
      end;
    try lia.
  destruct (uchar x =? uchar y) eqn:Hxy, (uchar y =? uchar z) eqn:Hyz;
    rewrite ?Z.eqb_eq, ?Z.eqb_neq in *.
  - replace (uchar x =? uchar z) with true by (symmetry; apply Z.eqb_eq; lia).
    apply IH; assumption.
  - replace (uchar x =? uchar z) with false by (symmetry; apply Z.eqb_neq; lia).
    lia.
  - replace (uchar x =? uchar z) with false by (symmetry; apply Z.eqb_neq; lia).
    lia.
  - intros Hlt1 Hlt2.
    replace (uchar x =? uchar z) with false by (symmetry; apply Z.eqb_neq; lia).
    lia.
Qed.

Lemma str_table_partitioned s map :
  str_table map -> no_nul s = true -> partitioned (scmp s) map.
Proof.
  intros [HS HF] Hs a b x y Hab Hx Hy Hc.
  assert (Hlt : key_lt_str x y).
  { apply (Sorted_lookup_lt key_lt_str (fun e => no_nul (vlc e) = true))
      with map a b; auto.
    unfold key_lt_str. intros u v w Nu Nv Nw. now apply strcmp_trans. }
  rewrite Forall_forall in HF.
  assert (Nx : no_nul (vlc x) = true)
    by (apply HF; eapply list_elem_of_lookup_2; eassumption).
  assert (Ny : no_nul (vlc y) = true)
    by (apply HF; eapply list_elem_of_lookup_2; eassumption).
  unfold scmp, key_lt_str in *.
  destruct (Z.eq_dec (strcmp s (vlc x)) 0) as [H0 | H0].
  - apply strcmp_eq in H0; auto. now subst s.
  - apply (strcmp_trans s (vlc x) (vlc y)); auto. lia.
Qed.

(** ** The translators against the mapping they implement *)

Lemma dvb_parse_int_translate i map def :
  is_int i -> int_table map ->
  dvb_parse_int i map (length map) def = translate_int i map def.
Proof.
  intros Hi Htab. pose proof Htab as [_ HF]. rewrite Forall_forall in HF.
  unfold dvb_parse_int, translate_int, table_lookup.
  destruct (find (fun e => i =? vlc e) map) as [e |] eqn:Hfind; simpl.
  - apply find_some in Hfind as [Hin Heq].
    apply list_elem_of_In in Hin. apply Z.eqb_eq in Heq.
    pose proof (HF e Hin) as He.
    assert (Hsmall : - 2 ^ 30 <= i < 2 ^ 30) by (unfold small_key in He; lia).
    rewrite (bsearch_complete (icmp i) map e); auto.
    + now apply int_table_partitioned.
    + rewrite icmp_small by assumption. lia.
  - rewrite bsearch_absent; [reflexivity |].
    intros p Hin H0.
    apply icmp_zero in H0; auto using small_key_is_int.
    apply list_elem_of_In in Hin.
    apply (find_none _ _ Hfind) in Hin. apply Z.eqb_neq in Hin. congruence.
Qed.

Lemma dvb_parse_str_translate str map def :
  (forall s, str = Some s -> no_nul s = true) -> str_table map ->
  dvb_parse_str str map (length map) def = translate_str str map def.
Proof.
  intros Hstr Htab. pose proof Htab as [_ HF]. rewrite Forall_forall in HF.
  destruct str as [s |]; [| reflexivity].
  specialize (Hstr s eq_refl).
  unfold dvb_parse_str, translate_str, table_lookup.
  destruct (find (fun e => String.eqb s (vlc e)) map) as [e |] eqn:Hfind; simpl.
  - apply find_some in Hfind as [Hin Heq].
    apply list_elem_of_In in Hin. apply String.eqb_eq in Heq.
    rewrite (bsearch_complete (scmp s) map e); auto.
    + now apply str_table_partitioned.
    + unfold scmp. rewrite <- Heq. clear. induction s as [| c s IH]; simpl; auto.
      rewrite Z.eqb_refl. now destruct (uchar c =? 0).
  - rewrite bsearch_absent; [reflexivity |].
    intros p Hin H0. unfold scmp in H0.
    apply strcmp_eq in H0; auto.
    apply list_elem_of_In in Hin.
    apply (find_none _ _ Hfind) in Hin. apply String.eqb_neq in Hin. congruence.
Qed.

(** The tables of [linux.c] that are in key order. *)
Ltac prove_sorted :=
  repeat first
    [ apply Sorted_nil | apply HdRel_nil | apply Sorted_cons
    | apply HdRel_cons; red; vm_compute; reflexivity ].

Ltac prove_forall tac :=
  repeat first [ apply List.Forall_nil | apply List.Forall_cons; [tac |] ].

Ltac prove_str_table :=
  split; [prove_sorted | prove_forall ltac:(vm_compute; reflexivity)].

Ltac prove_int_table :=
  split;
  [ prove_sorted
  | prove_forall ltac:(split; vm_compute; [discriminate | reflexivity]) ].

Lemma mods_table : str_table mods.
Proof. prove_str_table. Qed.

Lemma rates_table : str_table rates.
Proof. prove_str_table. Qed.

Lemma guard_tab_table : str_table guard_tab.
Proof. prove_str_table. Qed.

Lemma transmit_mode_tab_table : int_table transmit_mode_tab.
Proof. prove_int_table. Qed.

Lemma polarization_tab_table : int_table polarization_tab.
Proof. prove_int_table. Qed.

Lemma hierarchy_tab_unsorted : ~ Sorted key_lt_int hierarchy_tab.
Proof.
  intros HS. apply Sorted_inv in HS as [_ Hd]. apply HdRel_inv in Hd.
  unfold key_lt_int in Hd. simpl in Hd. unfold HIERARCHY_AUTO, HIERARCHY_NONE in Hd.
  lia.
Qed.

(** C9.  The parameter translators are total functions, and over a table
    whose keys are in ascending order they compute the table's mapping: for
    every [int] key and every C string, [NULL] included, the result is the
    value mapped to the key when the table holds the key and the caller's
    default otherwise.  The tables of modulations, FEC rates, guard
    intervals, transmission modes and polarizations are in that order; the
    hierarchy table is not, and there the mapping is not computed:
    [dvb_parse_hierarchy] on 4 returns the default [HIERARCHY_AUTO] although
    the table has an entry with key 4 (of value -1), and not [HIERARCHY_4]
    either. *)
Theorem dvb_parse_total_lookup (i : Z) (str : option string) (def : Z) :
  is_int i -> (forall s, str = Some s -> no_nul s = true) ->
  (forall imap, int_table imap ->
     dvb_parse_int i imap (length imap) def = translate_int i imap def) /\
  (forall smap, str_table smap ->
     dvb_parse_str str smap (length smap) def = translate_str str smap def) /\
  (str_table mods /\ str_table rates /\ str_table guard_tab /\
   int_table transmit_mode_tab /\ int_table polarization_tab) /\
  (~ int_table hierarchy_tab /\
   table_lookup Z.eqb 4 hierarchy_tab = Some (-1) /\
   dvb_parse_hierarchy 4 = HIERARCHY_AUTO /\
   dvb_parse_hierarchy 4 <> translate_int 4 hierarchy_tab HIERARCHY_AUTO /\
   dvb_parse_hierarchy 4 <> HIERARCHY_4).
Proof.
  intros Hi Hstr.
  split; [intros imap Himap; now apply dvb_parse_int_translate |].
  split; [intros smap Hsmap; now apply dvb_parse_str_translate |].
  split.
  { auto 10 using mods_table, rates_table, guard_tab_table,
      transmit_mode_tab_table, polarization_tab_table. }
  split; [intros [Hsorted _]; now apply hierarchy_tab_unsorted |].
  split; [reflexivity |].
  assert (H4 : dvb_parse_hierarchy 4 = HIERARCHY_AUTO)
    by (vm_compute; reflexivity).
  split; [exact H4 |]. rewrite H4. split; vm_compute; discriminate.
Qed.

Lemma dvb_parse_total_lookup_witness :
  dvb_parse_int 4 transmit_mode_tab (length transmit_mode_tab) 77
    = TRANSMISSION_MODE_4K /\
  dvb_parse_str (Some "QAM") mods (length mods) 77 = QAM_AUTO.
Proof.
  destruct (dvb_parse_total_lookup 4 (Some "QAM") 77)
    as (Hint & Hstr & (Hmods & _ & _ & Htm & _) & _).
  - unfold is_int, INT_MIN, INT_MAX. lia.
  - intros s [= <-]. reflexivity.
  - exact (conj (Hint transmit_mode_tab Htm) (Hstr mods Hmods)).
Defined.

(** C5.  [dvb_parse_hierarchy] on the configuration value 4 yields
    [HIERARCHY_AUTO], not [HIERARCHY_4]: the table's initialisers put the
    enumerator in the key field, so the table is neither in key order nor a
    mapping from configuration values, and no entry maps to [HIERARCHY_4].
    The inputs -1, 0, 1 and 2 still come out as the specification says. *)
Theorem dvb_parse_hierarchy_4_is_auto :
  dvb_parse_hierarchy 4 = HIERARCHY_AUTO /\
  HIERARCHY_AUTO <> HIERARCHY_4 /\
  ~ Sorted key_lt_int hierarchy_tab /\
  (forall p, p ∈ hierarchy_tab -> linux_ p <> HIERARCHY_4) /\
  map dvb_parse_hierarchy [-1; 0; 1; 2]
    = [HIERARCHY_AUTO; HIERARCHY_NONE; HIERARCHY_1; HIERARCHY_2].
Proof.
  split; [vm_compute; reflexivity |].
  split; [discriminate |].
  split; [exact hierarchy_tab_unsorted |].
  split; [| vm_compute; reflexivity].
  intros p Hp. unfold hierarchy_tab in Hp.
  repeat (apply elem_of_cons in Hp as [-> | Hp]; [discriminate |]).
  now apply elem_of_nil in Hp.
Qed.

(** ** Running computations *)

Ltac run_M :=
  unfold mbind, mret, M_bind, M_ret, when, msg_Err, msg_Warn, msg_Dbg,
    msleep, emit, sys, get_fe_info in *.

Lemma bind_run {A B : Type} (m : M A) (f : A -> M B) (h : list event)
    (b : B) (e : list event) :
  (m ≫= f) h = (b, e) ->
  exists a e1 e2, m h = (a, e1) /\ f a (h ++ e1) = (b, e2) /\ e = e1 ++ e2.
Proof.
  unfold mbind, M_bind. destruct (m h) as [a e1].
  destruct (f a (h ++ e1)) as [b' e2] eqn:Hf. intros [= <- <-].
  exists a, e1, e2. auto.
Qed.

Lemma ret_run {A : Type} (a b : A) (h e : list event) :
  (mret a : M A) h = (b, e) -> a = b /\ e = [].
Proof. unfold mret, M_ret. now intros [= <- <-]. Qed.

(** One step of a run held in hypothesis [H]: split a bind, decide a
    branch, or read off the value returned. *)
Ltac step_run H :=
  lazymatch type of H with
  | (_ ≫= _) _ = _ =>
      let a := fresh "a" in
      let e1 := fresh "e" in
      let e2 := fresh "e" in
      let H1 := fresh "Hrun" in
      apply bind_run in H as (a & e1 & e2 & H1 & H & ->)
  | (if ?c then _ else _) _ = _ =>
      let Hc := fresh "Hc" in destruct c eqn:Hc
  | (when ?c _) _ = _ => unfold when in H
  | (let '(_, _) := ?p in _) _ = _ => destruct p
  | mret _ _ = _ =>
      apply ret_run in H as [H ->]
  end.

(** ** PID filter manager *)

Section PidManager.
Variable os : list event -> call -> Z.

Lemma dvb_add_pid_loop_found n i d p h k s :
  (i <= k < i + n)%nat ->
  pids d !! k = Some s -> pid s = p ->
  (forall j s', (i <= j < k)%nat ->
     pids d !! j = Some s' -> pid s' <> p /\ fd s' <> -1) ->
  dvb_add_pid_loop os n i d p h = ((0, d), []).
Proof.
  revert i. induction n as [| n IH]; intros i Hk Hs Hp Hpre; [lia |].
  simpl.
  destruct (decide (i = k)) as [-> | Hne].
  - rewrite Hs. apply Z.eqb_eq in Hp. now rewrite Hp.
  - destruct (lookup_lt_is_Some_2 (pids d) i) as [si Hsi].
    { apply lookup_lt_Some in Hs. lia. }
    rewrite Hsi.
    destruct (Hpre i si) as [Hpi Hfi]; [lia | assumption |].
    apply Z.eqb_neq in Hpi, Hfi. rewrite Hpi, Hfi. simpl.
    apply IH; auto; [lia |].
    intros j s' Hj. apply Hpre. lia.
Qed.

Lemma dvb_add_pid_loop_success n i d p h d' e :
  dvb_add_pid_loop os n i d p h = ((0, d'), e) ->
  (forall j s', (j < i)%nat ->
     pids d !! j = Some s' -> pid s' <> p /\ fd s' <> -1) ->
  exists k s, (i <= k < i + n)%nat /\
    pids d' !! k = Some s /\ pid s = p /\
    (forall j s', (j < k)%nat ->
       pids d' !! j = Some s' -> pid s' <> p /\ fd s' <> -1).
Proof.
  revert i h e. induction n as [| n IH]; intros i h e Hrun Hpre.
  - simpl in Hrun. run_M. simpl in Hrun. discriminate.
  - simpl in Hrun.
    destruct (pids d !! i) as [s |] eqn:Hs;
      [| run_M; simpl in Hrun; discriminate].
    destruct (pid s =? p) eqn:Hp.
    + run_M. injection Hrun as <- <-. apply Z.eqb_eq in Hp.
      exists i, s. split; [lia |]. auto.
    + apply Z.eqb_neq in Hp.
      destruct (fd s =? -1) eqn:Hf; simpl in Hrun.
      * (* a free slot: open a filter *)
        unfold mbind at 1, M_bind at 1 in Hrun.
        destruct (dvb_open_node os (dir d) (dev_id d) "demux" O_RDONLY h)
          as [fd' e1].
        destruct (fd' =? -1); [run_M; simpl in Hrun; discriminate |].
        run_M. simpl in Hrun.
        destruct (os (h ++ e1) _ <? 0); simpl in Hrun; [discriminate |].
        injection Hrun as <- <-.
        exists i, {| fd := fd'; pid := p |}. simpl.
        split; [lia |]. split.
        { apply list_lookup_insert_eq. now apply lookup_lt_Some in Hs. }
        split; [reflexivity |].
        intros j s' Hj. rewrite list_lookup_insert_ne by lia. now apply Hpre.
      * apply Z.eqb_neq in Hf.
        apply IH in Hrun as (k & s' & Hk & Hrest).
        { exists k, s'. split; [lia | exact Hrest]. }
        intros j s' Hj Hs'.
        destruct (decide (j = i)) as [-> | Hne].
        { assert (s' = s) by congruence. subst. auto. }
        apply Hpre with j; [lia | assumption].
Qed.

(** C7.  In fallback mode, once [dvb_add_pid] has succeeded for a PID, a
    second call with the same PID succeeds, leaves the session (and so the
    PID table) as it is and performs no call at all: no descriptor is
    opened and no slot is taken. *)
Theorem dvb_add_pid_twice (d d' : dvb_device) (p : Z)
    (h h' : list event) (e : list event) :
  budget d = false ->
  dvb_add_pid os d p h = ((0, d'), e) ->
  dvb_add_pid os d' p h' = ((0, d'), []).
Proof.
  unfold dvb_add_pid. intros Hb Hrun. rewrite Hb in Hrun.
  assert (Hb' : budget d' = false).
  { revert Hrun. generalize 0%nat at 1. generalize MAX_PIDS. intros n.
    revert h e. induction n as [| n IH]; intros h e i; simpl.
    - run_M. simpl. discriminate.
    - destruct (pids d !! i) as [s |]; [| run_M; simpl; discriminate].
      destruct (pid s =? p); [run_M; now intros [= <- <-] |].
      destruct (fd s =? -1); simpl; [| apply IH].
      unfold mbind at 1, M_bind at 1.
      destruct (dvb_open_node os (dir d) (dev_id d) "demux" O_RDONLY h)
        as [fd' e1].
      destruct (fd' =? -1); [run_M; simpl; discriminate |].
      run_M. simpl. destruct (os (h ++ e1) _ <? 0); simpl; [discriminate |].
      now intros [= <- <-]. }
  rewrite Hb'.
  apply dvb_add_pid_loop_success in Hrun as (k & s & Hk & Hs & Hp & Hpre).
  - apply (dvb_add_pid_loop_found MAX_PIDS 0 d' p h' k s); auto.
    intros j s' Hj. apply Hpre. lia.
  - intros j s' Hj. lia.
Qed.
End PidManager.

Section FreshSession.
Variable os : list event -> call -> Z.
Variable fe_info : list event -> dvb_frontend_info.
Variable uninit : dvb_device.

Lemma dvb_open_pids_length n i ps :
  length (dvb_open_pids n i ps) = length ps.
Proof.
  revert i ps. induction n as [| n IH]; intros i ps; simpl; [reflexivity |].
  rewrite IH. apply length_insert.
Qed.

Lemma dvb_open_pids_before n i ps j :
  (j < i)%nat -> dvb_open_pids n i ps !! j = ps !! j.
Proof.
  revert i ps. induction n as [| n IH]; intros i ps Hj; simpl; [reflexivity |].
  rewrite IH by lia. apply list_lookup_insert_ne. lia.
Qed.

Lemma dvb_open_pids_lookup n i ps j :
  (i <= j < i + n)%nat -> (j < length ps)%nat ->
  dvb_open_pids n i ps !! j = Some free_slot.
Proof.
  revert i ps. induction n as [| n IH]; intros i ps Hj Hlen; [lia |].
  simpl. destruct (decide (j = i)) as [-> | Hne].
  - rewrite dvb_open_pids_before by lia. now apply list_lookup_insert_eq.
  - apply IH; [lia |]. now rewrite length_insert.
Qed.

(** The tail of [dvb_open] touches neither the table nor the mode. *)
Lemma dvb_open_tune_keeps dirfd adapter device tune d0 h d e :
  dvb_open_tune os fe_info dirfd adapter device tune d0 h = (Some d, e) ->
  pids d = pids d0 /\ budget d = budget d0.
Proof.
  unfold dvb_open_tune. intros H. cbv zeta in H.
  repeat step_run H; try discriminate; injection H as <-; auto.
Qed.

(** In fallback mode the session [dvb_open] returns has the table the
    initialisation loop leaves. *)
Lemma dvb_open_fallback_pids o tune h d e :
  dvb_open os fe_info uninit o tune h = (Some d, e) ->
  budget d = false ->
  pids d = dvb_open_pids MAX_PIDS 0 (pids uninit).
Proof.
  unfold dvb_open. intros H Hb. cbv zeta in H.
  set (init := dvb_open_pids MAX_PIDS 0) in *. clearbody init.
  repeat step_run H; try discriminate;
    apply dvb_open_tune_keeps in H as [Hp Hm]; simpl in *; congruence.
Qed.
End FreshSession.

Lemma fresh_fallback_session : fresh_fallback = Some fresh_session.
Proof. vm_compute. reflexivity. Qed.

(** C10.  On the session [dvb_open] returns in fallback mode, before any PID
    is added, [dvb_add_pid] with PID 0xFFFF returns success at once: no
    call is made (no filter descriptor opened) and the session is left as it
    was (nothing recorded).  Free slots hold -1 converted to the 16-bit
    [pid] field, which is 0xFFFF. *)
Theorem dvb_add_pid_ffff_on_fresh (os os' : list event -> call -> Z)
    (fe_info : list event -> dvb_frontend_info) (uninit : dvb_device)
    (o : vlc_object_t) (tune : bool) (h h' e : list event) (d : dvb_device) :
  length (pids uninit) = MAX_PIDS ->
  dvb_open os fe_info uninit o tune h = (Some d, e) ->
  budget d = false ->
  pid free_slot = 65535 /\
  dvb_add_pid os' d 65535 h' = ((0, d), []).
Proof.
  intros Hlen Hopen Hb. split; [reflexivity |].
  unfold dvb_add_pid. rewrite Hb.
  apply (dvb_add_pid_loop_found os' MAX_PIDS 0 d 65535 h' 0%nat free_slot).
  - unfold MAX_PIDS. lia.
  - rewrite (dvb_open_fallback_pids _ _ _ _ _ _ _ _ Hopen Hb).
    apply dvb_open_pids_lookup; rewrite ?Hlen; unfold MAX_PIDS; lia.
  - reflexivity.
  - intros j s' Hj. lia.
Qed.

Lemma dvb_add_pid_ffff_on_fresh_witness :
  pid free_slot = 65535 /\
  dvb_add_pid host_ok fresh_session 65535 [] = ((0, fresh_session), []).
Proof.
  apply (dvb_add_pid_ffff_on_fresh host_ok host_ok some_info stale_device
           fallback_obj true [] []
           (snd (dvb_open host_ok some_info stale_device fallback_obj true []))).
  - vm_compute. reflexivity.
  - vm_compute. reflexivity.
  - vm_compute. reflexivity.
Defined.

(** C8.  In budget mode [dvb_add_pid] returns success at once and
    [dvb_remove_pid] returns at once, for every PID: neither makes any call
    nor changes any field of the session, and so does the pair run in
    sequence. *)
Theorem budget_add_remove_noop (os : list event -> call -> Z)
    (d : dvb_device) (p : Z) (h : list event) :
  budget d = true ->
  dvb_add_pid os d p h = ((0, d), []) /\
  dvb_remove_pid os d p h = (d, []) /\
  (r ← dvb_add_pid os d p;
   d' ← dvb_remove_pid os (snd r) p;
   mret (fst r, d')) h = ((0, d), []).
Proof.
  intros Hb. unfold dvb_add_pid, dvb_remove_pid. run_M. rewrite Hb. simpl.
  rewrite Hb. auto.
Qed.

Lemma budget_add_remove_noop_witness :
  dvb_add_pid host_ok budget_session 256 [] = ((0, budget_session), []) /\
  dvb_remove_pid host_ok budget_session 256 [] = (budget_session, []) /\
  (r ← dvb_add_pid host_ok budget_session 256;
   d' ← dvb_remove_pid host_ok (snd r) 256;
   mret (fst r, d')) [] = ((0, budget_session), []).
Proof.
  apply (budget_add_remove_noop host_ok budget_session 256 []).
  vm_compute. reflexivity.
Defined.

Lemma dvb_add_pid_twice_witness :
  dvb_add_pid host_ok (snd (fst added_0x100)) 256 (snd added_0x100)
  = ((0, snd (fst added_0x100)), []).
Proof.
  apply (dvb_add_pid_twice host_ok fresh_session (snd (fst added_0x100)) 256
           [] (snd added_0x100) (snd added_0x100)).
  - vm_compute. reflexivity.
  - vm_compute. reflexivity.
Defined.

(** ** PID 0 in fallback mode *)

Section PidZero.
Variable os : list event -> call -> Z.

(** Slots in use by other PIDs are passed over. *)
Lemma dvb_add_pid_loop_skip k n i d p h :
  (forall j s', (i <= j < i + k)%nat ->
     pids d !! j = Some s' -> pid s' <> p /\ fd s' <> -1) ->
  (i + k <= length (pids d))%nat ->
  dvb_add_pid_loop os (k + n) i d p h
  = dvb_add_pid_loop os n (i + k) d p h.
Proof.
  revert i. induction k as [| k IH]; intros i Hpre Hlen.
  - now rewrite Nat.add_0_r.
  - simpl.
    destruct (lookup_lt_is_Some_2 (pids d) i) as [si Hsi]; [lia |].
    rewrite Hsi. destruct (Hpre i si) as [Hp Hf]; [lia | assumption |].
    apply Z.eqb_neq in Hp, Hf. rewrite Hp, Hf. simpl.
    rewrite IH.
    + f_equal. lia.
    + intros j s' Hj. apply Hpre. lia.
    + lia.
Qed.

(** [dvb_open_node] starts with the [openat] call and returns its
    result. *)
Lemma dvb_open_node_run dirfd dev type flags h :
  exists e',
    dvb_open_node os dirfd dev type flags h
    = (os h (c_openat dirfd (String.append type (dec_uint8 dev))
               (Z.lor flags O_CLOEXEC)),
       Call (c_openat dirfd (String.append type (dec_uint8 dev))
               (Z.lor flags O_CLOEXEC))
         (os h (c_openat dirfd (String.append type (dec_uint8 dev))
                  (Z.lor flags O_CLOEXEC))) :: e').
Proof.
  unfold dvb_open_node. run_M. cbn.
  match goal with |- context [negb ?c] => destruct c end; cbn; eauto.
Qed.

(** At a free slot not holding [p], a filter descriptor is opened; the
    slot is taken exactly when the call succeeds. *)
Lemma dvb_add_pid_loop_free n i d p h s :
  pids d !! i = Some s -> pid s <> p -> fd s = -1 ->
  exists r e',
    snd (dvb_add_pid_loop os (S n) i d p h) = Call (demux_open d) r :: e' /\
    (fst (fst (dvb_add_pid_loop os (S n) i d p h)) = 0 ->
     snd (fst (dvb_add_pid_loop os (S n) i d p h))
     = set_pids (<[i := {| fd := r; pid := p |}]> (pids d)) d) /\
    (fst (fst (dvb_add_pid_loop os (S n) i d p h)) <> 0 ->
     snd (fst (dvb_add_pid_loop os (S n) i d p h)) = d) /\
    ((forall h' c, 0 <= os h' c) ->
     fst (fst (dvb_add_pid_loop os (S n) i d p h)) = 0).
Proof.
  intros Hs Hp Hf.
  destruct (dvb_add_pid_loop os (S n) i d p h) as [[rv d'] e] eqn:Hrun.
  simpl in Hrun. rewrite Hs in Hrun.
  apply Z.eqb_neq in Hp. apply Z.eqb_eq in Hf. rewrite Hp, Hf in Hrun.
  simpl in Hrun. step_run Hrun.
  destruct (dvb_open_node_run (dir d) (dev_id d) "demux" O_RDONLY h)
    as [enode Hnode].
  rewrite Hnode in Hrun0. fold (demux_open d) in Hrun0.
  injection Hrun0 as <- <-. simpl.
  exists (os h (demux_open d)).
  step_run Hrun.
  - (* the node cannot be opened *)
    repeat step_run Hrun. injection Hrun as <- <-.
    eexists. split; [reflexivity |].
    split; [discriminate |]. split; [reflexivity |].
    intros Hok. apply Z.eqb_eq in Hc. specialize (Hok h (demux_open d)). lia.
  - step_run Hrun. unfold sys in Hrun0. injection Hrun0 as <- <-.
    step_run Hrun.
    + (* the filter cannot be set *)
      repeat step_run Hrun. injection Hrun as <- <-.
      eexists. split; [reflexivity |].
      split; [discriminate |]. split; [reflexivity |].
      intros Hok. apply Z.ltb_lt in Hc0.
      match type of Hc0 with os ?h' ?c < 0 => specialize (Hok h' c) end. lia.
    + step_run Hrun. injection Hrun as <- <-.
      eexists. split; [reflexivity |].
      split; [reflexivity |]. split; [congruence |]. reflexivity.
Qed.

End PidZero.



(** ** Observations of a run split along its parts *)

Lemma ioctls_app e1 e2 : ioctls (e1 ++ e2) = ioctls e1 ++ ioctls e2.
Proof. apply omap_app. Qed.

Lemma msgs_app t fmt e1 e2 :
  msgs t fmt (e1 ++ e2) = msgs t fmt e1 ++ msgs t fmt e2.
Proof. apply omap_app. Qed.

Lemma submitted_app e1 e2 : submitted (e1 ++ e2) = submitted e1 ++ submitted e2.
Proof. unfold submitted. rewrite ioctls_app. apply omap_app. Qed.

Lemma diseqc_cmds_app e1 e2 :
  diseqc_cmds (e1 ++ e2) = diseqc_cmds e1 ++ diseqc_cmds e2.
Proof. unfold diseqc_cmds. rewrite ioctls_app. apply omap_app. Qed.

Lemma msgs_cons_other t fmt t' f args e :
  fmt <> f -> msgs t fmt (Msg t' f args :: e) = msgs t fmt e.
Proof.
  intros Hfmt.
  change (msgs t fmt (Msg t' f args :: e))
    with (match (if bool_decide (t = t') && String.eqb fmt f
                 then Some args else None) with
          | Some y => y :: msgs t fmt e
          | None => msgs t fmt e
          end).
  apply String.eqb_neq in Hfmt. now rewrite Hfmt, andb_false_r.
Qed.

Lemma msgs_cons_call t fmt c r e :
  msgs t fmt (Call c r :: e) = msgs t fmt e.
Proof. reflexivity. Qed.

Lemma msgs_cons_sleep t fmt us e :
  msgs t fmt (Msleep us :: e) = msgs t fmt e.
Proof. reflexivity. Qed.

Lemma msgs_nil t fmt : msgs t fmt [] = [].
Proof. reflexivity. Qed.

(** ** Property sets *)

Lemma sys_run os c h a e : sys os c h = (a, e) -> a = os h c /\ e = [Call c a].
Proof. unfold sys. now intros [= <- <-]. Qed.

Lemma emit_run ev h a e : emit ev h = (a, e) -> e = [ev].
Proof. unfold emit. now intros [= <- <-]. Qed.

Lemma dvb_vset_props_loop_run n ap h buf e :
  dvb_vset_props_loop n ap h = (buf, e) ->
  buf = va_props n ap /\ ioctls e = [] /\
  (forall t fmt, fmt <> fmt_setting -> msgs t fmt e = []).
Proof.
  revert ap h buf e. induction n as [| n IH]; intros ap h buf e H; simpl in H.
  - apply ret_run in H as [<- ->]. auto.
  - simpl. destruct (va_arg ap) as [c ap1]. destruct (va_arg ap1) as [v ap2].
    step_run H. step_run H. apply ret_run in H as [<- ->].
    apply IH in Hrun0 as (-> & Hio & Hmsg).
    unfold msg_Dbg in Hrun. apply emit_run in Hrun as ->.
    split; [reflexivity |]. split.
    + rewrite !ioctls_app, Hio. reflexivity.
    + intros t fmt Hfmt. rewrite !msgs_app, Hmsg by assumption.
      rewrite app_nil_r. now apply msgs_cons_other.
Qed.

(** What [dvb_set_props] does: it submits the property set made of its
    arguments, once, and logs nothing but the properties and a failure of
    the submission. *)
Lemma dvb_set_props_run os d n ap h r e :
  dvb_set_props os d n ap h = (r, e) ->
  ioctls e = [FE_SET_PROPERTY (Z.of_nat n) (va_props n ap)] /\
  (forall t fmt, fmt <> fmt_setting -> fmt <> fmt_cannot_set ->
     msgs t fmt e = []) /\
  (r = 0 \/ r = -1) /\
  ((forall h' c, 0 <= os h' c) -> r = 0).
Proof.
  unfold dvb_set_props, dvb_vset_props. intros H.
  step_run H. apply dvb_vset_props_loop_run in Hrun as (-> & Hio & Hmsg).
  step_run H. apply sys_run in Hrun as [-> ->].
  assert (Herr : forall t fmt, fmt <> fmt_cannot_set ->
            msgs t fmt [Msg MSG_ERR fmt_cannot_set []] = []).
  { intros t fmt Hfmt. now apply msgs_cons_other. }
  step_run H.
  - step_run H. apply ret_run in H as [<- ->].
    unfold msg_Err in Hrun. apply emit_run in Hrun as ->.
    split; [| split; [| split; [auto |]]].
    + rewrite !ioctls_app, Hio. reflexivity.
    + intros t fmt H1 H2. rewrite !msgs_app, Hmsg, Herr by assumption.
      reflexivity.
    + intros Hok. apply Z.ltb_lt in Hc.
      match type of Hc with os ?h' ?c < 0 => specialize (Hok h' c) end. lia.
  - apply ret_run in H as [<- ->].
    split; [| split; [| auto]].
    + rewrite !ioctls_app, Hio. reflexivity.
    + intros t fmt H1 H2. rewrite !msgs_app, Hmsg by assumption. reflexivity.
Qed.

Lemma dvb_set_props_submitted os d n ap h :
  submitted (snd (dvb_set_props os d n ap h)) = [va_props n ap].
Proof.
  destruct (dvb_set_props os d n ap h) as [r e] eqn:H.
  apply dvb_set_props_run in H as (Hio & _). unfold submitted.
  simpl. now rewrite Hio.
Qed.

(** Decide the tests between constants in the goal. *)
Ltac eval_closed_tests :=
  repeat match goal with
    | |- context [?a =? ?b] =>
        let v := eval vm_compute in (a =? b) in
        match v with
        | true => idtac
        | false => idtac
        end;
        replace (a =? b) with v by (vm_compute; reflexivity)
    end.

(** Read a property off a property set built by [va_props]. *)
Ltac prop_value_eval :=
  unfold prop_value; cbn [find cmd]; eval_closed_tests;
  cbn [fmap option_fmap option_map data].

Lemma to_uint32_idem z : to_uint32 (to_uint32 z) = z mod 2 ^ 32.
Proof. unfold to_uint32. apply Z.mod_mod. lia. Qed.

Lemma to_uint32_small z : 0 <= z <= UINT32_MAX -> to_uint32 z = z.
Proof. unfold to_uint32, UINT32_MAX. intros Hz. apply Z.mod_small. lia. Qed.

(** ** DVB-T *)

(** C6 as stated fails: both arguments are [uint32_t] and so are the
    products.  A frequency of 4294968 kHz is submitted as 704. *)
Lemma dvbt_scaling_wraps :
  ~ dvbt_scaling_exact host_ok fresh_session 4294968 8 [].
Proof.
  intros (props & Hsub & Hfreq & _).
  vm_compute in Hsub. injection Hsub as <-.
  vm_compute in Hfreq. discriminate.
Qed.

(** C6 (amended).  Every call to [dvb_set_dvbt] submits one property set,
    in which [DTV_FREQUENCY] is the input frequency multiplied by 1000 and
    [DTV_BANDWIDTH_HZ] the input bandwidth multiplied by 1000000, both
    reduced modulo 2^32 ([uint32_t] arithmetic); the products are exact as
    long as they fit 32 bits, that is for frequencies up to 4294967 and
    bandwidths up to 4294. *)
Theorem dvb_set_dvbt_scaling (os : list event -> call -> Z) (d : dvb_device)
    (freq : Z) (modstr fechstr feclstr : option string)
    (bandwidth transmit_val : Z) (guardstr : option string)
    (hierarchy_val : Z) (h : list event) :
  exists props,
    submitted (snd (dvb_set_dvbt os d freq modstr fechstr feclstr bandwidth
                      transmit_val guardstr hierarchy_val h)) = [props] /\
    prop_value DTV_FREQUENCY props = Some ((freq * 1000) mod 2 ^ 32) /\
    prop_value DTV_BANDWIDTH_HZ props
      = Some ((bandwidth * 1000000) mod 2 ^ 32) /\
    (0 <= freq <= 4294967 ->
     prop_value DTV_FREQUENCY props = Some (freq * 1000)) /\
    (0 <= bandwidth <= 4294 ->
     prop_value DTV_BANDWIDTH_HZ props = Some (bandwidth * 1000000)).
Proof.
  unfold dvb_set_dvbt. rewrite dvb_set_props_submitted.
  eexists. split; [reflexivity |].
  cbn [va_props va_arg].
  repeat split.
  - prop_value_eval. now rewrite to_uint32_idem.
  - prop_value_eval. now rewrite to_uint32_idem.
  - intros Hfreq. prop_value_eval. rewrite to_uint32_idem.
    f_equal. apply Z.mod_small. lia.
  - intros Hbw. prop_value_eval. rewrite to_uint32_idem.
    f_equal. apply Z.mod_small. lia.
Qed.

Lemma dvb_set_dvbt_scaling_witness :
  exists props,
    submitted (snd (dvb_set_dvbt host_ok fresh_session 474000 (Some "64QAM")
                      (Some "2/3") (Some "1/2") 8 8 (Some "1/4") 0 []))
    = [props] /\
    prop_value DTV_FREQUENCY props = Some 474000000 /\
    prop_value DTV_BANDWIDTH_HZ props = Some 8000000.
Proof.
  destruct (dvb_set_dvbt_scaling host_ok fresh_session 474000 (Some "64QAM")
              (Some "2/3") (Some "1/2") 8 8 (Some "1/4") 0 [])
    as (props & Hsub & _ & _ & Hfreq & Hbw).
  exists props. split; [exact Hsub |]. split.
  - apply Hfreq. lia.
  - apply Hbw. lia.
Defined.

(** ** DVB-S2 *)

(** C3.  For a roll-off argument other than 20, 25 and 35, the property set
    [dvb_set_dvbs2] submits carries [DTV_ROLLOFF] set to the pilot constant
    [PILOT_AUTO], whose value is that of [ROLLOFF_25] and not that of
    [ROLLOFF_AUTO].  The pilot argument is translated as the specification
    says: 0 to [PILOT_OFF], 1 to [PILOT_ON], anything else to
    [PILOT_AUTO]. *)
Theorem dvb_set_dvbs2_rolloff_default (os : list event -> call -> Z)
    (d : dvb_device) (freq : Z) (modstr : option string) (srate : Z)
    (fecstr : option string) (pilot rolloff : Z) (h : list event) :
  rolloff <> 20 -> rolloff <> 25 -> rolloff <> 35 ->
  exists props,
    submitted (snd (dvb_set_dvbs2 os d freq modstr srate fecstr pilot
                      rolloff h)) = [props] /\
    prop_value DTV_ROLLOFF props = Some PILOT_AUTO /\
    PILOT_AUTO = ROLLOFF_25 /\
    PILOT_AUTO <> ROLLOFF_AUTO /\
    prop_value DTV_PILOT props
    = Some (if pilot =? 0 then PILOT_OFF
            else if pilot =? 1 then PILOT_ON
            else PILOT_AUTO).
Proof.
  intros H20 H25 H35.
  apply Z.eqb_neq in H20, H25, H35.
  unfold dvb_set_dvbs2. rewrite dvb_set_props_submitted.
  rewrite H20, H25, H35.
  eexists. split; [reflexivity |].
  cbn [va_props va_arg].
  split; [prop_value_eval; reflexivity |].
  split; [reflexivity |].
  split; [discriminate |].
  prop_value_eval.
  destruct (pilot =? 0); [reflexivity |].
  destruct (pilot =? 1); reflexivity.
Qed.

Lemma dvb_set_dvbs2_rolloff_default_witness :
  exists props,
    submitted (snd (dvb_set_dvbs2 host_ok fresh_session 11000000 None 27500
                      None 0 0 [])) = [props] /\
    prop_value DTV_ROLLOFF props = Some PILOT_AUTO /\
    PILOT_AUTO = ROLLOFF_25 /\
    PILOT_AUTO <> ROLLOFF_AUTO /\
    prop_value DTV_PILOT props = Some PILOT_OFF.
Proof.
  apply (dvb_set_dvbs2_rolloff_default host_ok fresh_session 11000000 None
           27500 None 0 0 []); discriminate.
Defined.

(** ** Satellite equipment control *)

(** The choice of default oscillator frequencies depends on nothing the
    host did and makes no call. *)
Lemma dvb_set_sec_lnb_run freq lowf highf h :
  dvb_set_sec_lnb freq lowf highf h = dvb_set_sec_lnb freq lowf highf [] /\
  ioctls (snd (dvb_set_sec_lnb freq lowf highf h)) = [].
Proof.
  unfold dvb_set_sec_lnb.
  destruct (lowf =? 0); [| split; reflexivity].
  destruct (dvb_set_sec_band lnb_tab (freq / 1000)) as [[l hg] |];
    split; reflexivity.
Qed.

Lemma dvb_set_props_diseqc os d n ap h r e :
  dvb_set_props os d n ap h = (r, e) -> diseqc_cmds e = [].
Proof.
  intros H. apply dvb_set_props_run in H as (Hio & _).
  unfold diseqc_cmds. now rewrite Hio.
Qed.

(** Turn the runs of the parts of a computation into what they emitted. *)
Ltac run_parts :=
  repeat match goal with
    | H : sys _ _ _ = _ |- _ => apply sys_run in H as [-> ->]
    | H : msg_Err _ _ _ = _ |- _ => unfold msg_Err in H
    | H : msg_Dbg _ _ _ = _ |- _ => unfold msg_Dbg in H
    | H : msleep _ _ = _ |- _ => unfold msleep in H
    | H : emit _ _ = _ |- _ => apply emit_run in H as ->
    | H : when ?c _ _ = _ |- _ => unfold when in H; destruct c eqn:?
    | H : mret _ _ = _ |- _ => apply ret_run in H as [? ->]
    end.

(** Of the messages of [dvb_set_sec], those about the oscillator choice
    come from the block making that choice. *)
Lemma dvb_set_sec_lnb_msgs os d freq pol lowf highf switchf h t fmt :
  fmt = fmt_selected \/ fmt = fmt_no_band ->
  msgs t fmt (snd (dvb_set_sec os d freq pol lowf highf switchf h))
  = msgs t fmt (snd (dvb_set_sec_lnb freq lowf highf [])).
Proof.
  intros Hfmt.
  assert (Hset : fmt <> fmt_setting) by (destruct Hfmt; subst; discriminate).
  assert (Hcannot : fmt <> fmt_cannot_set)
    by (destruct Hfmt; subst; discriminate).
  destruct (dvb_set_sec os d freq pol lowf highf switchf h) as [r e] eqn:H.
  unfold dvb_set_sec in H. cbv zeta in H.
  repeat step_run H;
    repeat match goal with
      | Hp : dvb_set_props _ _ _ _ _ = _ |- _ =>
          apply dvb_set_props_run in Hp as (_ & Hp & _);
          specialize (Hp t fmt Hset Hcannot)
      | Hl : dvb_set_sec_lnb _ _ _ ?h' = _ |- _ =>
          rewrite (proj1 (dvb_set_sec_lnb_run _ _ _ h')) in Hl
      end;
    run_parts; simpl snd;
    match goal with
    | Hl : dvb_set_sec_lnb _ _ _ [] = _ |- _ => rewrite Hl
    end;
    simpl snd;
    repeat first
      [ rewrite msgs_app
      | rewrite msgs_cons_call
      | rewrite msgs_cons_sleep
      | rewrite msgs_nil
      | rewrite (msgs_cons_other t fmt)
          by (destruct Hfmt; subst; discriminate)
      | match goal with
        | Hp : msgs t fmt ?e = [] |- _ => rewrite Hp; clear Hp
        end
      | rewrite app_nil_r ];
    reflexivity.
Qed.

(** The band search on a frequency of the extended C band. *)
Lemma dvb_set_sec_band_c_high mhz :
  4500 <= mhz <= 4800 ->
  dvb_set_sec_band lnb_tab mhz = Some (5950000, 0).
Proof.
  intros Hm. unfold lnb_tab. cbn [dvb_set_sec_band min max low high].
  replace (mhz >=? 10700) with false by (symmetry; rewrite Z.geb_leb; apply Z.leb_gt; lia).
  replace (mhz >=? 4500) with true by (symmetry; rewrite Z.geb_leb; apply Z.leb_le; lia).
  replace (mhz <=? 4800) with true by (symmetry; apply Z.leb_le; lia).
  cbn [andb]. vm_compute. reflexivity.
Qed.

Lemma to_uint32_range z : 0 <= to_uint32 z < 2 ^ 32.
Proof. unfold to_uint32. apply Z.mod_pos_bound. lia. Qed.

(** The intermediate frequency: the distance between the frequency and the
    oscillator, as long as it is below 2^31 - 1. *)
Lemma sec_if_abs freq lo :
  0 <= freq < 2 ^ 32 -> 0 <= lo < 2 ^ 32 ->
  Z.abs (freq - lo) < 2 ^ 31 - 1 ->
  (if to_int32 (to_uint32 (freq - lo)) <? 0
   then to_uint32 (to_uint32 (freq - lo) * to_uint32 (-1))
   else to_uint32 (freq - lo))
  = Z.abs (freq - lo).
Proof.
  intros Hf Hl Habs. unfold to_int32, to_uint32.
  change (2 ^ 32) with 4294967296 in *. change (2 ^ 31) with 2147483648 in *.
  change ((-1) mod 4294967296) with 4294967295.
  destruct (Z.ltb_spec ((((freq - lo) mod 4294967296) + 2147483648)
                          mod 4294967296 - 2147483648) 0) as [Hneg | Hpos];
    revert Habs; [revert Hneg | revert Hpos];
    Z.div_mod_to_equations; lia.
Qed.


Lemma sec_if_range freq lo : 0 <= sec_if freq lo < 2 ^ 32.
Proof.
  unfold sec_if. cbv zeta.
  destruct (to_int32 (to_uint32 (freq - lo)) <? 0); apply to_uint32_range.
Qed.

(** The frequency [dvb_set_sec] submits is the intermediate frequency for
    the oscillator pair the band selection yields; it is submitted when the
    host accepts every request and the assertion holds. *)
Lemma dvb_set_sec_frequency os d freq pol lowf highf switchf h :
  (forall props v,
     props ∈ submitted (snd (dvb_set_sec os d freq pol lowf highf switchf h)) ->
     prop_value DTV_FREQUENCY props = Some v ->
     v = sec_if freq
           (if negb (snd (fst (dvb_set_sec_lnb freq lowf highf [])) =? 0)
               && (freq >? switchf)
            then snd (fst (dvb_set_sec_lnb freq lowf highf []))
            else fst (fst (dvb_set_sec_lnb freq lowf highf [])))) /\
  ((forall h' c, 0 <= os h' c) ->
   sec_if freq
     (if negb (snd (fst (dvb_set_sec_lnb freq lowf highf [])) =? 0)
         && (freq >? switchf)
      then snd (fst (dvb_set_sec_lnb freq lowf highf []))
      else fst (fst (dvb_set_sec_lnb freq lowf highf []))) < 2147483647 ->
   exists props,
     props ∈ submitted (snd (dvb_set_sec os d freq pol lowf highf switchf h)) /\
     prop_value DTV_FREQUENCY props
     = Some (sec_if freq
               (if negb (snd (fst (dvb_set_sec_lnb freq lowf highf [])) =? 0)
                   && (freq >? switchf)
                then snd (fst (dvb_set_sec_lnb freq lowf highf []))
                else fst (fst (dvb_set_sec_lnb freq lowf highf []))))).
Proof.
  pose proof (proj2 (dvb_set_sec_lnb_run freq lowf highf [])) as Hlio.
  destruct (dvb_set_sec os d freq pol lowf highf switchf h) as [r e] eqn:H.
  cbn [fst snd].
  unfold dvb_set_sec in H. cbv zeta in H.
  step_run H. step_run H. step_run H.
  rewrite (proj1 (dvb_set_sec_lnb_run freq lowf highf _)) in Hrun1.
  rewrite Hrun1 in *. destruct a1 as [l hg]. cbn [fst snd] in *.
  cbv beta iota in H.
  set (hi := negb (hg =? 0) && (freq >? switchf)) in *.
  set (lo := if hi then hg else l) in *.
  change (if to_int32 (to_uint32 (freq - lo)) <? 0
          then to_uint32 (to_uint32 (freq - lo) * to_uint32 (-1))
          else to_uint32 (freq - lo))
    with (sec_if freq lo) in H.
  pose proof (sec_if_range freq lo) as Hrange.
  assert (Hi : to_uint32 (sec_if freq lo) = sec_if freq lo)
    by (apply to_uint32_small; unfold UINT32_MAX; lia).
  set (ifreq := sec_if freq lo) in *. clearbody ifreq.
  set (voltage := dvb_parse_polarization pol) in *. clearbody voltage.
  repeat step_run H;
    repeat match goal with
      | Hp : dvb_set_props _ _ _ _ _ = _ |- _ =>
          apply dvb_set_props_run in Hp as (? & _ & _ & ?)
      end;
    run_parts; subst r;
    (split;
     [ intros props v Hin Hv; unfold submitted in Hin;
       rewrite ?ioctls_app in Hin;
       repeat match goal with
         | Hio : ioctls ?e' = _ |- _ => rewrite Hio in Hin; clear Hio
         end;
       cbn [ioctls omap list_omap app] in Hin;
       repeat (apply elem_of_cons in Hin as [-> | Hin]);
       try (now apply elem_of_nil in Hin);
       revert Hv; cbn [va_props va_arg]; prop_value_eval; intros Hv;
       try discriminate; injection Hv as <-; exact Hi
     | intros Hok Hlt;
       repeat match goal with
         | Hs : (forall h' c, 0 <= os h' c) -> _ |- _ => specialize (Hs Hok)
         end;
       subst; try discriminate;
       try match goal with
         | Hz : (os ?h' ?c <? 0) = true |- _ =>
             apply Z.ltb_lt in Hz; specialize (Hok h' c); lia
         | Hz : negb (ifreq <? 2147483647) = true |- _ =>
             apply negb_true_iff, Z.ltb_ge in Hz; lia
         end ]);
    (eexists; split;
     [ unfold submitted; rewrite ?ioctls_app;
       repeat match goal with
         | Hio : ioctls ?e' = _ |- _ => rewrite Hio; clear Hio
         end;
       cbn [ioctls omap list_omap app];
       apply elem_of_cons; right; apply elem_of_cons; left; reflexivity
     | cbn [va_props va_arg]; prop_value_eval; rewrite Hi; reflexivity ]).
Qed.

(** C1 as stated fails for 5000 MHz: that frequency is in none of the five
    bands (the extended C band is 4500..4800 MHz), so no pair is selected
    and the error is logged. *)
Lemma band_5000_not_c_high :
  ~ selects_band host_ok fresh_session 5000000 (uchar "V") 11700000 []
      5950000 0.
Proof.
  intros [Hsel _]. vm_compute in Hsel. discriminate.
Qed.

(** C1 (amended).  In [dvb_set_sec] with no explicit low-oscillator
    frequency: 11000 MHz selects the Ku-band pair 9750000 / 10600000 kHz and
    logs no band error; 5000 MHz and 3000 MHz match no band, the error is
    logged, [lowf] stays zero and [highf] keeps the value passed (zero when
    none was given); the C-band-high pair 5950000 / 0 is selected by the
    frequencies from 4500 to 4800 MHz.  The pair is the one the selection
    block yields, the one the debug message shows, and the one the
    frequency submitted to the frontend is computed with: at 11000 MHz
    that frequency is 1250000 kHz with the low oscillator and 400000 kHz
    with the high one, in the C band it is 5950000 kHz minus the input,
    and with no band and no oscillator at all it is the input itself. *)
Theorem dvb_set_sec_band_selection (os : list event -> call -> Z)
    (d : dvb_device) (pol highf switchf : Z) (h : list event) :
  let run freq := dvb_set_sec os d freq pol 0 highf switchf h in
  let sel freq := msgs MSG_DBG fmt_selected (snd (run freq)) in
  let err freq := msgs MSG_ERR fmt_no_band (snd (run freq)) in
  ((forall h', fst (dvb_set_sec_lnb 11000000 0 highf h')
               = (9750000, 10600000)) /\
   sel 11000000 = [[arg_int 9750000; arg_int 10600000]] /\
   err 11000000 = [] /\
   tunes_to os (run 11000000)
     (if 11000000 >? switchf then 400000 else 1250000)) /\
  ((forall h', fst (dvb_set_sec_lnb 5000000 0 highf h') = (0, highf)) /\
   sel 5000000 = [[arg_int 0; arg_int highf]] /\
   err 5000000 = [[arg_int 5000000]]) /\
  ((forall h', fst (dvb_set_sec_lnb 3000000 0 highf h') = (0, highf)) /\
   sel 3000000 = [[arg_int 0; arg_int highf]] /\
   err 3000000 = [[arg_int 3000000]]) /\
  (highf = 0 ->
   tunes_to os (run 5000000) 5000000 /\ tunes_to os (run 3000000) 3000000) /\
  (forall freq, 4500 <= freq / 1000 <= 4800 ->
     (forall h', fst (dvb_set_sec_lnb freq 0 highf h') = (5950000, 0)) /\
     sel freq = [[arg_int 5950000; arg_int 0]] /\ err freq = [] /\
     tunes_to os (run freq) (5950000 - freq)).
Proof.
  intros run sel err. subst run sel err. cbv beta.
  assert (Hku : fst (dvb_set_sec_lnb 11000000 0 highf []) = (9750000, 10600000))
    by (vm_compute; reflexivity).
  assert (H5 : fst (dvb_set_sec_lnb 5000000 0 highf []) = (0, highf))
    by (vm_compute; reflexivity).
  assert (H3 : fst (dvb_set_sec_lnb 3000000 0 highf []) = (0, highf))
    by (vm_compute; reflexivity).
  assert (Hindep : forall freq h',
            fst (dvb_set_sec_lnb freq 0 highf h')
            = fst (dvb_set_sec_lnb freq 0 highf []))
    by (intros freq h'; now rewrite (proj1 (dvb_set_sec_lnb_run freq 0 highf h'))).
  rewrite !dvb_set_sec_lnb_msgs by auto.
  split; [| split; [| split; [| split]]].
  - split; [intros h'; now rewrite Hindep |].
    split; [vm_compute; reflexivity |]. split; [vm_compute; reflexivity |].
    destruct (dvb_set_sec_frequency os d 11000000 pol 0 highf switchf h)
      as [Hall Hex].
    rewrite Hku in Hall, Hex. cbn [fst snd] in Hall, Hex.
    change (negb (10600000 =? 0)) with true in Hall, Hex.
    cbn [andb] in Hall, Hex.
    destruct (11000000 >? switchf);
      (split; [exact Hall | intros Hok; apply Hex; [exact Hok |]]);
      vm_compute; reflexivity.
  - split; [intros h'; now rewrite Hindep |].
    split; vm_compute; reflexivity.
  - split; [intros h'; now rewrite Hindep |].
    split; vm_compute; reflexivity.
  - intros ->.
    destruct (dvb_set_sec_frequency os d 5000000 pol 0 0 switchf h)
      as [Hall5 Hex5].
    destruct (dvb_set_sec_frequency os d 3000000 pol 0 0 switchf h)
      as [Hall3 Hex3].
    rewrite H5 in Hall5, Hex5. rewrite H3 in Hall3, Hex3.
    cbn [fst snd] in Hall5, Hex5, Hall3, Hex3.
    change (negb (0 =? 0)) with false in Hall5, Hex5, Hall3, Hex3.
    cbn [andb] in Hall5, Hex5, Hall3, Hex3.
    split; (split; [assumption |]); intros Hok;
      [apply Hex5 | apply Hex3]; try exact Hok; vm_compute; reflexivity.
  - intros freq Hf. rewrite !dvb_set_sec_lnb_msgs by auto.
    assert (Hc : fst (dvb_set_sec_lnb freq 0 highf []) = (5950000, 0)).
    { unfold dvb_set_sec_lnb. cbn [Z.eqb].
      rewrite dvb_set_sec_band_c_high by assumption. reflexivity. }
    split; [intros h'; now rewrite Hindep |].
    split.
    { unfold dvb_set_sec_lnb. cbn [Z.eqb].
      rewrite dvb_set_sec_band_c_high by assumption. vm_compute. reflexivity. }
    split.
    { unfold dvb_set_sec_lnb. cbn [Z.eqb].
      rewrite dvb_set_sec_band_c_high by assumption. vm_compute. reflexivity. }
    destruct (dvb_set_sec_frequency os d freq pol 0 highf switchf h)
      as [Hall Hex].
    rewrite Hc in Hall, Hex. cbn [fst snd] in Hall, Hex.
    change (negb (0 =? 0)) with false in Hall, Hex. cbn [andb] in Hall, Hex.
    assert (Hrange : 4500000 <= freq < 4801000)
      by (revert Hf; Z.div_mod_to_equations; lia).
    assert (Hif : sec_if freq 5950000 = 5950000 - freq).
    { unfold sec_if. cbv zeta.
      rewrite sec_if_abs
        by (change (2 ^ 32) with 4294967296;
            change (2 ^ 31) with 2147483648; lia).
      lia. }
    rewrite Hif in Hall, Hex.
    split; [exact Hall |]. intros Hok. apply Hex; [exact Hok | lia].
Qed.

Lemma dvb_set_sec_band_selection_witness :
  fst (dvb_set_sec_lnb 4600000 0 0 []) = (5950000, 0) /\
  msgs MSG_DBG fmt_selected
    (snd (dvb_set_sec host_ok fresh_session 4600000 (uchar "V") 0 0
            11700000 []))
  = [[arg_int 5950000; arg_int 0]] /\
  msgs MSG_ERR fmt_no_band
    (snd (dvb_set_sec host_ok fresh_session 4600000 (uchar "V") 0 0
            11700000 [])) = [] /\
  tunes_to host_ok
    (dvb_set_sec host_ok fresh_session 4600000 (uchar "V") 0 0 11700000 [])
    1350000.
Proof.
  destruct (dvb_set_sec_band_selection host_ok fresh_session (uchar "V") 0
              11700000 []) as (_ & _ & _ & _ & Hband).
  destruct (Hband 4600000) as (Hpair & Hsel & Herr & Htune).
  - vm_compute. split; discriminate.
  - exact (conj (Hpair []) (conj Hsel (conj Herr Htune))).
Defined.

(** C2 as stated fails: with satellite index 2, polarization 'V' and the
    tone forced on, the data byte sent is 0xF5 (245), which is what
    0xF0 | (1<<2) | (0<<1) | 1 amounts to. *)
Lemma diseqc_data_is_not_0xFD :
  var_InheritInteger (obj fresh_session) "dvb-satno" = 2 /\
  var_InheritInteger (obj fresh_session) "dvb-tone" = 1 /\
  Z.lor (Z.lor (Z.lor 240 (Z.shiftl 1 2)) (Z.shiftl 0 1)) 1 = 245 /\
  ~ diseqc_data_0xFD host_ok fresh_session 11000000 0 0 11700000 [].
Proof.
  split; [reflexivity |]. split; [reflexivity |]. split; [reflexivity |].
  unfold diseqc_data_0xFD. vm_compute. discriminate.
Qed.

(** C2 (amended).  With satellite index 2, polarization 'V' (the low
    voltage level) and the 22 kHz tone forced on, the only DiSEqC master
    command [dvb_set_sec] can send is the six bytes 0xE0, 0x10, 0x38, 0xF5,
    0, 0: framing 0xE0, address 0x10, command 0x38 and data byte
    0xF0 | (1<<2) | (0<<1) | 1 = 0xF5.  It is sent, once, whenever the
    host accepts every call and the intermediate frequency passes the
    assertion. *)
Theorem dvb_set_sec_diseqc_cmd (os : list event -> call -> Z)
    (d : dvb_device) (freq lowf highf switchf : Z) (h : list event) :
  var_InheritInteger (obj d) "dvb-satno" = 2 ->
  var_InheritInteger (obj d) "dvb-tone" = 1 ->
  dvb_parse_polarization (uchar "V") = SEC_VOLTAGE_13 /\
  (diseqc_cmds (snd (dvb_set_sec os d freq (uchar "V") lowf highf switchf h))
   = [] \/
   diseqc_cmds (snd (dvb_set_sec os d freq (uchar "V") lowf highf switchf h))
   = [[224; 16; 56; 245; 0; 0]]) /\
  ((forall h' c, 0 <= os h' c) ->
   fst (dvb_set_sec os d freq (uchar "V") lowf highf switchf h) <> None ->
   diseqc_cmds (snd (dvb_set_sec os d freq (uchar "V") lowf highf switchf h))
   = [[224; 16; 56; 245; 0; 0]]).
Proof.
  intros Hsat Htone. split; [vm_compute; reflexivity |].
  destruct (dvb_set_sec os d freq (uchar "V") lowf highf switchf h)
    as [r e] eqn:H.
  unfold dvb_set_sec in H. rewrite Hsat, Htone in H.
  replace (dvb_parse_polarization (uchar "V")) with SEC_VOLTAGE_13 in H
    by (vm_compute; reflexivity).
  replace (to_uint32 2 >? 0) with true in H by (vm_compute; reflexivity).
  replace (1 =? 0) with false in H by reflexivity.
  replace (1 =? 1) with true in H by reflexivity.
  cbv zeta iota in H.
  match type of H with
  | context [FE_DISEQC_SEND_MASTER_CMD ?m] =>
      replace m with [224; 16; 56; 245; 0; 0] in H
        by (vm_compute; reflexivity)
  end.
  repeat step_run H;
    repeat match goal with
      | Hp : dvb_set_props _ _ _ _ _ = (?rp, _) |- _ =>
          let Hd := fresh "Hd" in
          pose proof (dvb_set_props_diseqc _ _ _ _ _ _ _ Hp) as Hd;
          apply dvb_set_props_run in Hp as (_ & _ & _ & Hp)
      | Hl : dvb_set_sec_lnb ?f ?l ?hg ?h' = (_, ?el) |- _ =>
          let Hd := fresh "Hd" in
          assert (Hd : diseqc_cmds el = [])
            by (unfold diseqc_cmds;
                pose proof (proj2 (dvb_set_sec_lnb_run f l hg h')) as Hio;
                rewrite Hl in Hio; cbn [snd] in Hio; now rewrite Hio);
          clear Hl
      end;
    run_parts; cbn [fst snd];
    repeat first
      [ rewrite diseqc_cmds_app
      | match goal with
        | Hd : diseqc_cmds ?e = [] |- _ => rewrite Hd; clear Hd
        end ];
    (split;
     [ cbn; auto
     | intros Hok Hr; cbn;
       try reflexivity;
       try congruence;
       repeat match goal with
         | Hp : (forall h' c, 0 <= os h' c) -> _ |- _ => specialize (Hp Hok)
         end;
       subst; try discriminate;
       match goal with
       | Hc : (os ?h' ?c <? 0) = true |- _ =>
           apply Z.ltb_lt in Hc; specialize (Hok h' c); lia
       end ]).
Qed.

Lemma host_ok_nonneg h c : 0 <= host_ok h c.
Proof. destruct c; unfold host_ok; lia. Qed.

Lemma dvb_set_sec_diseqc_cmd_witness :
  diseqc_cmds (snd (dvb_set_sec host_ok fresh_session 11000000 (uchar "V")
                      0 0 11700000 []))
  = [[224; 16; 56; 245; 0; 0]].
Proof.
  destruct (dvb_set_sec_diseqc_cmd host_ok fresh_session 11000000 0 0
              11700000 []) as (_ & _ & Hsent).
  - reflexivity.
  - reflexivity.
  - apply Hsent.
    + exact host_ok_nonneg.
    + vm_compute. discriminate.
Defined.

(** * Further properties of the translators *)



(** X2.  The three string tables of the source are in [strcmp] order, so
    the modulation, FEC and guard-interval translators compute their
    table's mapping for every C string and for [NULL]: the enumerator of
    the key when the string is a key, the default otherwise. *)
Theorem string_translators_lookup (str : option string) (def : Z) :
  (forall s, str = Some s -> no_nul s = true) ->
  dvb_parse_modulation str def = translate_str str mods def /\
  dvb_parse_fec str = translate_str str rates FEC_AUTO /\
  dvb_parse_guard str = translate_str str guard_tab GUARD_INTERVAL_AUTO.
Proof.
  intros Hstr. unfold dvb_parse_modulation, dvb_parse_fec, dvb_parse_guard.
  split; [| split]; apply dvb_parse_str_translate;
    auto using mods_table, rates_table, guard_tab_table.
Qed.

Lemma string_translators_lookup_witness :
  dvb_parse_modulation (Some "qpsk") QAM_AUTO = QAM_AUTO /\
  dvb_parse_fec (Some "qpsk") = FEC_AUTO /\
  dvb_parse_guard (Some "qpsk") = GUARD_INTERVAL_AUTO.
Proof.
  apply (string_translators_lookup (Some "qpsk") QAM_AUTO).
  intros s [= <-]. reflexivity.
Defined.

(** X3.  The transmission-mode and polarization translators on every [int]:
    -1, 2, 4, 8 give the automatic, 2K, 4K and 8K modes and any other value
    the automatic mode; 'H' and 'L' give the 18 V level, 'R' and 'V' the
    13 V level and any other character, 0 included, switches the voltage
    off. *)
Theorem int_translators_lookup (i : Z) :
  is_int i ->
  dvb_parse_transmit_mode i
  = (if i =? 2 then TRANSMISSION_MODE_2K
     else if i =? 4 then TRANSMISSION_MODE_4K
     else if i =? 8 then TRANSMISSION_MODE_8K
     else TRANSMISSION_MODE_AUTO) /\
  dvb_parse_polarization i
  = (if (i =? uchar "H") || (i =? uchar "L") then SEC_VOLTAGE_18
     else if (i =? uchar "R") || (i =? uchar "V") then SEC_VOLTAGE_13
     else SEC_VOLTAGE_OFF).
Proof.
  intros Hi. split.
  - unfold dvb_parse_transmit_mode.
    rewrite dvb_parse_int_translate
      by auto using transmit_mode_tab_table.
    unfold translate_int, table_lookup, transmit_mode_tab.
    cbn [find vlc].
    destruct (i =? -1) eqn:H1; [apply Z.eqb_eq in H1; subst; reflexivity |].
    destruct (i =? 2) eqn:H2; [reflexivity |].
    destruct (i =? 4) eqn:H4; [reflexivity |].
    destruct (i =? 8) eqn:H8; reflexivity.
  - unfold dvb_parse_polarization.
    change 5%nat with (length polarization_tab).
    rewrite dvb_parse_int_translate
      by auto using polarization_tab_table.
    unfold translate_int, table_lookup, polarization_tab.
    cbn [find vlc].
    destruct (i =? 0) eqn:H0; [apply Z.eqb_eq in H0; subst; reflexivity |].
    destruct (i =? uchar "H") eqn:HH; [reflexivity |].
    destruct (i =? uchar "L") eqn:HL; [reflexivity |].
    destruct (i =? uchar "R") eqn:HR; [reflexivity |].
    destruct (i =? uchar "V") eqn:HV; reflexivity.
Qed.

Lemma int_translators_lookup_witness :
  dvb_parse_transmit_mode (uchar "h") = TRANSMISSION_MODE_AUTO /\
  dvb_parse_polarization (uchar "h") = SEC_VOLTAGE_OFF.
Proof.
  apply (int_translators_lookup (uchar "h")).
  vm_compute. split; discriminate.
Defined.

(** X4.  [dvb_parse_hierarchy] on every [int]: the values 0, 1 and 2 are
    returned as they are and every other value, 4 and -1 included, gives
    [HIERARCHY_AUTO]; the function never returns [HIERARCHY_4]. *)
Theorem dvb_parse_hierarchy_all (i : Z) :
  is_int i ->
  dvb_parse_hierarchy i
  = (if (i =? 0) || (i =? 1) || (i =? 2) then i else HIERARCHY_AUTO) /\
  dvb_parse_hierarchy i <> HIERARCHY_4.
Proof.
  intros Hi.
  assert (Hval : dvb_parse_hierarchy i
                 = if (i =? 0) || (i =? 1) || (i =? 2) then i
                   else HIERARCHY_AUTO).
  { destruct (i =? 0) eqn:H0; [apply Z.eqb_eq in H0; now subst |].
    destruct (i =? 1) eqn:H1; [apply Z.eqb_eq in H1; now subst |].
    destruct (i =? 2) eqn:H2; [apply Z.eqb_eq in H2; now subst |].
    destruct (i =? 3) eqn:H3; [apply Z.eqb_eq in H3; now subst |].
    destruct (i =? 4) eqn:H4; [apply Z.eqb_eq in H4; now subst |].
    cbn [orb]. unfold dvb_parse_hierarchy, dvb_parse_int.
    rewrite bsearch_absent; [reflexivity |].
    intros p Hp Hz. apply icmp_zero in Hz; [| assumption |].
    - unfold hierarchy_tab in Hp.
      repeat (apply elem_of_cons in Hp as [-> | Hp];
              [cbn in Hz; rewrite <- Hz in *; discriminate |]).
      now apply elem_of_nil in Hp.
    - unfold hierarchy_tab in Hp.
      repeat (apply elem_of_cons in Hp as [-> | Hp];
              [vm_compute; split; discriminate |]).
      now apply elem_of_nil in Hp. }
  split; [exact Hval |].
  rewrite Hval.
  destruct (i =? 0) eqn:H0; [apply Z.eqb_eq in H0; now subst |].
  destruct (i =? 1) eqn:H1; [apply Z.eqb_eq in H1; now subst |].
  destruct (i =? 2) eqn:H2; [apply Z.eqb_eq in H2; now subst |].
  discriminate.
Qed.

Lemma dvb_parse_hierarchy_all_witness :
  dvb_parse_hierarchy 3 = HIERARCHY_AUTO /\
  dvb_parse_hierarchy 3 <> HIERARCHY_4.
Proof.
  apply (dvb_parse_hierarchy_all 3). vm_compute. split; discriminate.
Defined.

(** * Further properties of the PID filter manager *)

Lemma opened_fds_app e1 e2 :
  opened_fds (e1 ++ e2) = opened_fds e1 ++ opened_fds e2.
Proof. apply omap_app. Qed.

Lemma closed_fds_app e1 e2 :
  closed_fds (e1 ++ e2) = closed_fds e1 ++ closed_fds e2.
Proof. apply omap_app. Qed.

Lemma allocs_app e1 e2 : allocs (e1 ++ e2) = (allocs e1 + allocs e2)%nat.
Proof. unfold allocs. now rewrite omap_app, length_app. Qed.

Lemma frees_app e1 e2 : frees (e1 ++ e2) = (frees e1 + frees e2)%nat.
Proof. unfold frees. now rewrite omap_app, length_app. Qed.

(** [dvb_open_node] obtains the descriptor it returns and closes nothing. *)
Lemma dvb_open_node_fds os dirfd dev type flags h r e :
  dvb_open_node os dirfd dev type flags h = (r, e) ->
  opened_fds e = keep r /\ closed_fds e = [] /\ allocs e = 0%nat /\
  frees e = 0%nat.
Proof.
  unfold dvb_open_node. intros H.
  step_run H. step_run H. apply ret_run in H as [<- ->].
  apply sys_run in Hrun as [-> ->].
  unfold when in Hrun0.
  destruct (os h _ =? -1) eqn:Hr; cbn [negb] in Hrun0.
  - apply ret_run in Hrun0 as [_ ->]. cbn. unfold keep. rewrite Hr. auto.
  - repeat step_run Hrun0.
    run_parts. cbn. unfold keep. rewrite Hr. auto.
Qed.

(** Taking a free slot adds the descriptor to those the table holds. *)
Lemma pid_fds_insert_free ps i s x p :
  ps !! i = Some s -> fd s = -1 -> x <> -1 ->
  pid_fds (<[i := {| fd := x; pid := p |}]> ps) ≡ₚ x :: pid_fds ps.
Proof.
  revert i. induction ps as [| a ps IH]; intros [| i] Hs Hf Hx;
    try discriminate; simpl in Hs.
  - injection Hs as ->. cbn. apply Z.eqb_neq in Hx. apply Z.eqb_eq in Hf.
    now rewrite Hx, Hf.
  - cbn. specialize (IH i Hs Hf Hx). fold (pid_fds ps).
    fold (pid_fds (<[i := {| fd := x; pid := p |}]> ps)).
    destruct (fd a =? -1).
    + exact IH.
    + rewrite IH. apply Permutation_swap.
Qed.

(** Freeing a slot takes its descriptor out of those the table holds. *)
Lemma pid_fds_insert_release ps i s :
  ps !! i = Some s ->
  pid_fds ps ≡ₚ keep (fd s) ++ pid_fds (<[i := free_slot]> ps).
Proof.
  revert i. induction ps as [| a ps IH]; intros [| i] Hs;
    try discriminate; simpl in Hs.
  - injection Hs as ->. cbn. fold (pid_fds ps). unfold keep.
    now destruct (fd s =? -1).
  - cbn. specialize (IH i Hs). fold (pid_fds ps).
    fold (pid_fds (<[i := free_slot]> ps)).
    destruct (fd a =? -1).
    + exact IH.
    + rewrite IH. unfold keep. destruct (fd s =? -1); cbn; [reflexivity |].
      apply Permutation_swap.
Qed.

Section PidExtras.
Variable os : list event -> call -> Z.

(** X5.  When every slot of the table is in use by another PID,
    [dvb_add_pid] fails with -1: it logs the error, calls nothing and leaves
    the session as it is. *)
Theorem dvb_add_pid_table_full (d : dvb_device) (p : Z) (h : list event) :
  budget d = false ->
  length (pids d) = MAX_PIDS ->
  (forall s, s ∈ pids d -> pid s <> p /\ fd s <> -1) ->
  dvb_add_pid os d p h
  = ((-1, d), [Msg MSG_ERR "cannot add PID 0x%04u: %m" [arg_int p]]).
Proof.
  intros Hb Hlen Hfull. unfold dvb_add_pid. rewrite Hb.
  replace MAX_PIDS with (MAX_PIDS + 0)%nat at 1 by lia.
  rewrite (dvb_add_pid_loop_skip os MAX_PIDS 0 0).
  - reflexivity.
  - intros j s' Hj Hs'. apply Hfull. eapply list_elem_of_lookup_2; eassumption.
  - lia.
Qed.

(** X6.  The scan of [dvb_add_pid] ends at the first free slot: if that
    slot comes before any slot holding the PID, a new filter descriptor is
    opened for it, whether or not a later slot tracks the PID already.  The
    slot is taken exactly when the call returns 0; otherwise the session is
    unchanged. *)
Theorem dvb_add_pid_first_free (d : dvb_device) (p : Z) (h : list event)
    (i : nat) (s : pid_slot) :
  budget d = false ->
  (i < MAX_PIDS)%nat ->
  pids d !! i = Some s -> fd s = -1 -> pid s <> p ->
  (forall j s', (j < i)%nat ->
     pids d !! j = Some s' -> pid s' <> p /\ fd s' <> -1) ->
  exists r e',
    snd (dvb_add_pid os d p h) = Call (demux_open d) r :: e' /\
    (fst (fst (dvb_add_pid os d p h)) = 0 ->
     snd (fst (dvb_add_pid os d p h))
     = set_pids (<[i := {| fd := r; pid := p |}]> (pids d)) d) /\
    (fst (fst (dvb_add_pid os d p h)) <> 0 ->
     snd (fst (dvb_add_pid os d p h)) = d) /\
    ((forall h' c, 0 <= os h' c) ->
     fst (fst (dvb_add_pid os d p h)) = 0).
Proof.
  intros Hb Hi Hs Hf Hp Hpre. unfold dvb_add_pid. rewrite Hb.
  replace MAX_PIDS with (i + S (MAX_PIDS - i - 1))%nat by lia.
  rewrite (dvb_add_pid_loop_skip os i).
  - now apply dvb_add_pid_loop_free with s.
  - intros j s' Hj. apply Hpre. lia.
  - apply lookup_lt_Some in Hs. lia.
Qed.
End PidExtras.

Lemma dvb_add_pid_table_full_witness :
  dvb_add_pid host_ok full_session 7 []
  = ((-1, full_session), [Msg MSG_ERR "cannot add PID 0x%04u: %m" [arg_int 7]]).
Proof.
  apply (dvb_add_pid_table_full host_ok full_session 7 []).
  - reflexivity.
  - reflexivity.
  - intros s Hs. apply elem_of_replicate in Hs as [-> _].
    split; discriminate.
Defined.

Lemma dvb_add_pid_first_free_witness :
  pids gap_session !! 1%nat = Some {| fd := 9; pid := 7 |} /\
  exists r e',
    snd (dvb_add_pid host_ok gap_session 7 [])
    = Call (demux_open gap_session) r :: e' /\
    snd (fst (dvb_add_pid host_ok gap_session 7 []))
    = set_pids (<[0%nat := {| fd := r; pid := 7 |}]> (pids gap_session))
        gap_session.
Proof.
  split; [reflexivity |].
  destruct (dvb_add_pid_first_free host_ok gap_session 7 [] 0 free_slot)
    as (r & e' & He & Hok & _ & Hall).
  - reflexivity.
  - unfold MAX_PIDS. lia.
  - reflexivity.
  - reflexivity.
  - discriminate.
  - intros j s' Hj. lia.
  - exists r, e'. split; [exact He |].
    apply Hok, Hall, host_ok_nonneg.
Defined.

Section PidBalance.
Variable os : list event -> call -> Z.

Lemma dvb_add_pid_loop_balance n i d p h r d' e :
  budget d = false ->
  dvb_add_pid_loop os n i d p h = ((r, d'), e) ->
  opened_fds e ++ held d ≡ₚ closed_fds e ++ held d' /\
  (r <> 0 -> d' = d) /\ (r = 0 \/ r = -1).
Proof.
  intros Hb. revert i h e. induction n as [| n IH]; intros i h e H;
    simpl in H.
  - repeat step_run H. run_parts. injection H as <- <-. cbn. auto.
  - destruct (pids d !! i) as [s |] eqn:Hs.
    2: { repeat step_run H. run_parts. injection H as <- <-. cbn. auto. }
    destruct (pid s =? p).
    { apply ret_run in H as [H ->]. injection H as <- <-. cbn. auto. }
    destruct (fd s =? -1) eqn:Hf; cbn [negb] in H; [| now apply IH in H].
    apply Z.eqb_eq in Hf.
    step_run H. apply dvb_open_node_fds in Hrun as (Ho & Hc & _).
    step_run H.
    { repeat step_run H. run_parts. injection H as <- <-.
      rewrite !opened_fds_app, !closed_fds_app, Ho, Hc.
      apply Z.eqb_eq in Hc0. subst a. cbn. auto. }
    step_run H. apply sys_run in Hrun as [-> ->].
    apply Z.eqb_neq in Hc0.
    assert (Hk : keep a = [a])
      by (unfold keep; apply Z.eqb_neq in Hc0; now rewrite Hc0).
    step_run H.
    + repeat step_run H. run_parts. injection H as <- <-.
      rewrite !opened_fds_app, !closed_fds_app, Ho, Hc, Hk.
      split; [| auto]. cbn. apply Z.eqb_neq in Hc0. rewrite Hc0. reflexivity.
    + apply ret_run in H as [H ->]. injection H as <- <-.
      rewrite !opened_fds_app, !closed_fds_app, Ho, Hc, Hk.
      split; [| split; [congruence | auto]].
      cbn. unfold held. cbn. rewrite Hb.
      rewrite (pid_fds_insert_free _ _ _ _ _ Hs Hf Hc0).
      rewrite <- !app_assoc. cbn [app]. apply Permutation_middle.
Qed.

(** X7.  [dvb_add_pid] keeps the account of descriptors: those it obtains
    from the host are either closed again or held by the session it leaves.
    It returns 0 or -1, and when it fails the session is unchanged, so a
    descriptor opened in a failed call has been closed. *)
Theorem dvb_add_pid_balance (d : dvb_device) (p : Z) (h : list event) :
  let run := dvb_add_pid os d p h in
  opened_fds (snd run) ++ held d
    ≡ₚ closed_fds (snd run) ++ held (snd (fst run)) /\
  (fst (fst run) <> 0 ->
   snd (fst run) = d /\ opened_fds (snd run) ≡ₚ closed_fds (snd run)) /\
  (fst (fst run) = 0 \/ fst (fst run) = -1).
Proof.
  cbv zeta. unfold dvb_add_pid. destruct (budget d) eqn:Hb.
  - cbn. split; [reflexivity |]. split; [congruence | auto].
  - destruct (dvb_add_pid_loop os MAX_PIDS 0 d p h) as [[r d'] e] eqn:H.
    apply dvb_add_pid_loop_balance in H as (Hbal & Hsame & Hr); [| exact Hb].
    cbn [fst snd]. split; [exact Hbal |]. split; [| exact Hr].
    intros Hne. specialize (Hsame Hne). subst d'. split; [reflexivity |].
    now apply Permutation_app_inv_r in Hbal.
Qed.

Lemma dvb_remove_pid_loop_absent n i d p h :
  (forall s, s ∈ pids d -> pid s <> p) ->
  dvb_remove_pid_loop os n i d p h = (d, []).
Proof.
  intros Habs. revert i. induction n as [| n IH]; intros i; simpl;
    [reflexivity |].
  destruct (pids d !! i) as [s |] eqn:Hs; [| reflexivity].
  assert (Hp : pid s <> p)
    by (apply Habs; eapply list_elem_of_lookup_2; eassumption).
  apply Z.eqb_neq in Hp. rewrite Hp. apply IH.
Qed.

Lemma dvb_remove_pid_loop_skip k n i d p h :
  (forall j s', (i <= j < i + k)%nat ->
     pids d !! j = Some s' -> pid s' <> p) ->
  (i + k <= length (pids d))%nat ->
  dvb_remove_pid_loop os (k + n) i d p h
  = dvb_remove_pid_loop os n (i + k) d p h.
Proof.
  revert i. induction k as [| k IH]; intros i Hpre Hlen.
  - now rewrite Nat.add_0_r.
  - simpl.
    destruct (lookup_lt_is_Some_2 (pids d) i) as [si Hsi]; [lia |].
    rewrite Hsi. assert (Hp : pid si <> p) by (apply (Hpre i); [lia | auto]).
    apply Z.eqb_neq in Hp. rewrite Hp. rewrite IH.
    + f_equal. lia.
    + intros j s' Hj. apply Hpre. lia.
    + lia.
Qed.

(** X8.  [dvb_remove_pid] in fallback mode: for a PID no slot holds it does
    nothing at all; otherwise it closes the descriptor of the first slot
    holding the PID and frees that slot only, so a later slot holding the
    same PID keeps its filter. *)
Theorem dvb_remove_pid_first (d : dvb_device) (p : Z) (h : list event) :
  budget d = false ->
  ((forall s, s ∈ pids d -> pid s <> p) ->
   dvb_remove_pid os d p h = (d, [])) /\
  (forall i s, (i < MAX_PIDS)%nat ->
     pids d !! i = Some s -> pid s = p ->
     (forall j s', (j < i)%nat -> pids d !! j = Some s' -> pid s' <> p) ->
     dvb_remove_pid os d p h
     = (set_pids (<[i := free_slot]> (pids d)) d,
        [Call (c_close (fd s)) (os h (c_close (fd s)))])).
Proof.
  intros Hb. unfold dvb_remove_pid. rewrite Hb. split.
  - apply dvb_remove_pid_loop_absent.
  - intros i s Hi Hs Hp Hpre.
    replace MAX_PIDS with (i + S (MAX_PIDS - i - 1))%nat by lia.
    rewrite (dvb_remove_pid_loop_skip i).
    + simpl. rewrite Hs. apply Z.eqb_eq in Hp. rewrite Hp. reflexivity.
    + intros j s' Hj. apply Hpre. lia.
    + apply lookup_lt_Some in Hs. lia.
Qed.

Lemma dvb_remove_pid_loop_balance n i d p h d' e :
  budget d = false ->
  dvb_remove_pid_loop os n i d p h = (d', e) ->
  opened_fds e ++ held d ≡ₚ closed_fds e ++ held d'.
Proof.
  intros Hb. revert i. induction n as [| n IH]; intros i H; simpl in H.
  - apply ret_run in H as [<- ->]. reflexivity.
  - destruct (pids d !! i) as [s |] eqn:Hs.
    2: { apply ret_run in H as [<- ->]. reflexivity. }
    destruct (pid s =? p); [| now apply IH in H].
    step_run H. apply sys_run in Hrun as [-> ->].
    apply ret_run in H as [<- ->].
    rewrite app_nil_r. unfold held. cbn [budget set_pids dir pids ca frontend demux].
    rewrite Hb. fold free_slot.
    rewrite (pid_fds_insert_release _ _ _ Hs).
    unfold keep at 2. cbn. destruct (fd s =? -1); cbn; [reflexivity |].
    rewrite <- !app_assoc. cbn [app]. symmetry. apply Permutation_middle.
Qed.

(** X9.  [dvb_remove_pid] keeps the account of descriptors: it obtains none,
    and the descriptors the session held before are those it closes
    together with those the session still holds. *)
Theorem dvb_remove_pid_balance (d : dvb_device) (p : Z) (h : list event) :
  let run := dvb_remove_pid os d p h in
  opened_fds (snd run) = [] /\
  held d ≡ₚ closed_fds (snd run) ++ held (fst run).
Proof.
  cbv zeta. unfold dvb_remove_pid. destruct (budget d) eqn:Hb.
  - cbn. auto.
  - destruct (dvb_remove_pid_loop os MAX_PIDS 0 d p h) as [d' e] eqn:H.
    cbn [fst snd].
    assert (Ho : opened_fds e = []).
    { clear -H. revert H. generalize 0%nat. generalize MAX_PIDS.
      intros n. induction n as [| n IH]; intros i H; simpl in H.
      - now apply ret_run in H as [_ ->].
      - destruct (pids d !! i) as [s |];
          [| now apply ret_run in H as [_ ->]].
        destruct (pid s =? p); [| now apply IH in H].
        step_run H. apply sys_run in Hrun as [-> ->].
        now apply ret_run in H as [_ ->]. }
    split; [exact Ho |].
    apply dvb_remove_pid_loop_balance in H; [| exact Hb].
    now rewrite Ho in H.
Qed.
End PidBalance.

Lemma dvb_add_pid_balance_witness :
  snd (fst (dvb_add_pid host_ok full_session 7 [])) = full_session /\
  opened_fds (snd (dvb_add_pid host_ok full_session 7 []))
    ≡ₚ closed_fds (snd (dvb_add_pid host_ok full_session 7 [])).
Proof.
  destruct (dvb_add_pid_balance host_ok full_session 7 []) as (_ & Hfail & _).
  apply Hfail. vm_compute. discriminate.
Defined.

Lemma dvb_remove_pid_first_witness :
  dvb_remove_pid host_ok gap_session 7 []
  = (set_pids (<[1%nat := free_slot]> (pids gap_session)) gap_session,
     [Call (c_close 9) 0]).
Proof.
  apply (proj2 (dvb_remove_pid_first host_ok gap_session 7 [] eq_refl)
           1%nat {| fd := 9; pid := 7 |}).
  - unfold MAX_PIDS. lia.
  - reflexivity.
  - reflexivity.
  - intros [| j] s' Hj Hs'; [| lia]. vm_compute in Hs'.
    injection Hs' as <-. discriminate.
Defined.

(** ** Adding and removing *)

Lemma fresh_session_pids : pids fresh_session = replicate MAX_PIDS free_slot.
Proof. vm_compute. reflexivity. Qed.

Lemma fresh_session_pid_table : pid_table (pids fresh_session).
Proof.
  rewrite fresh_session_pids. split; [apply length_replicate |].
  intros i s Hs _. now apply lookup_replicate in Hs as [-> _].
Qed.

Section PidRoundTrip.
Variable os : list event -> call -> Z.

(** A successful [dvb_add_pid] for a PID the table does not hold takes the
    first free slot, with the one descriptor the call obtained. *)
Lemma dvb_add_pid_loop_new n i d p h d' e :
  (forall s, s ∈ pids d -> pid s <> p) ->
  dvb_add_pid_loop os n i d p h = ((0, d'), e) ->
  exists k s x, (i <= k < i + n)%nat /\ pids d !! k = Some s /\ fd s = -1 /\
    x <> -1 /\ opened_fds e = [x] /\ closed_fds e = [] /\
    d' = set_pids (<[k := {| fd := x; pid := p |}]> (pids d)) d /\
    (forall j s', (i <= j < k)%nat -> pids d !! j = Some s' -> fd s' <> -1).
Proof.
  intros Habs. revert i h e. induction n as [| n IH]; intros i h e H;
    simpl in H.
  - repeat step_run H. discriminate.
  - destruct (pids d !! i) as [s |] eqn:Hs.
    2: { repeat step_run H. discriminate. }
    assert (Hp : pid s <> p)
      by (apply Habs; eapply list_elem_of_lookup_2; eassumption).
    apply Z.eqb_neq in Hp. rewrite Hp in H.
    destruct (fd s =? -1) eqn:Hf; cbn [negb] in H.
    + apply Z.eqb_eq in Hf.
      step_run H. apply dvb_open_node_fds in Hrun as (Ho & Hc & _).
      step_run H; [repeat step_run H; discriminate |].
      step_run H. apply sys_run in Hrun as [-> ->].
      step_run H; [repeat step_run H; discriminate |].
      apply ret_run in H as [H ->]. injection H as <-.
      apply Z.eqb_neq in Hc0.
      exists i, s, a. split; [lia |]. split; [exact Hs |].
      split; [exact Hf |]. split; [exact Hc0 |].
      rewrite !opened_fds_app, !closed_fds_app, Ho, Hc. unfold keep.
      apply Z.eqb_neq in Hc0. rewrite Hc0. cbn.
      split; [reflexivity |]. split; [reflexivity |].
      split; [reflexivity |]. intros j s' Hj. lia.
    + apply Z.eqb_neq in Hf.
      apply IH in H as (k & s' & x & Hk & Hs' & Hf' & Hx & Ho & Hc & Hd & Hpre).
      exists k, s', x. split; [lia |]. repeat (split; [assumption |]).
      intros j sj Hj Hsj.
      destruct (decide (j = i)) as [-> | Hne]; [congruence |].
      apply (Hpre j); [lia | assumption].
Qed.

(** X10.  Adding a PID the table does not hold and removing it again
    restores the session: the removal closes the one descriptor the
    addition obtained and leaves every field, the PID table included, as it
    was before the addition. *)
Theorem dvb_add_remove_round_trip (d d' : dvb_device) (p : Z)
    (h h' e : list event) :
  budget d = false ->
  pid_table (pids d) ->
  (forall s, s ∈ pids d -> pid s <> p) ->
  dvb_add_pid os d p h = ((0, d'), e) ->
  exists x, x <> -1 /\ opened_fds e = [x] /\ closed_fds e = [] /\
    dvb_remove_pid os d' p h' = (d, [Call (c_close x) (os h' (c_close x))]).
Proof.
  intros Hb [Hlen Hfree] Habs H. unfold dvb_add_pid in H. rewrite Hb in H.
  apply dvb_add_pid_loop_new in H
    as (k & s & x & Hk & Hs & Hf & Hx & Ho & Hc & -> & _); [| exact Habs].
  exists x. repeat (split; [assumption |]).
  unfold dvb_remove_pid. cbn [budget set_pids]. rewrite Hb.
  replace MAX_PIDS with (k + S (MAX_PIDS - k - 1))%nat by lia.
  rewrite (dvb_remove_pid_loop_skip os k).
  - cbn [dvb_remove_pid_loop Nat.add pids set_pids].
    rewrite list_lookup_insert_eq by (apply lookup_lt_Some in Hs; exact Hs).
    cbn [pid fd]. rewrite Z.eqb_refl.
    unfold mbind, M_bind, sys, mret, M_ret. cbn [set_pids pids].
    rewrite list_insert_insert_eq. fold free_slot.
    rewrite list_insert_id by (rewrite Hs; f_equal; eauto).
    destruct d; reflexivity.
  - intros j s' Hj. cbn [pids set_pids].
    rewrite list_lookup_insert_ne by lia. intros Hs'.
    apply Habs. eapply list_elem_of_lookup_2; eassumption.
  - cbn [pids set_pids]. rewrite length_insert. lia.
Qed.
End PidRoundTrip.

Lemma dvb_add_remove_round_trip_witness :
  exists x, x <> -1 /\ opened_fds (snd added_0x100) = [x] /\
    closed_fds (snd added_0x100) = [] /\
    dvb_remove_pid host_ok (snd (fst added_0x100)) 256 []
    = (fresh_session, [Call (c_close x) (host_ok [] (c_close x))]).
Proof.
  apply (dvb_add_remove_round_trip host_ok fresh_session
           (snd (fst added_0x100)) 256 [] [] (snd added_0x100)).
  - reflexivity.
  - exact fresh_session_pid_table.
  - rewrite fresh_session_pids. intros s Hs.
    apply elem_of_replicate in Hs as [-> _]. discriminate.
  - vm_compute. reflexivity.
Defined.

(** * Further properties of the session *)

Lemma dup_fds_app e1 e2 : dup_fds (e1 ++ e2) = dup_fds e1 ++ dup_fds e2.
Proof. apply omap_app. Qed.

Lemma opened_fds_open path fl a : opened_fds [Call (c_open path fl) a] = keep a.
Proof. unfold keep. cbn. now destruct (a =? -1). Qed.

Lemma opened_fds_dup x a :
  opened_fds [Call (c_fcntl_dupfd_cloexec x) a] = keep a.
Proof. unfold keep. cbn. now destruct (a =? -1). Qed.

Lemma dup_fds_dup x a : dup_fds [Call (c_fcntl_dupfd_cloexec x) a] = keep a.
Proof. unfold keep. cbn. now destruct (a =? -1). Qed.

Lemma closed_fds_close x a : closed_fds [Call (c_close x) a] = keep x.
Proof. unfold keep. cbn. now destruct (x =? -1). Qed.

Lemma allocs_malloc a : (a =? 0) = false -> allocs [Call c_malloc a] = 1%nat.
Proof. intros Ha. unfold allocs. cbn. now rewrite Ha. Qed.

Lemma keep_none x : (x =? -1) = true -> keep x = [].
Proof. intros Hx. unfold keep. now rewrite Hx. Qed.

Lemma allocs_malloc_null a : (a =? 0) = true -> allocs [Call c_malloc a] = 0%nat.
Proof. intros Ha. unfold allocs. cbn. now rewrite Ha. Qed.

Lemma keep_closed : keep (-1) = [].
Proof. reflexivity. Qed.

(** [dvb_open_node] logs nothing and duplicates no descriptor. *)
Lemma dvb_open_node_quiet os dirfd dev type flags h r e :
  dvb_open_node os dirfd dev type flags h = (r, e) ->
  dup_fds e = [] /\ forall t fmt, msgs t fmt e = [].
Proof.
  unfold dvb_open_node. intros H.
  step_run H. step_run H. apply ret_run in H as [<- ->].
  apply sys_run in Hrun as [-> ->].
  unfold when in Hrun0.
  destruct (os h _ =? -1) eqn:Hr; cbn [negb] in Hrun0.
  - apply ret_run in Hrun0 as [_ ->]. cbn. auto.
  - repeat step_run Hrun0. run_parts. cbn. auto.
Qed.

(** Split every run among the hypotheses into the runs of its parts, along
    each path of the code, down to the calls and messages. *)
Ltac run_all :=
  repeat match goal with
    | H : (_ ≫= _) _ = _ |- _ => step_run H
    | H : (if _ then _ else _) _ = _ |- _ => step_run H
    | H : when _ _ _ = _ |- _ => unfold when in H
    | H : sys _ _ _ = _ |- _ => apply sys_run in H as [_ ->]
    | H : msg_Err _ _ _ = _ |- _ => unfold msg_Err in H
    | H : msg_Warn _ _ _ = _ |- _ => unfold msg_Warn in H
    | H : msg_Dbg _ _ _ = _ |- _ => unfold msg_Dbg in H
    | H : emit _ _ = _ |- _ => apply emit_run in H as ->
    | H : get_fe_info _ _ = _ |- _ =>
        unfold get_fe_info in H; injection H as <- <-
    | H : mret _ _ = _ |- _ => apply ret_run in H as [? ->]
    | H : negb _ = true |- _ => apply negb_true_iff in H
    | H : negb _ = false |- _ => apply negb_false_iff in H
    end.

(** What the parts of a run obtained, released and logged. *)
Ltac node_facts :=
  repeat match goal with
    | H : dvb_open_node _ _ _ _ _ _ = _ |- _ =>
        let Ho := fresh "Ho" in
        let Hc := fresh "Hc" in
        let Ha := fresh "Ha" in
        let Hf := fresh "Hf" in
        let Hd := fresh "Hd" in
        let Hm := fresh "Hm" in
        pose proof (dvb_open_node_quiet _ _ _ _ _ _ _ _ H) as [Hd Hm];
        apply dvb_open_node_fds in H as (Ho & Hc & Ha & Hf)
    end.

Ltac account :=
  repeat first
    [ rewrite opened_fds_app | rewrite closed_fds_app
    | rewrite allocs_app | rewrite frees_app
    | rewrite dup_fds_app | rewrite msgs_app
    | rewrite opened_fds_open | rewrite opened_fds_dup
    | rewrite dup_fds_dup | rewrite closed_fds_close
    | rewrite allocs_malloc by assumption
    | rewrite allocs_malloc_null by assumption
    | match goal with
      | H : opened_fds ?e = _ |- context [opened_fds ?e] => rewrite H
      | H : closed_fds ?e = _ |- context [closed_fds ?e] => rewrite H
      | H : allocs ?e = _ |- context [allocs ?e] => rewrite H
      | H : frees ?e = _ |- context [frees ?e] => rewrite H
      | H : dup_fds ?e = _ |- context [dup_fds ?e] => rewrite H
      | H : msgs _ _ ?e = _ |- context [msgs _ _ ?e] => rewrite H
      | H : forall t fmt, msgs t fmt ?e = _ |- context [msgs _ _ ?e] =>
          rewrite H
      end ].

Section Close.
Variable os : list event -> call -> Z.

Lemma pid_fds_app ps qs : pid_fds (ps ++ qs) = pid_fds ps ++ pid_fds qs.
Proof. apply omap_app. Qed.

(** The loop of [dvb_close] closes the filter descriptors of the slots it
    visits, in order. *)
Lemma dvb_close_pids_run n i d h u e :
  dvb_close_pids os n i d h = (u, e) ->
  closed_fds e = pid_fds (take n (drop i (pids d))) /\
  opened_fds e = [] /\ allocs e = 0%nat /\ frees e = 0%nat /\
  dup_fds e = [] /\ forall t fmt, msgs t fmt e = [].
Proof.
  revert i h u e. induction n as [| n IH]; intros i h u e H; simpl in H.
  - apply ret_run in H as [_ ->]. repeat split; reflexivity.
  - destruct (pids d !! i) as [s |] eqn:Hs.
    + rewrite (drop_S _ _ _ Hs). cbn [take].
      step_run H. apply IH in H as (Hc & Ho & Ha & Hf & Hd & Hm).
      change (s :: take n (drop (S i) (pids d)))
        with ([s] ++ take n (drop (S i) (pids d))).
      rewrite pid_fds_app, <- Hc.
      unfold when in Hrun. destruct (fd s =? -1) eqn:Hfd; cbn [negb] in Hrun.
      * apply ret_run in Hrun as [_ ->]. cbn. rewrite Hfd. cbn.
        repeat split; auto.
      * run_all. account. cbn. rewrite Hfd. unfold keep. rewrite Hfd.
        cbn. repeat split; auto.
    + apply ret_run in H as [_ ->].
      rewrite drop_ge by (now apply lookup_ge_None_1). now destruct n.
Qed.

Lemma dvb_close_run d h u e :
  (length (pids d) <= MAX_PIDS)%nat ->
  dvb_close os d h = (u, e) ->
  closed_fds e = held d /\ opened_fds e = [] /\ allocs e = 0%nat /\
  frees e = 1%nat /\ dup_fds e = [] /\ forall t fmt, msgs t fmt e = [].
Proof.
  intros Hlen H. unfold dvb_close in H.
  assert (Hall : take MAX_PIDS (drop 0 (pids d)) = pids d)
    by (rewrite drop_0; now apply take_ge).
  unfold held, keep.
  run_all;
    repeat match goal with
      | Hp : dvb_close_pids _ _ _ _ _ = _ |- _ =>
          apply dvb_close_pids_run in Hp as (? & ? & ? & ? & ? & ?)
      | Hz : (_ =? _) = _ |- _ => rewrite Hz
      | Hz : budget _ = _ |- _ => rewrite Hz
      end;
    (split; [| split; [| split; [| split; [| split; [| intros t fmt]]]]]);
    account; rewrite ?Hall; unfold keep; cbn;
    repeat match goal with
      | Hz : (_ =? _) = _ |- _ => rewrite Hz
      end;
    rewrite ?app_nil_r; reflexivity.
Qed.

(** X11.  [dvb_close] closes every descriptor the session holds and nothing
    else, in the order directory, PID filters by slot, CA, frontend, data
    path; it releases the record once, and it obtains nothing. *)
Theorem dvb_close_releases (d : dvb_device) (h : list event) :
  (length (pids d) <= MAX_PIDS)%nat ->
  closed_fds (snd (dvb_close os d h)) = held d /\
  opened_fds (snd (dvb_close os d h)) = [] /\
  allocs (snd (dvb_close os d h)) = 0%nat /\
  frees (snd (dvb_close os d h)) = 1%nat.
Proof.
  intros Hlen. destruct (dvb_close os d h) as [u e] eqn:H.
  apply dvb_close_run in H as (Hc & Ho & Ha & Hf & _); auto.
Qed.
End Close.

Lemma dvb_close_releases_witness :
  closed_fds (snd (dvb_close host_ok fresh_session [])) = held fresh_session /\
  opened_fds (snd (dvb_close host_ok fresh_session [])) = [] /\
  allocs (snd (dvb_close host_ok fresh_session [])) = 0%nat /\
  frees (snd (dvb_close host_ok fresh_session [])) = 1%nat.
Proof.
  apply (dvb_close_releases host_ok fresh_session []).
  rewrite fresh_session_pids, length_replicate. reflexivity.
Defined.

Section Open.
Variable os : list event -> call -> Z.
Variable fe_info : list event -> dvb_frontend_info.
Variable uninit : dvb_device.

Lemma dvb_open_pids_all ps :
  length ps = MAX_PIDS ->
  dvb_open_pids MAX_PIDS 0 ps = replicate MAX_PIDS free_slot.
Proof.
  intros Hlen. apply list_eq. intros j.
  destruct (decide (j < MAX_PIDS)%nat) as [Hj | Hj].
  - rewrite dvb_open_pids_lookup by lia. symmetry.
    now apply lookup_replicate_2.
  - rewrite !lookup_ge_None_2;
      rewrite ?dvb_open_pids_length, ?length_replicate; auto; lia.
Qed.

Lemma pid_fds_free n : pid_fds (replicate n free_slot) = [].
Proof. induction n as [| n IH]; [reflexivity | exact IH]. Qed.

(** The tail of [dvb_open]: what it obtains is held by the session it
    returns, or closed when it fails; it closes the adapter directory in
    every case. *)
Lemma dvb_open_tune_account dirfd adapter device tune d0 h r e :
  frontend d0 = -1 -> ca d0 = -1 -> (length (pids d0) <= MAX_PIDS)%nat ->
  dvb_open_tune os fe_info dirfd adapter device tune d0 h = (r, e) ->
  allocs e = 0%nat /\ dup_fds e = [] /\ msgs MSG_ERR fmt_no_dvr e = [] /\
  match r with
  | Some d =>
      opened_fds e ++ keep dirfd ++ held d0 ≡ₚ closed_fds e ++ held d /\
      frees e = 0%nat /\
      pids d = pids d0 /\ budget d = budget d0 /\ demux d = demux d0 /\
      dir d = dir d0 /\ obj d = obj d0 /\ dev_id d = dev_id d0 /\
      (frontend d <> -1 <-> tune = true) /\ (tune = false -> ca d = -1)
  | None =>
      opened_fds e ++ keep dirfd ++ held d0 ≡ₚ closed_fds e /\
      frees e = 1%nat /\ tune = true
  end.
Proof.
  intros Hfe Hca Hlen H. unfold dvb_open_tune in H. cbv zeta in H.
  run_all; node_facts;
    repeat match goal with
      | Hp : dvb_close _ _ _ = _ |- _ =>
          apply dvb_close_run in Hp as (? & ? & ? & ? & ? & ?);
          [| exact Hlen]
      end;
    subst; cbv beta iota;
    (split; [| split; [| split]]; [account; reflexivity .. |]);
    repeat match goal with
      | |- _ /\ _ => split
      end;
    try reflexivity; try discriminate; try (intros _; exact Hca);
    try (account; reflexivity);
    try (account; unfold held;
         cbn [obj frontend demux dir dev_id pids ca info budget
              set_frontend set_info set_ca
              opened_fds closed_fds omap list_omap];
         rewrite ?Hfe, ?Hca, ?keep_closed; solve_Permutation);
    try (split; intros; try reflexivity; try discriminate; try congruence;
         apply Z.eqb_neq; assumption).
Qed.

(** Read the fields of the records built along a path. *)
Ltac fields :=
  cbn [obj frontend demux dir dev_id pids ca info budget
       set_obj set_frontend set_demux set_dir set_dev_id set_pids set_ca
       set_info set_budget] in *.

(** What the singleton runs of a path show. *)
Ltac singletons :=
  cbn [opened_fds closed_fds dup_fds omap list_omap];
  repeat match goal with
    | |- context [msgs ?t ?f [?ev]] =>
        let v := eval vm_compute in (msgs t f [ev]) in
        change (msgs t f [ev]) with v
    | |- context [allocs [?ev]] =>
        let v := eval vm_compute in (allocs [ev]) in
        change (allocs [ev]) with v
    | |- context [frees [?ev]] =>
        let v := eval vm_compute in (frees [ev]) in
        change (frees [ev]) with v
    | Hz : (?x =? -1) = true |- context [keep ?x] =>
        rewrite (keep_none x Hz)
    end;
  cbn [app].

Lemma dvb_open_account o tune h r e :
  length (pids uninit) = MAX_PIDS ->
  dvb_open os fe_info uninit o tune h = (r, e) ->
  match r with
  | Some d =>
      opened_fds e ≡ₚ closed_fds e ++ held d /\
      allocs e = 1%nat /\ frees e = 0%nat /\
      obj d = o /\ budget d = var_InheritBool o "dvb-budget-mode" /\
      length (pids d) = MAX_PIDS /\
      (budget d = false -> pids d = replicate MAX_PIDS free_slot) /\
      demux d <> -1 /\
      (frontend d <> -1 <-> tune = true) /\ (tune = false -> ca d = -1)
  | None =>
      allocs e = frees e /\
      opened_fds e
      ≡ₚ closed_fds e ++
         match msgs MSG_ERR fmt_no_dvr e with
         | [] => []
         | _ => dup_fds e
         end
  end.
Proof.
  intros Hlen H. unfold dvb_open in H. cbv zeta in H.
  remember (to_uint8 (var_InheritInteger o "dvb-adapter")) as adapter
    eqn:Hadapter.
  remember (to_uint8 (var_InheritInteger o "dvb-device")) as device
    eqn:Hdevice.
  clear Hadapter Hdevice. fields.
  rewrite (dvb_open_pids_all _ Hlen) in H.
  pose proof (pid_fds_free MAX_PIDS) as Hfree.
  assert (Htab : (length (replicate MAX_PIDS free_slot) <= MAX_PIDS)%nat)
    by (rewrite length_replicate; lia).
  pose proof (length_replicate MAX_PIDS free_slot) as Htablen.
  remember (replicate MAX_PIDS free_slot) as tab eqn:Htabdef.
  assert (Hun : (length (pids uninit) <= MAX_PIDS)%nat) by lia.
  unfold dvb_open_adapter in H.
  run_all; node_facts;
    repeat match goal with
      | Hp : dvb_close _ _ _ = _ |- _ =>
          apply dvb_close_run in Hp as (? & ? & ? & ? & ? & ?);
          [| exact Hun]
      | Hp : dvb_open_tune _ _ _ _ _ _ _ _ = (?r', _) |- _ =>
          apply dvb_open_tune_account in Hp as (? & ? & ? & Hp);
          [destruct r' | reflexivity | reflexivity | assumption]
      end;
    try subst r; cbv beta iota in *; unfold held in *; fields;
    repeat match goal with
      | Hp : _ /\ _ |- _ => destruct Hp
      | |- _ /\ _ => split
      end;
    try assumption;
    try solve [account; singletons; reflexivity];
    try solve [intros; congruence];
    try solve [apply Z.eqb_neq; congruence];
    try solve
      [ account; singletons; cbv beta iota; rewrite ?app_nil_r;
        try match goal with
          | Hp : _ ≡ₚ ?l |- _ ≡ₚ ?l => rewrite <- Hp
          end;
        repeat match goal with
          | Hz : var_InheritBool _ _ = _ |- _ => rewrite Hz
          end;
        rewrite ?Hfree; solve_Permutation ].
Qed.

(** X12.  A session [dvb_open] returns holds exactly the descriptors the
    call obtained and did not close again, and one allocated record.  It
    carries the caller's object and the configured mode, its data path is
    open, its PID table has every slot free in fallback mode, and its
    frontend is open exactly when tuning was asked for; without tuning
    there is no CA descriptor either. *)
Theorem dvb_open_success (o : vlc_object_t) (tune : bool) (h : list event)
    (d : dvb_device) (e : list event) :
  length (pids uninit) = MAX_PIDS ->
  dvb_open os fe_info uninit o tune h = (Some d, e) ->
  opened_fds e ≡ₚ closed_fds e ++ held d /\
  allocs e = 1%nat /\ frees e = 0%nat /\
  obj d = o /\ budget d = var_InheritBool o "dvb-budget-mode" /\
  (budget d = false -> pid_table (pids d) /\ pid_fds (pids d) = []) /\
  demux d <> -1 /\
  (frontend d <> -1 <-> tune = true) /\ (tune = false -> ca d = -1).
Proof.
  intros Hlen H. apply dvb_open_account in H; [| exact Hlen].
  destruct H as (Hp & Ha & Hf & Ho & Hb & _ & Ht & Hd & Hfe & Hca).
  repeat (split; [assumption |]). split; [| auto].
  intros Hfb. rewrite (Ht Hfb). split; [| apply pid_fds_free].
  split; [apply length_replicate |].
  intros i s Hs _. now apply lookup_replicate in Hs as [-> _].
Qed.

(** X13.  When [dvb_open] fails, the record it allocated has been freed,
    and every descriptor it obtained has been closed, with one exception:
    in fallback mode, when the DVR node cannot be opened, the duplicate of
    the adapter directory stays open. *)
Theorem dvb_open_failure (o : vlc_object_t) (tune : bool) (h : list event)
    (e : list event) :
  length (pids uninit) = MAX_PIDS ->
  dvb_open os fe_info uninit o tune h = (None, e) ->
  allocs e = frees e /\
  opened_fds e
  ≡ₚ closed_fds e ++
     match msgs MSG_ERR fmt_no_dvr e with
     | [] => []
     | _ => dup_fds e
     end.
Proof.
  intros Hlen H. now apply dvb_open_account in H.
Qed.

(** X14.  On a session [dvb_open] returned, the assertion of
    [dvb_guess_system] fails exactly when the session was opened without
    tuning. *)
Theorem dvb_guess_system_after_open (o : vlc_object_t) (tune : bool)
    (h : list event) (d : dvb_device) (e : list event) :
  length (pids uninit) = MAX_PIDS ->
  dvb_open os fe_info uninit o tune h = (Some d, e) ->
  (dvb_guess_system d = None <-> tune = false).
Proof.
  intros Hlen H. apply dvb_open_account in H; [| exact Hlen].
  destruct H as (_ & _ & _ & _ & _ & _ & _ & _ & Hfe & _).
  unfold dvb_guess_system.
  destruct (frontend d =? -1) eqn:Hf; cbn [negb].
  - apply Z.eqb_eq in Hf. split; [| reflexivity].
    intros _. destruct tune; [| reflexivity].
    exfalso. now apply (proj2 Hfe).
  - apply Z.eqb_neq in Hf. apply Hfe in Hf. subst tune.
    split; [| discriminate].
    repeat match goal with
      | |- context [if ?c then _ else _] => destruct c
      end; discriminate.
Qed.
End Open.

Lemma dvb_open_success_witness :
  opened_fds (snd (dvb_open host_ok some_info stale_device fallback_obj true []))
  ≡ₚ closed_fds
       (snd (dvb_open host_ok some_info stale_device fallback_obj true []))
     ++ held fresh_session /\
  allocs (snd (dvb_open host_ok some_info stale_device fallback_obj true []))
  = 1%nat /\
  frees (snd (dvb_open host_ok some_info stale_device fallback_obj true []))
  = 0%nat /\
  obj fresh_session = fallback_obj /\
  budget fresh_session = var_InheritBool fallback_obj "dvb-budget-mode" /\
  (budget fresh_session = false ->
   pid_table (pids fresh_session) /\ pid_fds (pids fresh_session) = []) /\
  demux fresh_session <> -1 /\
  (frontend fresh_session <> -1 <-> true = true) /\
  (true = false -> ca fresh_session = -1).
Proof.
  apply (dvb_open_success host_ok some_info stale_device fallback_obj true []).
  - reflexivity.
  - vm_compute. reflexivity.
Defined.

Lemma dvb_open_failure_witness :
  opened_fds
    (snd (dvb_open host_no_dvr some_info stale_device fallback_obj true []))
  = [3; 5] /\
  closed_fds
    (snd (dvb_open host_no_dvr some_info stale_device fallback_obj true []))
  = [3] /\
  allocs (snd (dvb_open host_no_dvr some_info stale_device fallback_obj true []))
  = frees
      (snd (dvb_open host_no_dvr some_info stale_device fallback_obj true []))
  /\
  opened_fds
    (snd (dvb_open host_no_dvr some_info stale_device fallback_obj true []))
  ≡ₚ closed_fds
       (snd (dvb_open host_no_dvr some_info stale_device fallback_obj true []))
     ++ match
          msgs MSG_ERR fmt_no_dvr
            (snd (dvb_open host_no_dvr some_info stale_device fallback_obj
                    true []))
        with
        | [] => []
        | _ =>
            dup_fds
              (snd (dvb_open host_no_dvr some_info stale_device fallback_obj
                      true []))
        end.
Proof.
  split; [vm_compute; reflexivity |]. split; [vm_compute; reflexivity |].
  apply (dvb_open_failure host_no_dvr some_info stale_device fallback_obj true
           []).
  - reflexivity.
  - vm_compute. reflexivity.
Defined.

Lemma dvb_guess_system_after_open_witness :
  dvb_guess_system fresh_session = None <-> true = false.
Proof.
  apply (dvb_guess_system_after_open host_ok some_info stale_device
           fallback_obj true [] fresh_session
           (snd (dvb_open host_ok some_info stale_device fallback_obj true []))).
  - reflexivity.
  - vm_compute. reflexivity.
Defined.

(** ** Sequences of calls *)

Lemma pid_table_take ps k x p :
  x <> -1 -> pid_table ps -> pid_table (<[k := {| fd := x; pid := p |}]> ps).
Proof.
  intros Hx [Hlen Hfree]. split; [now rewrite length_insert |].
  intros i s Hs Hf. apply list_lookup_insert_Some in Hs as [(_ & <- & _) | [_ Hs]].
  - contradiction.
  - now apply (Hfree i).
Qed.

Lemma pid_table_free ps k : pid_table ps -> pid_table (<[k := free_slot]> ps).
Proof.
  intros [Hlen Hfree]. split; [now rewrite length_insert |].
  intros i s Hs Hf. apply list_lookup_insert_Some in Hs as [(_ & <- & _) | [_ Hs]].
  - reflexivity.
  - now apply (Hfree i).
Qed.

(** Accounts of consecutive runs add up. *)
Lemma balance_seq (o0 o1 c0 c1 h0 h1 h2 : list Z) :
  o0 ++ h0 ≡ₚ c0 ++ h1 -> o1 ++ h1 ≡ₚ c1 ++ h2 ->
  (o0 ++ o1) ++ h0 ≡ₚ (c0 ++ c1) ++ h2.
Proof.
  intros H0 H1.
  transitivity (o1 ++ (o0 ++ h0)); [solve_Permutation |]. rewrite H0.
  transitivity (c0 ++ (o1 ++ h1)); [solve_Permutation |]. rewrite H1.
  solve_Permutation.
Qed.

Section Ops.
Variable os : list event -> call -> Z.

(** [dvb_add_pid] changes the session by taking one slot, if at all. *)
Lemma dvb_add_pid_loop_shape n i d p h r d' e :
  dvb_add_pid_loop os n i d p h = ((r, d'), e) ->
  allocs e = 0%nat /\ frees e = 0%nat /\
  (d' = d \/
   exists k x, x <> -1 /\
     d' = set_pids (<[k := {| fd := x; pid := p |}]> (pids d)) d).
Proof.
  revert i h e. induction n as [| n IH]; intros i h e H; simpl in H.
  - run_all.
    match goal with
    | Heq : (_, _) = (r, d') |- _ => injection Heq as <- <-
    end. cbn. auto.
  - destruct (pids d !! i) as [s |] eqn:Hs.
    2: { run_all.
         match goal with
         | Heq : (_, _) = (r, d') |- _ => injection Heq as <- <-
         end. cbn. auto. }
    destruct (pid s =? p).
    { apply ret_run in H as [H ->]. injection H as <- <-. cbn. auto. }
    destruct (fd s =? -1) eqn:Hf; cbn [negb] in H; [| now apply IH in H].
    run_all; node_facts;
      match goal with
      | Heq : (_, _) = (r, d') |- _ => injection Heq as <- <-
      end;
      (split; [account; reflexivity |]);
      (split; [account; reflexivity |]);
      [left; reflexivity .. |].
    right. exists i, a. split; [now apply Z.eqb_neq | reflexivity].
Qed.

(** [dvb_remove_pid] changes the session by freeing one slot, if at all. *)
Lemma dvb_remove_pid_loop_shape n i d p h d' e :
  dvb_remove_pid_loop os n i d p h = (d', e) ->
  allocs e = 0%nat /\ frees e = 0%nat /\
  (d' = d \/ exists k, d' = set_pids (<[k := free_slot]> (pids d)) d).
Proof.
  revert i h e. induction n as [| n IH]; intros i h e H; simpl in H.
  - apply ret_run in H as [<- ->]. cbn. auto.
  - destruct (pids d !! i) as [s |] eqn:Hs.
    2: { apply ret_run in H as [<- ->]. cbn. auto. }
    destruct (pid s =? p); [| now apply IH in H].
    run_all. subst d'. split; [reflexivity |]. split; [reflexivity |].
    right. exists i. reflexivity.
Qed.

(** What any sequence of calls to the PID filter manager keeps. *)
Lemma run_ops_account ops d h d' e :
  run_ops os ops d h = (d', e) ->
  opened_fds e ++ held d ≡ₚ closed_fds e ++ held d' /\
  allocs e = 0%nat /\ frees e = 0%nat /\
  budget d' = budget d /\ length (pids d') = length (pids d) /\
  (pid_table (pids d) -> pid_table (pids d')).
Proof.
  revert d h d' e. induction ops as [| [p | p] ops IH]; intros d h d' e H;
    simpl in H.
  - apply ret_run in H as [<- ->]. cbn. split; [reflexivity | auto 10].
  - step_run H. destruct a as [r d1]. cbn [snd] in H.
    apply IH in H as (Hp & Ha & Hf & Hb & Hl & Ht).
    assert (Hstep : opened_fds e0 ++ held d ≡ₚ closed_fds e0 ++ held d1 /\
              allocs e0 = 0%nat /\ frees e0 = 0%nat /\
              (d1 = d \/
               exists k x, x <> -1 /\
                 d1 = set_pids (<[k := {| fd := x; pid := p |}]> (pids d)) d)).
    { unfold dvb_add_pid in Hrun. destruct (budget d) eqn:Hbd.
      - apply ret_run in Hrun as [Hrun ->]. injection Hrun as <- <-.
        cbn. split; [reflexivity | auto 10].
      - split.
        + now apply dvb_add_pid_loop_balance in Hrun as [Hbal _].
        + now apply dvb_add_pid_loop_shape in Hrun. }
    destruct Hstep as (Hp1 & Ha1 & Hf1 & Hd1).
    split; [| split; [| split]].
    + account. exact (balance_seq _ _ _ _ _ _ _ Hp1 Hp).
    + account. reflexivity.
    + account. reflexivity.
    + destruct Hd1 as [-> | (k & x & Hx & ->)]; [auto |].
      cbn [budget pids set_pids] in *. rewrite length_insert in Hl.
      split; [assumption |]. split; [assumption |].
      intros Hpt. apply Ht. now apply pid_table_take.
  - step_run H. rename a into d1.
    apply IH in H as (Hp & Ha & Hf & Hb & Hl & Ht).
    assert (Hstep : opened_fds e0 ++ held d ≡ₚ closed_fds e0 ++ held d1 /\
              allocs e0 = 0%nat /\ frees e0 = 0%nat /\
              (d1 = d \/
               exists k, d1 = set_pids (<[k := free_slot]> (pids d)) d)).
    { unfold dvb_remove_pid in Hrun. destruct (budget d) eqn:Hbd.
      - apply ret_run in Hrun as [<- ->]. cbn. split; [reflexivity | auto 10].
      - split.
        + now apply dvb_remove_pid_loop_balance in Hrun.
        + now apply dvb_remove_pid_loop_shape in Hrun. }
    destruct Hstep as (Hp1 & Ha1 & Hf1 & Hd1).
    split; [| split; [| split]].
    + account. exact (balance_seq _ _ _ _ _ _ _ Hp1 Hp).
    + account. reflexivity.
    + account. reflexivity.
    + destruct Hd1 as [-> | (k & ->)]; [auto |].
      cbn [budget pids set_pids] in *. rewrite length_insert in Hl.
      split; [assumption |]. split; [assumption |].
      intros Hpt. apply Ht. now apply pid_table_free.
Qed.

(** X15.  Whatever calls to [dvb_add_pid] and [dvb_remove_pid] a client
    makes, and whatever each of them returns: the descriptors obtained
    together with those held before are those closed together with those
    held after; no record is allocated or freed; the mode and the size of
    the PID table stay; and in a table whose free slots are marked as
    [dvb_open] marks them, the free slots stay so marked. *)
Theorem run_ops_invariants (ops : list pid_op) (d : dvb_device)
    (h : list event) :
  opened_fds (snd (run_ops os ops d h)) ++ held d
  ≡ₚ closed_fds (snd (run_ops os ops d h)) ++ held (fst (run_ops os ops d h)) /\
  allocs (snd (run_ops os ops d h)) = 0%nat /\
  frees (snd (run_ops os ops d h)) = 0%nat /\
  budget (fst (run_ops os ops d h)) = budget d /\
  length (pids (fst (run_ops os ops d h))) = length (pids d) /\
  (pid_table (pids d) -> pid_table (pids (fst (run_ops os ops d h)))).
Proof.
  destruct (run_ops os ops d h) as [d' e] eqn:H.
  now apply run_ops_account in H.
Qed.

(** X16.  Over the life of a session, from [dvb_open] through any calls to
    the PID filter manager to [dvb_close], every record allocated is freed;
    and when the tuner was opened, every descriptor obtained from the host
    has been closed by the end. *)
Theorem session_life_account (fe_info : list event -> dvb_frontend_info)
    (uninit : dvb_device) (o : vlc_object_t) (tune : bool)
    (ops : list pid_op) (h : list event) :
  length (pids uninit) = MAX_PIDS ->
  allocs (snd (session_life os fe_info uninit o tune ops h))
  = frees (snd (session_life os fe_info uninit o tune ops h)) /\
  (fst (session_life os fe_info uninit o tune ops h) = true ->
   opened_fds (snd (session_life os fe_info uninit o tune ops h))
   ≡ₚ closed_fds (snd (session_life os fe_info uninit o tune ops h))).
Proof.
  intros Hlen.
  destruct (session_life os fe_info uninit o tune ops h) as [r e] eqn:H.
  unfold session_life in H. step_run H.
  apply dvb_open_account in Hrun; [| exact Hlen].
  destruct a as [d |].
  - destruct Hrun as (Hopen & Ha & Hf & _ & _ & Hl & _).
    step_run H. rename a into d'.
    apply run_ops_account in Hrun as (Hops & Ha' & Hf' & _ & Hl' & _).
    step_run H. apply dvb_close_run in Hrun as (Hc & Ho & Ha'' & Hf'' & _);
      [| lia].
    apply ret_run in H as [<- ->]. cbn [fst snd].
    split; [account; reflexivity |]. intros _. account.
    rewrite Hopen, ?app_nil_r.
    rewrite <- (app_assoc (closed_fds e0)), (Permutation_app_comm (held d)).
    now rewrite Hops.
  - apply ret_run in H as [<- ->]. cbn [fst snd].
    split; [| discriminate]. destruct Hrun as [Hrun _].
    account. cbn. lia.
Qed.
End Ops.

Lemma run_ops_invariants_witness :
  pid_table
    (pids (fst (run_ops host_ok [add_pid 256; add_pid 257; remove_pid 256]
                  fresh_session []))).
Proof.
  apply (run_ops_invariants host_ok [add_pid 256; add_pid 257; remove_pid 256]
           fresh_session []).
  exact fresh_session_pid_table.
Defined.

Lemma session_life_account_witness :
  fst (session_life host_ok some_info stale_device fallback_obj true
         [add_pid 256; add_pid 257; remove_pid 256] []) = true /\
  opened_fds
    (snd (session_life host_ok some_info stale_device fallback_obj true
            [add_pid 256; add_pid 257; remove_pid 256] []))
  ≡ₚ closed_fds
       (snd (session_life host_ok some_info stale_device fallback_obj true
               [add_pid 256; add_pid 257; remove_pid 256] [])).
Proof.
  split; [vm_compute; reflexivity |].
  apply (session_life_account host_ok some_info stale_device fallback_obj true
           [add_pid 256; add_pid 257; remove_pid 256] []).
  - reflexivity.
  - vm_compute. reflexivity.
Defined.

(** * Further properties of tuning *)

Section Tuning.
Variable os : list event -> call -> Z.

Lemma dvb_vset_props_loop_eq n ap h :
  dvb_vset_props_loop n ap h = (va_props n ap, setting_msgs (va_props n ap)).
Proof.
  revert ap h. induction n as [| n IH]; intros ap h; simpl; [reflexivity |].
  destruct (va_arg ap) as [c ap1]. destruct (va_arg ap1) as [v ap2].
  unfold mbind, M_bind, msg_Dbg, emit. rewrite IH. unfold mret, M_ret.
  cbv beta iota. rewrite app_nil_r. reflexivity.
Qed.

(** The run of [dvb_set_props], in full. *)
Lemma dvb_set_props_eq d n ap h :
  dvb_set_props os d n ap h
  = (if os (h ++ setting_msgs (va_props n ap))
          (c_ioctl (frontend d) (FE_SET_PROPERTY (Z.of_nat n) (va_props n ap)))
        <? 0
     then -1 else 0,
     setting_msgs (va_props n ap)
     ++ Call (c_ioctl (frontend d)
                (FE_SET_PROPERTY (Z.of_nat n) (va_props n ap)))
          (os (h ++ setting_msgs (va_props n ap))
             (c_ioctl (frontend d)
                (FE_SET_PROPERTY (Z.of_nat n) (va_props n ap))))
        :: (if os (h ++ setting_msgs (va_props n ap))
                 (c_ioctl (frontend d)
                    (FE_SET_PROPERTY (Z.of_nat n) (va_props n ap)))
               <? 0
            then [Msg MSG_ERR fmt_cannot_set []] else [])).
Proof.
  unfold dvb_set_props, dvb_vset_props, mbind, M_bind.
  rewrite dvb_vset_props_loop_eq. unfold sys.
  destruct (os _ _ <? 0); reflexivity.
Qed.

Lemma va_arg_range ap c ap' : va_arg ap = (c, ap') -> 0 <= c < 2 ^ 32.
Proof.
  destruct ap as [| a ap]; simpl; intros [= <- <-]; [lia |].
  unfold to_uint32. apply Z.mod_pos_bound. lia.
Qed.

(** X17.  What a call to [dvb_set_props] with [n] properties does, in order:
    it logs each property, submits the [n] properties in one request to
    the frontend, and logs an error if the request fails; it returns -1 in
    that case and 0 otherwise.  Every command and every value submitted is
    an unsigned 32-bit number, whatever the arguments were. *)
Theorem dvb_set_props_trace (d : dvb_device) (n : nat) (ap : list Z)
    (h : list event) :
  let props := va_props n ap in
  let c := c_ioctl (frontend d) (FE_SET_PROPERTY (Z.of_nat n) props) in
  let r := os (h ++ setting_msgs props) c in
  dvb_set_props os d n ap h
  = (if r <? 0 then -1 else 0,
     setting_msgs props
     ++ Call c r :: (if r <? 0 then [Msg MSG_ERR fmt_cannot_set []] else []))
  /\ length props = n
  /\ Forall (fun p => 0 <= cmd p < 2 ^ 32 /\ 0 <= data p < 2 ^ 32) props.
Proof.
  cbv zeta. split; [apply dvb_set_props_eq |].
  revert ap. induction n as [| n IH]; intros ap; simpl; [auto |].
  destruct (va_arg ap) as [c ap1] eqn:Hc.
  destruct (va_arg ap1) as [v ap2] eqn:Hv.
  destruct (IH ap2) as [Hlen Hall]. simpl. split; [now rewrite Hlen |].
  constructor; [| exact Hall]. simpl.
  split; eapply va_arg_range; eassumption.
Qed.

(** X18.  Each of the six configurators submits exactly one property set,
    which begins by clearing the frontend's cached properties and naming
    the delivery system, never clears again and never asks for tuning;
    tuning is what [dvb_tune] asks for, and nothing else. *)
Theorem configurators_clear_first (d : dvb_device) (h : list event)
    (freq srate pilot rolloff bandwidth transmit_val hierarchy_val : Z)
    (modstr fecstr fechstr feclstr guardstr : option string) :
  configures SYS_DVBC_ANNEX_AC (dvb_set_dvbc os d freq modstr srate fecstr h) /\
  configures SYS_DVBS (dvb_set_dvbs os d freq srate fecstr h) /\
  configures SYS_DVBS2
    (dvb_set_dvbs2 os d freq modstr srate fecstr pilot rolloff h) /\
  configures SYS_DVBT
    (dvb_set_dvbt os d freq modstr fechstr feclstr bandwidth transmit_val
       guardstr hierarchy_val h) /\
  configures SYS_ATSC (dvb_set_atsc os d freq modstr h) /\
  configures SYS_DVBC_ANNEX_B (dvb_set_cqam os d freq modstr h) /\
  submitted (snd (dvb_tune os d h)) = [[ {| cmd := DTV_TUNE; data := 0 |} ]].
Proof.
  unfold configures, dvb_set_dvbc, dvb_set_dvbs, dvb_set_dvbs2, dvb_set_dvbt,
    dvb_set_atsc, dvb_set_cqam, dvb_tune, dvb_set_prop.
  rewrite !dvb_set_props_submitted. cbn [va_props va_arg].
  repeat split;
    try (eexists; split; [reflexivity |];
         split; prop_value_eval; reflexivity).
Qed.
End Tuning.

(** * Further properties of reading *)

(** X19.  [dvb_read] begins by polling the data path, and the frontend when
    there is one, for 500 ms, and stops there with -1 when polling fails.
    It reads at most once, from the data path and with the length it was
    given.  Without a read the result is -1 or 0, and a positive result is
    the byte count the one read returned. *)
Theorem dvb_read_outcome (d : dvb_device) (len : Z) (k : read_host) :
  (exists rest,
     snd (dvb_read d len k)
     = rd_poll (demux d :: keep (frontend d)) 500 :: rest /\
     (poll_ret k < 0 -> rest = [] /\ fst (dvb_read d len k) = -1)) /\
  (reads (snd (dvb_read d len k)) = [] \/
   reads (snd (dvb_read d len k)) = [(demux d, len)]) /\
  (reads (snd (dvb_read d len k)) = [] ->
   fst (dvb_read d len k) = -1 \/ fst (dvb_read d len k) = 0) /\
  (0 < fst (dvb_read d len k) ->
   fst (dvb_read d len k) = read_ret k /\
   reads (snd (dvb_read d len k)) = [(demux d, len)]).
Proof.
  unfold dvb_read, keep.
  destruct (Z.ltb_spec (poll_ret k) 0) as [Hpoll | Hpoll];
    destruct (frontend d =? -1); cbn [negb andb];
    repeat match goal with
      | |- context [if ?c then _ else _] => destruct c eqn:?
      end;
    cbn;
    (split; [eexists; split; [reflexivity | intros; (lia || auto)] |]);
    (split; [auto |]);
    (split; [intros; try discriminate; auto |]);
    intros; try lia; auto.
Qed.

(** X20.  [dvb_read] returns 0 in exactly these cases, polling having
    succeeded: a frontend event was signalled and could not be dequeued,
    for a reason other than overflow, in which case data that is ready is
    not read; or no dequeuing failed, the data path was readable, and the
    read returned 0 or failed for a reason other than a retry, an
    interruption or overflow. *)
Theorem dvb_read_zero (d : dvb_device) (len : Z) (k : read_host) :
  let event_failed :=
    frontend d <> -1 /\ revents1 k <> 0 /\ get_event_ret k < 0 in
  fst (dvb_read d len k) = 0 <->
  0 <= poll_ret k /\
  ((event_failed /\ get_event_errno k <> EOVERFLOW) \/
   (~ event_failed /\ revents0 k <> 0 /\
    (read_ret k = 0 \/
     read_ret k = -1 /\ read_errno k <> EAGAIN /\ read_errno k <> EINTR /\
     read_errno k <> EOVERFLOW))).
Proof.
  cbv zeta. unfold dvb_read.
  destruct (Z.ltb_spec (poll_ret k) 0) as [Hpoll | Hpoll].
  { cbn. split; [discriminate | lia]. }
  destruct (Z.eqb_spec (frontend d) (-1)) as [Hfe | Hfe];
    destruct (Z.eqb_spec (revents1 k) 0) as [Hev | Hev];
    destruct (Z.ltb_spec (get_event_ret k) 0) as [Hget | Hget];
    destruct (Z.eqb_spec (revents0 k) 0) as [Hrd | Hrd];
    destruct (Z.eqb_spec (read_ret k) (-1)) as [Hret | Hret];
    destruct (get_event_errno k); destruct (read_errno k);
    cbn;
    intuition (try lia; try congruence; try discriminate).
Qed.

Lemma dvb_read_outcome_witness :
  fst (dvb_read fresh_session 4096 data_ready) = read_ret data_ready /\
  reads (snd (dvb_read fresh_session 4096 data_ready))
  = [(demux fresh_session, 4096)].
Proof.
  destruct (dvb_read_outcome fresh_session 4096 data_ready)
    as (_ & _ & _ & Hdata).
  apply Hdata. vm_compute. reflexivity.
Defined.

Lemma dvb_read_zero_witness :
  fst (dvb_read fresh_session 4096 event_gone) = 0.
Proof.
  apply (dvb_read_zero fresh_session 4096 event_gone).
  split; [vm_compute; discriminate |]. left.
  split; [| discriminate].
  split; [vm_compute; discriminate |].
  split; [discriminate | reflexivity].
Defined.

(** * Further properties of satellite equipment control *)

Lemma sec_steps_app e1 e2 : sec_steps (e1 ++ e2) = sec_steps e1 ++ sec_steps e2.
Proof. apply omap_app. Qed.

Lemma sec_steps_setting_msgs props : sec_steps (setting_msgs props) = [].
Proof. induction props as [| p props IH]; [reflexivity | exact IH]. Qed.

Lemma dvb_set_props_steps os d n ap h r e :
  dvb_set_props os d n ap h = (r, e) ->
  sec_steps e = [sec_ioctl (FE_SET_PROPERTY (Z.of_nat n) (va_props n ap))] /\
  (r = 0 \/ r = -1) /\
  ((forall h' c, 0 <= os h' c) -> r = 0).
Proof.
  rewrite dvb_set_props_eq. intros [= <- <-].
  rewrite sec_steps_app, sec_steps_setting_msgs.
  match goal with |- context [os ?h' ?c <? 0] =>
    destruct (Z.ltb_spec (os h' c) 0) as [Hr | Hr];
    (split; [reflexivity |]); (split; [auto |]); intros Hok;
    [specialize (Hok h' c); lia | reflexivity]
  end.
Qed.

Lemma dvb_set_sec_lnb_steps freq lowf highf h :
  sec_steps (snd (dvb_set_sec_lnb freq lowf highf h)) = [].
Proof.
  unfold dvb_set_sec_lnb. destruct (lowf =? 0); [| reflexivity].
  destruct (dvb_set_sec_band lnb_tab (freq / 1000)) as [[l hg] |];
    reflexivity.
Qed.

Lemma dvb_set_sec_band_range tab mhz l hg :
  dvb_set_sec_band tab mhz = Some (l, hg) ->
  0 <= l < 2 ^ 32 /\ 0 <= hg < 2 ^ 32.
Proof.
  induction tab as [| b tab IH]; simpl; [discriminate |].
  destruct ((mhz >=? min b) && (mhz <=? max b)); [| exact IH].
  intros [= <- <-]. split; apply to_uint32_range.
Qed.

Lemma sec_oscillators_range freq lowf highf :
  0 <= lowf < 2 ^ 32 -> 0 <= highf < 2 ^ 32 ->
  0 <= fst (sec_oscillators freq lowf highf) < 2 ^ 32 /\
  0 <= snd (sec_oscillators freq lowf highf) < 2 ^ 32.
Proof.
  intros Hl Hh. unfold sec_oscillators, dvb_set_sec_lnb.
  destruct (lowf =? 0); [| cbn; auto].
  destruct (dvb_set_sec_band lnb_tab (freq / 1000)) as [[l hg] |] eqn:Hb;
    cbn; [| auto].
  now apply dvb_set_sec_band_range in Hb.
Qed.

Lemma diseqc_byte n bv bt :
  1 <= n <= 4 ->
  to_uint8
    (Z.lor (Z.lor (Z.lor 240 (Z.shiftl (Z.land (to_uint32 (n - 1)) 3) 2))
              (Z.shiftl (c_bool bv) 1))
       (c_bool bt))
  = 240 + 4 * (n - 1) + 2 * c_bool bv + c_bool bt.
Proof.
  intros Hn.
  assert (Hcases : n = 1 \/ n = 2 \/ n = 3 \/ n = 4) by lia.
  destruct Hcases as [-> | [-> | [-> | ->]]]; destruct bv, bt;
    vm_compute; reflexivity.
Qed.

Lemma diseqc_burst n :
  1 <= n <= 4 ->
  (if negb (Z.land (Z.land (to_uint32 (n - 1)) 3) 1 =? 0)
   then SEC_MINI_B else SEC_MINI_A)
  = (if Z.odd n then SEC_MINI_A else SEC_MINI_B).
Proof.
  intros Hn.
  assert (Hcases : n = 1 \/ n = 2 \/ n = 3 \/ n = 4) by lia.
  destruct Hcases as [-> | [-> | [-> | ->]]]; vm_compute; reflexivity.
Qed.

Lemma dvb_parse_polarization_range pol :
  dvb_parse_polarization pol = SEC_VOLTAGE_13 \/
  dvb_parse_polarization pol = SEC_VOLTAGE_18 \/
  dvb_parse_polarization pol = SEC_VOLTAGE_OFF.
Proof.
  unfold dvb_parse_polarization, dvb_parse_int.
  destruct (bsearch (icmp pol) polarization_tab 5) as [e |] eqn:Hb;
    [| right; right; reflexivity].
  apply bsearch_sound in Hb as [Hin _]. unfold polarization_tab in Hin.
  repeat (apply elem_of_cons in Hin as [-> | Hin]; [vm_compute; auto |]).
  now apply elem_of_nil in Hin.
Qed.

Lemma sec_tone_range d high :
  sec_tone d high = SEC_TONE_ON \/ sec_tone d high = SEC_TONE_OFF.
Proof.
  unfold sec_tone.
  repeat match goal with
    | |- context [if ?c then _ else _] => destruct c
    end; auto.
Qed.

(** X21.  Satellite equipment control follows one fixed sequence.  For a
    frequency and oscillator frequencies that are unsigned 32-bit numbers,
    a satellite number from 0 to 4 and a distance between the frequency
    and the oscillator in use below 2^31 - 1, [dvb_set_sec] does not
    abort and returns 0 or -1.  The requests it sends to the frontend and
    the waits between them are a beginning of the sequence: high-voltage
    setting; tone off and voltage level; then, for a satellite number
    above zero, 15 ms, the DiSEqC command for the switch port, 69 ms, the
    tone burst (A for an odd number, B for an even one), 15 ms; finally the
    intermediate frequency, which is that distance, with the continuous
    tone.  The sequence is complete when the result is 0, and the result
    is 0 when the host accepts every request. *)
Theorem dvb_set_sec_sequence (os : list event -> call -> Z) (d : dvb_device)
    (freq pol lowf highf switchf : Z) (h : list event) :
  let satno := var_InheritInteger (obj d) "dvb-satno" in
  let osc := sec_oscillators freq lowf highf in
  let high := negb (snd osc =? 0) && (freq >? switchf) in
  let lo := if high then snd osc else fst osc in
  let run := dvb_set_sec os d freq pol lowf highf switchf h in
  let expected :=
    sec_sequence (c_bool (var_InheritBool (obj d) "dvb-high-voltage"))
      (dvb_parse_polarization pol) satno (sec_tone d high)
      (Z.abs (freq - lo)) in
  0 <= freq < 2 ^ 32 -> 0 <= lowf < 2 ^ 32 -> 0 <= highf < 2 ^ 32 ->
  0 <= satno <= 4 ->
  Z.abs (freq - lo) < 2 ^ 31 - 1 ->
  (exists r, fst run = Some r /\ (r = 0 \/ r = -1)) /\
  sec_steps (snd run) `prefix_of` expected /\
  (fst run = Some 0 -> sec_steps (snd run) = expected) /\
  ((forall h' c, 0 <= os h' c) -> fst run = Some 0).
Proof.
  cbv zeta. intros Hfreq Hlowf Hhighf Hsat Hif.
  pose proof (sec_oscillators_range freq lowf highf Hlowf Hhighf) as Hosc.
  pose proof (dvb_set_sec_lnb_steps freq lowf highf []) as Hlsteps.
  unfold sec_oscillators in *.
  destruct (dvb_set_sec os d freq pol lowf highf switchf h) as [r e] eqn:H.
  cbn [fst snd].
  unfold dvb_set_sec in H. cbv zeta in H.
  step_run H. step_run H. step_run H.
  rewrite (proj1 (dvb_set_sec_lnb_run freq lowf highf _)) in Hrun1.
  rewrite Hrun1 in *. destruct a1 as [l hg]. cbn [fst snd] in *.
  cbv beta iota in H.
  set (n := var_InheritInteger (obj d) "dvb-satno") in *.
  set (hi := negb (hg =? 0) && (freq >? switchf)) in *.
  assert (Hlo : 0 <= (if hi then hg else l) < 2 ^ 32) by (destruct hi; tauto).
  set (lo := if hi then hg else l) in *.
  rewrite (sec_if_abs freq lo Hfreq Hlo Hif) in H.
  change (if var_InheritInteger (obj d) "dvb-tone" =? 0 then SEC_TONE_OFF
          else if var_InheritInteger (obj d) "dvb-tone" =? 1 then SEC_TONE_ON
          else if hi then SEC_TONE_ON else SEC_TONE_OFF)
    with (sec_tone d hi) in H.
  rewrite (to_uint32_small n) in H by (unfold UINT32_MAX; lia).
  change (2 ^ 31) with 2147483648 in Hif.
  replace (Z.abs (freq - lo) <? 2147483647) with true in H
    by (symmetry; apply Z.ltb_lt; lia).
  cbn [negb] in H.
  set (voltage := dvb_parse_polarization pol) in *.
  assert (Hv : to_uint32 voltage = voltage).
  { destruct (dvb_parse_polarization_range pol) as [Hp | [Hp | Hp]];
      subst voltage; rewrite Hp; reflexivity. }
  assert (Ht : to_uint32 (sec_tone d hi) = sec_tone d hi).
  { destruct (sec_tone_range d hi) as [Hp | Hp]; rewrite Hp; reflexivity. }
  assert (Hi : to_uint32 (Z.abs (freq - lo)) = Z.abs (freq - lo))
    by (apply to_uint32_small; unfold UINT32_MAX; lia).
  assert (Hk1 : to_uint32 DTV_TONE = DTV_TONE) by (vm_compute; reflexivity).
  assert (Hk2 : to_uint32 SEC_TONE_OFF = SEC_TONE_OFF)
    by (vm_compute; reflexivity).
  assert (Hk3 : to_uint32 DTV_VOLTAGE = DTV_VOLTAGE)
    by (vm_compute; reflexivity).
  assert (Hk4 : to_uint32 DTV_FREQUENCY = DTV_FREQUENCY)
    by (vm_compute; reflexivity).
  assert (Hn : (n >? 0) = true -> 1 <= n <= 4)
    by (intros Hgt; apply Z.gtb_lt in Hgt; lia).
  set (tone := sec_tone d hi) in *.
  set (ifreq := Z.abs (freq - lo)) in *.
  clearbody voltage tone ifreq.
  repeat step_run H;
    repeat match goal with
      | Hp : dvb_set_props _ _ _ _ _ = _ |- _ =>
          apply dvb_set_props_steps in Hp as (? & ? & ?)
      end;
    run_parts; subst r;
    (split; [eexists; split; [reflexivity | auto] |]);
    (split; [| split];
     try (intros Hok;
          repeat match goal with
            | Hs : (forall h' c, 0 <= os h' c) -> _ |- _ =>
                specialize (Hs Hok)
            end;
          subst; try discriminate; try reflexivity;
          match goal with
          | Hz : (os ?h' ?c <? 0) = true |- _ =>
              apply Z.ltb_lt in Hz; specialize (Hok h' c); lia
          end);
     try (intros Heq; try discriminate));
    rewrite !sec_steps_app;
    repeat match goal with
      | Hs : sec_steps ?e' = _ |- context [sec_steps ?e'] => rewrite Hs
      end;
    cbn [sec_steps omap list_omap app va_props va_arg];
    rewrite ?Hv, ?Ht, ?Hi, ?Hk1, ?Hk2, ?Hk3, ?Hk4;
    change (Z.of_nat 2) with 2;
    unfold sec_sequence;
    repeat match goal with
      | Hz : (n >? 0) = _ |- _ => rewrite Hz
      end;
    rewrite ?diseqc_byte, ?diseqc_burst by lia;
    cbn [app];
    try reflexivity;
    try destruct (n >? 0);
    eexists; cbn [app]; reflexivity.
Qed.

Lemma dvb_set_sec_sequence_witness :
  fst (dvb_set_sec host_ok fresh_session 11000000 (uchar "V") 0 0 11700000 [])
  = Some 0 /\
  sec_steps
    (snd (dvb_set_sec host_ok fresh_session 11000000 (uchar "V") 0 0
            11700000 []))
  = sec_sequence 0 SEC_VOLTAGE_13 2 SEC_TONE_ON 1250000.
Proof.
  destruct (dvb_set_sec_sequence host_ok fresh_session 11000000 (uchar "V")
              0 0 11700000 []) as (_ & _ & Hfull & Hok).
  - vm_compute. split; [discriminate | reflexivity].
  - vm_compute. split; [discriminate | reflexivity].
  - vm_compute. split; [discriminate | reflexivity].
  - vm_compute. split; discriminate.
  - vm_compute. reflexivity.
  - split; [apply Hok, host_ok_nonneg |].
    rewrite (Hfull (Hok host_ok_nonneg)). vm_compute. reflexivity.
Defined.

(** * Further properties of the configurators *)

Lemma dvb_parse_str_range str map n def :
  Forall (fun e => 0 <= linux_ e < 2 ^ 32) map -> 0 <= def < 2 ^ 32 ->
  0 <= dvb_parse_str str map n def < 2 ^ 32.
Proof.
  intros Hmap Hdef. rewrite Forall_forall in Hmap.
  destruct str as [s |]; [| exact Hdef]. unfold dvb_parse_str.
  destruct (bsearch (scmp s) map n) as [e |] eqn:Hb; [| exact Hdef].
  apply bsearch_sound in Hb as [Hin _]. now apply Hmap.
Qed.

Lemma mods_range : Forall (fun e => 0 <= linux_ e < 2 ^ 32) mods.
Proof. prove_forall ltac:(vm_compute; split; [discriminate | reflexivity]). Qed.

Lemma rates_range : Forall (fun e => 0 <= linux_ e < 2 ^ 32) rates.
Proof. prove_forall ltac:(vm_compute; split; [discriminate | reflexivity]). Qed.

Lemma to_uint32_twice z : 0 <= z < 2 ^ 32 -> to_uint32 (to_uint32 z) = z.
Proof.
  intros Hz. rewrite to_uint32_idem. apply Z.mod_small. exact Hz.
Qed.

Section Configurators.
Variable os : list event -> call -> Z.

(** X22.  What the configurators submit.  The frequency is multiplied by
    1000 for cable and ATSC and passed as it is for satellite, in unsigned
    32-bit arithmetic.  The modulation is the enumerator the table gives
    for the string, and for a null or unknown string the default of the
    system: automatic QAM for cable, QPSK for DVB-S2, 8-VSB for ATSC;
    DVB-S sets no modulation.  The inner FEC is the table's enumerator or
    the automatic one.  The inversion is off for 0, on for 1 and automatic
    for any other value. *)
Theorem configurators_values (d : dvb_device) (h : list event)
    (freq srate pilot rolloff v : Z) (modstr fecstr : option string) :
  (forall s, modstr = Some s -> no_nul s = true) ->
  (forall s, fecstr = Some s -> no_nul s = true) ->
  let run_dvbc := dvb_set_dvbc os d freq modstr srate fecstr h in
  let run_dvbs := dvb_set_dvbs os d freq srate fecstr h in
  let run_dvbs2 :=
    dvb_set_dvbs2 os d freq modstr srate fecstr pilot rolloff h in
  let run_atsc := dvb_set_atsc os d freq modstr h in
  let run_cqam := dvb_set_cqam os d freq modstr h in
  (setting DTV_FREQUENCY run_dvbc = Some ((freq * 1000) mod 2 ^ 32) /\
   setting DTV_FREQUENCY run_atsc = Some ((freq * 1000) mod 2 ^ 32) /\
   setting DTV_FREQUENCY run_cqam = Some ((freq * 1000) mod 2 ^ 32) /\
   setting DTV_FREQUENCY run_dvbs = Some (freq mod 2 ^ 32) /\
   setting DTV_FREQUENCY run_dvbs2 = Some (freq mod 2 ^ 32)) /\
  (setting DTV_MODULATION run_dvbc = Some (translate_str modstr mods QAM_AUTO) /\
   setting DTV_MODULATION run_dvbs2 = Some (translate_str modstr mods QPSK) /\
   setting DTV_MODULATION run_atsc = Some (translate_str modstr mods VSB_8) /\
   setting DTV_MODULATION run_cqam = Some (translate_str modstr mods QAM_AUTO) /\
   setting DTV_MODULATION run_dvbs = None) /\
  (setting DTV_INNER_FEC run_dvbc = Some (translate_str fecstr rates FEC_AUTO) /\
   setting DTV_INNER_FEC run_dvbs = Some (translate_str fecstr rates FEC_AUTO) /\
   setting DTV_INNER_FEC run_dvbs2
   = Some (translate_str fecstr rates FEC_AUTO)) /\
  setting DTV_INVERSION (dvb_set_inversion os d v h)
  = Some (if v =? 0 then INVERSION_OFF
          else if v =? 1 then INVERSION_ON
          else INVERSION_AUTO).
Proof.
  intros Hmod Hfec. cbv zeta.
  assert (Hm : forall def, 0 <= def < 2 ^ 32 ->
            to_uint32 (to_uint32 (dvb_parse_modulation modstr def))
            = translate_str modstr mods def).
  { intros def Hdef. unfold dvb_parse_modulation.
    rewrite to_uint32_twice
      by (apply dvb_parse_str_range; [apply mods_range | exact Hdef]).
    apply dvb_parse_str_translate; [exact Hmod | apply mods_table]. }
  assert (Hf : to_uint32 (to_uint32 (dvb_parse_fec fecstr))
               = translate_str fecstr rates FEC_AUTO).
  { unfold dvb_parse_fec.
    rewrite to_uint32_twice
      by (apply dvb_parse_str_range;
          [apply rates_range | vm_compute; split; [discriminate | reflexivity]]).
    apply dvb_parse_str_translate; [exact Hfec | apply rates_table]. }
  unfold setting, dvb_set_dvbc, dvb_set_dvbs, dvb_set_dvbs2, dvb_set_atsc,
    dvb_set_cqam, dvb_set_inversion, dvb_set_prop.
  rewrite !dvb_set_props_submitted. cbn [va_props va_arg].
  repeat match goal with
    | |- _ /\ _ => split
    end;
    prop_value_eval;
    rewrite ?Hm by (vm_compute; split; [discriminate | reflexivity]);
    rewrite ?Hf; rewrite ?to_uint32_idem;
    try reflexivity.
  destruct (v =? 0); [reflexivity |]. destruct (v =? 1); reflexivity.
Qed.
End Configurators.

Lemma configurators_values_witness :
  setting DTV_FREQUENCY
    (dvb_set_dvbc host_ok fresh_session 346000 (Some "64QAM") 6900 (Some "9/10") [])
  = Some 346000000 /\
  setting DTV_MODULATION
    (dvb_set_atsc host_ok fresh_session 346000 (Some "64QAM") [])
  = Some QAM_64 /\
  setting DTV_INNER_FEC
    (dvb_set_dvbs host_ok fresh_session 346000 6900 (Some "9/10") [])
  = Some FEC_9_10.
Proof.
  destruct (configurators_values host_ok fresh_session [] 346000 6900 0 0 0
              (Some "64QAM") (Some "9/10"))
    as ((Hfreq & _) & (_ & _ & Hmod & _) & (_ & Hfec & _) & _).
  - intros s [= <-]. reflexivity.
  - intros s [= <-]. reflexivity.
  - split; [exact Hfreq |]. split; [exact Hmod | exact Hfec].
Defined.

(** * Properties of the Cedar decoder input *)

Section Cedar.
Variable k : vlc_block_h.

Lemma DecodeBlock_inputs_app have bs1 bs2 :
  DecodeBlock_inputs k have (bs1 ++ bs2)
  = (fst (DecodeBlock_inputs k have bs1)
     ++ fst (DecodeBlock_inputs k (snd (DecodeBlock_inputs k have bs1)) bs2),
     snd (DecodeBlock_inputs k (snd (DecodeBlock_inputs k have bs1)) bs2)).
Proof.
  revert have. induction bs1 as [| b bs1 IH]; intros have; simpl.
  - now destruct (DecodeBlock_inputs k have bs2).
  - destruct (DecodeBlock_input k have b) as [x have1]. rewrite IH.
    destruct (DecodeBlock_inputs k have1 bs1) as [xs have2]. reflexivity.
Qed.

Lemma DecodeBlock_inputs_length have bs :
  length (fst (DecodeBlock_inputs k have bs)) = length bs.
Proof.
  revert have. induction bs as [| b bs IH]; intros have; simpl; [reflexivity |].
  destruct (DecodeBlock_input k have b) as [x have1]. specialize (IH have1).
  destruct (DecodeBlock_inputs k have1 bs) as [xs have2]. simpl in *.
  now rewrite IH.
Qed.

(** Once [b_have_pts] is set it stays set, and no block is fed with its
    DTS. *)
Lemma DecodeBlock_inputs_latched bs :
  snd (DecodeBlock_inputs k true bs) = true /\
  forall i b t, bs !! i = Some b ->
    fst (DecodeBlock_inputs k true bs) !! i = Some (in_stream t) ->
    t = -1 \/ t = i_pts b /\ VLC_TS_INVALID k < t.
Proof.
  induction bs as [| b bs [IHs IHt]]; simpl.
  - split; [reflexivity |]. intros i b t Hb. discriminate.
  - assert (Hone : snd (DecodeBlock_input k true b) = true /\
              forall t, fst (DecodeBlock_input k true b) = in_stream t ->
                t = -1 \/ t = i_pts b /\ VLC_TS_INVALID k < t).
    { unfold DecodeBlock_input.
      destruct (negb _); [split; [reflexivity | discriminate] |].
      destruct (_ =? 0); [| split; [reflexivity | discriminate]].
      destruct (Z.gtb_spec (i_pts b) (VLC_TS_INVALID k)) as [Hgt | Hle];
        cbn [negb fst snd]; (split; [reflexivity |]); intros t [= <-]; auto. }
    destruct (DecodeBlock_input k true b) as [x have1]. cbn [fst snd] in Hone.
    destruct Hone as [-> Hx].
    destruct (DecodeBlock_inputs k true bs) as [xs have2]. cbn [fst snd] in *.
    split; [exact IHs |].
    intros [| i] b' t Hb Ht; simpl in Hb, Ht.
    + injection Hb as <-. injection Ht as ->. now apply Hx.
    + now apply (IHt i).
Qed.

(** X23.  In the Cedar decoder, once a block with a valid PTS has been fed,
    no later block is fed with its DTS as timestamp: each later block fed
    carries its own PTS, valid, or the timestamp -1. *)
Theorem DecodeBlock_pts_latch (have : bool) (bs1 bs2 : list block_t)
    (b : block_t) :
  fed k b -> VLC_TS_INVALID k < i_pts b ->
  forall i b' t, bs2 !! i = Some b' ->
    fst (DecodeBlock_inputs k have (bs1 ++ b :: bs2))
      !! (length bs1 + S i)%nat = Some (in_stream t) ->
    t = -1 \/ t = i_pts b' /\ VLC_TS_INVALID k < t.
Proof.
  intros [Heos Hbad] Hpts i b' t Hb' Ht.
  rewrite DecodeBlock_inputs_app in Ht. cbn [fst] in Ht.
  rewrite lookup_app_r in Ht by (rewrite DecodeBlock_inputs_length; lia).
  rewrite DecodeBlock_inputs_length in Ht.
  replace (length bs1 + S i - length bs1)%nat with (S i) in Ht by lia.
  simpl in Ht.
  assert (Hfed : DecodeBlock_input k
                   (snd (DecodeBlock_inputs k have bs1)) b
                 = (in_stream (i_pts b), true)).
  { unfold DecodeBlock_input. rewrite Heos, Hbad. cbn.
    apply Z.gtb_lt in Hpts. now rewrite Hpts. }
  rewrite Hfed in Ht.
  destruct (DecodeBlock_inputs_latched bs2) as [_ Hlater].
  destruct (DecodeBlock_inputs k true bs2) as [xs have2]. simpl in Ht.
  now apply (Hlater i).
Qed.
End Cedar.

Lemma DecodeBlock_pts_latch_witness :
  fst (DecodeBlock_inputs some_block_h false
         [ {| i_flags := 0; i_pts := 0; i_dts := 40 |};
           {| i_flags := 0; i_pts := 90; i_dts := 80 |};
           {| i_flags := 0; i_pts := 0; i_dts := 120 |} ])
  = [in_stream 40; in_stream 90; in_stream (-1)] /\
  (-1 = -1 \/ -1 = 0 /\ 0 < -1).
Proof.
  split; [reflexivity |].
  apply (DecodeBlock_pts_latch some_block_h false
           [ {| i_flags := 0; i_pts := 0; i_dts := 40 |} ]
           [ {| i_flags := 0; i_pts := 0; i_dts := 120 |} ]
           {| i_flags := 0; i_pts := 90; i_dts := 80 |}
           ltac:(split; reflexivity) ltac:(reflexivity)
           0%nat {| i_flags := 0; i_pts := 0; i_dts := 120 |} (-1)).
  - reflexivity.
  - reflexivity.
Defined.

Lemma dvb_parse_str_value str map def :
  (forall s, str = Some s -> no_nul s = true) -> str_table map ->
  Forall (fun e => 0 <= linux_ e < 2 ^ 32) map -> 0 <= def < 2 ^ 32 ->
  to_uint32 (to_uint32 (dvb_parse_str str map (length map) def))
  = translate_str str map def.
Proof.
  intros Hstr Htab Hmap Hdef.
  rewrite to_uint32_twice by now apply dvb_parse_str_range.
  now apply dvb_parse_str_translate.
Qed.

Lemma dvb_parse_int_value i map def :
  is_int i -> int_table map ->
  Forall (fun e => 0 <= linux_ e < 2 ^ 32) map -> 0 <= def < 2 ^ 32 ->
  to_uint32 (to_uint32 (dvb_parse_int i map (length map) def))
  = translate_int i map def.
Proof.
  intros Hi Htab Hmap Hdef. rewrite Forall_forall in Hmap.
  rewrite to_uint32_twice.
  - now apply dvb_parse_int_translate.
  - unfold dvb_parse_int.
    destruct (bsearch (icmp i) map (length map)) as [e |] eqn:Hb;
      [| exact Hdef].
    apply bsearch_sound in Hb as [Hin _]. now apply Hmap.
Qed.

Lemma guard_tab_range : Forall (fun e => 0 <= linux_ e < 2 ^ 32) guard_tab.
Proof. prove_forall ltac:(vm_compute; split; [discriminate | reflexivity]). Qed.

Lemma transmit_mode_tab_range :
  Forall (fun e => 0 <= linux_ e < 2 ^ 32) transmit_mode_tab.
Proof. prove_forall ltac:(vm_compute; split; [discriminate | reflexivity]). Qed.

(** X24.  What [dvb_set_dvbt] submits besides frequency and bandwidth: the
    modulation, the two code rates and the guard interval are the
    enumerators their tables give for the strings, and the automatic
    setting for a null or unknown string; the transmission mode is the
    enumerator for 2, 4 or 8 and automatic for any other value. *)
Theorem dvb_set_dvbt_values (os : list event -> call -> Z) (d : dvb_device)
    (h : list event) (freq bandwidth transmit_val hierarchy_val : Z)
    (modstr fechstr feclstr guardstr : option string) :
  (forall s, modstr = Some s -> no_nul s = true) ->
  (forall s, fechstr = Some s -> no_nul s = true) ->
  (forall s, feclstr = Some s -> no_nul s = true) ->
  (forall s, guardstr = Some s -> no_nul s = true) ->
  is_int transmit_val ->
  let run :=
    dvb_set_dvbt os d freq modstr fechstr feclstr bandwidth transmit_val
      guardstr hierarchy_val h in
  setting DTV_MODULATION run = Some (translate_str modstr mods QAM_AUTO) /\
  setting DTV_CODE_RATE_HP run = Some (translate_str fechstr rates FEC_AUTO) /\
  setting DTV_CODE_RATE_LP run = Some (translate_str feclstr rates FEC_AUTO) /\
  setting DTV_GUARD_INTERVAL run
  = Some (translate_str guardstr guard_tab GUARD_INTERVAL_AUTO) /\
  setting DTV_TRANSMISSION_MODE run
  = Some (translate_int transmit_val transmit_mode_tab TRANSMISSION_MODE_AUTO).
Proof.
  intros Hmod Hhp Hlp Hguard Htr. cbv zeta.
  unfold setting, dvb_set_dvbt. rewrite dvb_set_props_submitted.
  cbn [va_props va_arg].
  unfold dvb_parse_modulation, dvb_parse_fec, dvb_parse_guard,
    dvb_parse_transmit_mode.
  repeat match goal with
    | |- _ /\ _ => split
    end;
    prop_value_eval; f_equal;
    (apply dvb_parse_str_value || apply dvb_parse_int_value);
    auto using mods_table, rates_table, guard_tab_table,
      transmit_mode_tab_table, mods_range, rates_range, guard_tab_range,
      transmit_mode_tab_range;
    (vm_compute; split; [discriminate | reflexivity]).
Qed.

Lemma dvb_set_dvbt_values_witness :
  setting DTV_GUARD_INTERVAL
    (dvb_set_dvbt host_ok fresh_session 474000 (Some "64QAM") (Some "2/3")
       None 8 8 (Some "1/4") 0 [])
  = Some GUARD_INTERVAL_1_4 /\
  setting DTV_TRANSMISSION_MODE
    (dvb_set_dvbt host_ok fresh_session 474000 (Some "64QAM") (Some "2/3")
       None 8 8 (Some "1/4") 0 [])
  = Some TRANSMISSION_MODE_8K.
Proof.
  destruct (dvb_set_dvbt_values host_ok fresh_session [] 474000 8 8 0
              (Some "64QAM") (Some "2/3") None (Some "1/4"))
    as (_ & _ & _ & Hguard & Htr).
  - intros s [= <-]. reflexivity.
  - intros s [= <-]. reflexivity.
  - intros s. discriminate.
  - intros s [= <-]. reflexivity.
  - vm_compute. split; discriminate.
  - split; [exact Hguard | exact Htr].
Defined.
